(** * Weather dashboard: geocode -> weather / forecast orchestration

    A shallow embedding of the request pipeline of the weather dashboard
    ([app/services/weather.py], [app/main.py], [app/api/weather.py]) and the
    properties of its aggregation, error mapping and call discipline.

    Conventions of the embedding.
    - JSON values are the Python objects [response.json()] builds: dicts keep
      insertion order and are association lists with unique keys.
    - Python exceptions are values of [exn]; a computation returns [Ok v] or
      [Raise e].
    - The outside world (the two HTTP providers, the process's time zone, the
      API key, the pydantic models) is a [Platform]; every outbound call is
      appended to a trace, also when the code raises afterwards.
    - [print] and [logger] calls have no effect on any result and are left
      out. *)

From Stdlib Require Import List String Ascii ZArith Bool Lia Floats Permutation.
From Stdlib Require Import DecimalString.
Import ListNotations.
Local Open Scope string_scope.
Local Open Scope Z_scope.

(* ===================================================================== *)
(** ** JSON values and Python dictionaries *)
(* ===================================================================== *)

Module Json.

#[warnings="-register-all"]
Inductive json : Type :=
| JNull
| JBool (b : bool)
| JInt (n : Z)
| JFloat (f : float)
| JString (s : string)
| JList (xs : list json)
| JObject (kvs : list (string * json)).

(** A dict with string keys, in insertion order. *)
Definition dict (V : Type) : Type := list (string * V).

Section Dict.
Context {V : Type}.

(** [d.get(k)] / [d[k]]: the value stored under [k], if any. *)
Fixpoint dict_get (k : string) (d : dict V) : option V :=
  match d with
  | [] => None
  | (k', v) :: rest => if String.eqb k k' then Some v else dict_get k rest
  end.

(** [k in d]. *)
Definition dict_contains (k : string) (d : dict V) : bool :=
  match dict_get k d with Some _ => true | None => false end.

(** [d[k] = v]: an existing key keeps its position, a new key goes last. *)
Fixpoint dict_set (k : string) (v : V) (d : dict V) : dict V :=
  match d with
  | [] => [(k, v)]
  | (k', v') :: rest =>
      if String.eqb k k' then (k', v) :: rest else (k', v') :: dict_set k v rest
  end.

(** [list(d.keys())] and [list(d.values())]. *)
Definition dict_keys (d : dict V) : list string := map fst d.
Definition dict_values (d : dict V) : list V := map snd d.
End Dict.

(** Python truthiness of a JSON value ([if not x]). *)
Definition truthy (j : json) : bool :=
  match j with
  | JNull => false
  | JBool b => b
  | JInt n => negb (n =? 0)
  | JFloat f => negb (PrimFloat.eqb f 0%float)
  | JString s => negb (String.eqb s EmptyString)
  | JList xs => match xs with [] => false | _ => true end
  | JObject kvs => match kvs with [] => false | _ => true end
  end.

(** Truthiness of an [Optional[...]] result: [None] is false. *)
Definition truthy_opt (o : option json) : bool :=
  match o with None => false | Some j => truthy j end.

(** Nested lookup [j[k1][k2]...] as a partial function, used to state
    properties of reports. *)
Fixpoint path (j : json) (ks : list string) : option json :=
  match ks with
  | [] => Some j
  | k :: rest =>
      match j with
      | JObject kvs =>
          match dict_get k kvs with
          | Some v => path v rest
          | None => None
          end
      | _ => None
      end
  end.

End Json.
Export Json.

(* ===================================================================== *)
(** ** Python exceptions and the operations the code applies to JSON *)
(* ===================================================================== *)

Module Py.

Inductive exn : Type :=
| KeyError (key : string)
| IndexError
| TypeError
| AttributeError
| ValueError
| OverflowError
| JSONDecodeError
| ValidationError                                 (* pydantic *)
| TimeoutException                                (* httpx *)
| TransportError                                  (* httpx, not a timeout *)
| HTTPStatusError (status_code : Z)               (* httpx *)
| HTTPException (status_code : Z) (detail : string). (* fastapi *)

Inductive result (A : Type) : Type :=
| Ok (a : A)
| Raise (e : exn).
Arguments Ok {A} a.
Arguments Raise {A} e.

Definition rbind {A B : Type} (m : result A) (k : A -> result B) : result B :=
  match m with
  | Ok a => k a
  | Raise e => Raise e
  end.

Definition is_ok {A : Type} (m : result A) : bool :=
  match m with Ok _ => true | Raise _ => false end.

(** [j[k]] with a string key. *)
Definition getitem (j : json) (k : string) : result json :=
  match j with
  | JObject kvs =>
      match dict_get k kvs with
      | Some v => Ok v
      | None => Raise (KeyError k)
      end
  | _ => Raise TypeError
  end.

(** [j[0]]. *)
Definition getitem0 (j : json) : result json :=
  match j with
  | JList (x :: _) => Ok x
  | JList [] => Raise IndexError
  | JString (String c _) => Ok (JString (String c EmptyString))
  | JString EmptyString => Raise IndexError
  | JObject _ => Raise (KeyError "0")
  | _ => Raise TypeError
  end.

(** [j.get(k, default)]: only dicts have the method. *)
Definition get_method (j : json) (k : string) (default : json) : result json :=
  match j with
  | JObject kvs =>
      match dict_get k kvs with
      | Some v => Ok v
      | None => Ok default
      end
  | _ => Raise AttributeError
  end.

(** [j[k] = v] with a string key. *)
Definition setitem (j : json) (k : string) (v : json) : result json :=
  match j with
  | JObject kvs => Ok (JObject (dict_set k v kvs))
  | _ => Raise TypeError
  end.

Fixpoint chars (s : string) : list json :=
  match s with
  | EmptyString => []
  | String c rest => JString (String c EmptyString) :: chars rest
  end.

(** [for item in j]: the items a [for] loop visits. *)
Definition iterate (j : json) : result (list json) :=
  match j with
  | JList xs => Ok xs
  | JObject kvs => Ok (map (fun kv => JString (fst kv)) kvs)
  | JString s => Ok (chars s)
  | _ => Raise TypeError
  end.

(** One element of the sequence handed to [dict(...)]: a pair (key, value).
    A key that is not a string makes the later keyword unpacking raise
    [TypeError]; it is raised here, inside the same [try]. *)
Definition pair_of (x : json) : result (string * json) :=
  match x with
  | JList [JString k; v] => Ok (k, v)
  | JList [_; _] => Raise TypeError
  | JList _ => Raise ValueError
  | JString (String a (String b EmptyString)) =>
      Ok (String a EmptyString, JString (String b EmptyString))
  | JString _ => Raise ValueError
  | JObject [(k1, _); (k2, _)] => Ok (k1, JString k2)
  | JObject _ => Raise ValueError
  | _ => Raise TypeError
  end.

Fixpoint pairs_of (xs : list json) (acc : dict json) : result (dict json) :=
  match xs with
  | [] => Ok acc
  | x :: rest =>
      rbind (pair_of x) (fun kv => pairs_of rest (dict_set (fst kv) (snd kv) acc))
  end.

(** [dict(j)]: a copy of a dict, or a dict built from a sequence of pairs. *)
Definition py_dict (j : json) : result (dict json) :=
  match j with
  | JObject kvs => Ok kvs
  | JNull | JBool _ | JInt _ | JFloat _ => Raise TypeError
  | _ => rbind (iterate j) (fun xs => pairs_of xs [])
  end.

(** The quotient [num / den] rounded to the nearest integer, ties to the
    even one ([den] positive). *)
Definition round_half_even (num den : Z) : Z :=
  let q := num / den in
  let r := num mod den in
  if 2 * r <? den then q
  else if den <? 2 * r then q + 1
  else if Z.even q then q else q + 1.

(** [round(x)] with one argument: an int is returned as it is, a float is
    rounded to the nearest int, ties to even; infinities and NaN have no
    int. *)
Definition py_round (x : json) : result json :=
  match x with
  | JInt n => Ok (JInt n)
  | JBool b => Ok (JInt (if b then 1 else 0))
  | JFloat f =>
      match Prim2SF f with
      | S754_zero _ => Ok (JInt 0)
      | S754_finite neg m e =>
          let magnitude :=
            if 0 <=? e then Z.pos m * 2 ^ e
            else round_half_even (Z.pos m) (2 ^ (- e)) in
          Ok (JInt (if neg then - magnitude else magnitude))
      | S754_infinity _ => Raise OverflowError
      | S754_nan => Raise ValueError
      end
  | _ => Raise TypeError
  end.

(** A byte that continues a UTF-8 code point (10xxxxxx). *)
Definition is_continuation (c : ascii) : bool :=
  match c with
  | Ascii _ _ _ _ _ _ b6 b7 => b7 && negb b6
  end.

(** The first [n] characters of a string held as its UTF-8 bytes. *)
Fixpoint utf8_take (n : nat) (s : string) : string :=
  match s with
  | EmptyString => EmptyString
  | String c rest =>
      if is_continuation c then String c (utf8_take n rest)
      else
        match n with
        | O => EmptyString
        | S n' => String c (utf8_take n' rest)
        end
  end.

(** [x[:n]]: lists and strings can be sliced; a dict, a number or [None]
    raises (the class of the exception for a dict depends on the Python
    version; every caller catches them all). *)
Definition slice_to (n : nat) (x : json) : result json :=
  match x with
  | JList xs => Ok (JList (firstn n xs))
  | JString s => Ok (JString (utf8_take n s))
  | _ => Raise TypeError
  end.

End Py.
Export Py.

(* ===================================================================== *)
(** ** Outbound HTTP: requests, replies, and the platform *)
(* ===================================================================== *)

Module Http.

(** What [client.get(url, params=..., headers=..., timeout=...)] sends.
    [timeout] is the effective deadline in seconds, [None] when neither the
    client nor the call sets one (the library default applies). *)
Record request : Type := mkRequest {
  url : string;
  params : dict json;
  headers : list (string * string);
  timeout : option float
}.

Inductive transport_failure : Type :=
| TimedOut      (* the deadline expired *)
| Unreachable.  (* DNS, connection refused, broken connection *)

(** What comes back: the call raises, or a response with a status code and
    a body, [None] when the body is not JSON. *)
Inductive reply : Type :=
| Failed (f : transport_failure)
| Response (status_code : Z) (content : option json).

Record response : Type := mkResponse {
  status_code : Z;
  content : option json
}.

Definition is_success (code : Z) : bool := (200 <=? code) && (code <=? 299).

(** [response.raise_for_status()]. *)
Definition raise_for_status (r : response) : result unit :=
  if is_success (status_code r) then Ok tt else Raise (HTTPStatusError (status_code r)).

(** [response.json()]. *)
Definition json_of (r : response) : result json :=
  match content r with
  | Some j => Ok j
  | None => Raise JSONDecodeError
  end.

Definition exn_of_failure (f : transport_failure) : exn :=
  match f with
  | TimedOut => TimeoutException
  | Unreachable => TransportError
  end.

(** [response.raise_for_status()] of the requests library: only the 4xx
    and 5xx statuses raise. Its HTTPError is held in [exn] by the
    constructor for an error status. *)
Definition is_http_error (code : Z) : bool := (400 <=? code) && (code <? 600).

Definition requests_raise_for_status (r : response) : result unit :=
  if is_http_error (status_code r) then Raise (HTTPStatusError (status_code r)) else Ok tt.

End Http.
Export Http.

(** The argument of [datetime.fromtimestamp]. *)
Inductive timestamp : Type :=
| TsInt (n : Z)
| TsFloat (f : float).

(** Everything the code takes from outside itself. *)
Class Platform : Type := {
  (** the state of the remote providers *)
  World : Type;
  (** one HTTP GET: the reply and the providers' next state *)
  send : World -> request -> reply * World;
  (** [datetime.fromtimestamp(t).strftime('%Y-%m-%d')] in the process's
      local time zone; raises outside the platform's range *)
  local_date : timestamp -> result string;
  (** the value of [OPENWEATHER_API_KEY] *)
  OPENWEATHER_API_KEY : string;
  (** the dict of the [LocationData] model built from the keywords [d]:
      pydantic validation of a location *)
  LocationData : dict json -> result (dict json);
  (** the [WeatherData] model built from the keywords [d], as serialised
      for the response *)
  WeatherData : dict json -> result json;
  (** [str(e)] *)
  exn_str : exn -> string
}.

(** The interpreter's binary64 arithmetic that the code uses for the wind
    speed. *)
Class FloatArithmetic : Type := {
  (** [round(x * 3.6, 2)]: metres per second to kilometres per hour *)
  kmh : json -> result json
}.

(* ===================================================================== *)
(** ** The effect monad: provider state, call trace, exceptions *)
(* ===================================================================== *)

Section Effects.
Context {P : Platform}.

Record state : Type := mkState {
  world : World;
  trace : list request   (* outbound calls issued so far, oldest first *)
}.

Definition IO (A : Type) : Type := state -> result A * state.

Definition ret {A : Type} (a : A) : IO A := fun st => (Ok a, st).

Definition raise {A : Type} (e : exn) : IO A := fun st => (Raise e, st).

Definition bind {A B : Type} (m : IO A) (k : A -> IO B) : IO B :=
  fun st =>
    match m st with
    | (Ok a, st') => k a st'
    | (Raise e, st') => (Raise e, st')
    end.

Definition lift {A : Type} (r : result A) : IO A := fun st => (r, st).

(** [try: m  except Exception as e: handler e]. *)
Definition try_except {A : Type} (m : IO A) (handler : exn -> IO A) : IO A :=
  fun st =>
    match m st with
    | (Ok a, st') => (Ok a, st')
    | (Raise e, st') => handler e st'
    end.

(** [await client.get(...)]. *)
Definition client_get (req : request) : IO response :=
  fun st =>
    let (r, w') := send (world st) req in
    let st' := mkState w' (trace st ++ [req]) in
    match r with
    | Failed f => (Raise (exn_of_failure f), st')
    | Response code body => (Ok (mkResponse code body), st')
    end.
End Effects.

Declare Scope io_scope.
Delimit Scope io_scope with io.
Notation "x <- m ;; k" := (bind m (fun x => k))
  (at level 61, m at next level, right associativity) : io_scope.
Notation "m ;;; k" := (bind m (fun _ => k))
  (at level 61, right associativity) : io_scope.
Notation "x <~ m ;; k" := (rbind m (fun x => k))
  (at level 61, m at next level, right associativity) : io_scope.
Local Open Scope io_scope.

(* ===================================================================== *)
(** ** app/services/weather.py: class WeatherService *)
(* ===================================================================== *)

Module WeatherService.
Section Service.
Context {P : Platform}.

(** The attributes set by [__init__]. *)
Definition api_key : json := JString OPENWEATHER_API_KEY.
Definition base_url : string := "http://api.openweathermap.org/data/2.5".
Definition geo_url : string := "http://api.openweathermap.org/geo/1.0".

(** The location dict both [get_weather] and [get_location] build from
    one geocoding match; the four lookups are evaluated in this order. *)
Definition location_dict (location : json) : result json :=
  lat <~ getitem location "lat" ;;
  lon <~ getitem location "lon" ;;
  name <~ getitem location "name" ;;
  country <~ getitem location "country" ;;
  Ok (JObject [("lat", lat); ("lon", lon); ("name", name); ("country", country)]).

(** The geocoding call of [get_weather] ([limit] 1, library default
    deadline). *)
Definition weather_geo_request (city : string) : request :=
  {| url := geo_url ++ "/direct";
     params := [("q", JString city); ("limit", JInt 1); ("appid", api_key)];
     headers := [];
     timeout := None |}.

(** The current-weather call of [get_weather]. *)
Definition weather_request (lat lon : json) : request :=
  {| url := base_url ++ "/weather";
     params := [("lat", lat); ("lon", lon); ("appid", api_key);
                ("lang", JString "en"); ("units", JString "standard")];
     headers := [("Accept-Language", "en")];
     timeout := None |}.

(** [async def get_weather(self, city)]. *)
Definition get_weather (city : string) : IO (option json) :=
  try_except
    (geo_response <- client_get (weather_geo_request city) ;;
     lift (raise_for_status geo_response) ;;;
     locations <- lift (json_of geo_response) ;;
     if negb (truthy locations) then ret None
     else
       location <- lift (getitem0 locations) ;;
       lat <- lift (getitem location "lat") ;;
       lon <- lift (getitem location "lon") ;;
       weather_response <- client_get (weather_request lat lon) ;;
       lift (raise_for_status weather_response) ;;;
       weather_data <- lift (json_of weather_response) ;;
       loc <- lift (location_dict location) ;;
       weather_data' <- lift (setitem weather_data "location" loc) ;;
       ret (Some weather_data'))
    (fun _ => ret None).

(** The geocoding call of [get_location] ([limit] 5, 30 s deadline). *)
Definition geo_request (city : string) : request :=
  {| url := geo_url ++ "/direct";
     params := [("q", JString city); ("limit", JInt 5); ("appid", api_key)];
     headers := [];
     timeout := Some 30%float |}.

(** [async def get_location(self, city)]. *)
Definition get_location (city : string) : IO (option json) :=
  try_except
    (response <- client_get (geo_request city) ;;
     lift (raise_for_status response) ;;;
     locations <- lift (json_of response) ;;
     if negb (truthy locations) then ret None
     else
       location <- lift (getitem0 locations) ;;
       loc <- lift (location_dict location) ;;
       ret (Some loc))
    (fun _ => ret None).

(** [datetime.fromtimestamp(x)...] on a JSON value: numbers (and booleans,
    which are ints) are accepted. *)
Definition fromtimestamp_date (x : json) : result string :=
  match x with
  | JInt n => local_date (TsInt n)
  | JBool b => local_date (TsInt (if b then 1 else 0))
  | JFloat f => local_date (TsFloat f)
  | _ => Raise TypeError
  end.

(** The calendar-date key of one sample:
    [datetime.fromtimestamp(item['dt']).strftime('%Y-%m-%d')]. *)
Definition date_of (item : json) : result string :=
  dt <~ getitem item "dt" ;;
  fromtimestamp_date dt.

(** The dict literal stored for a date not seen before; the lookups are
    evaluated in source order. *)
Definition daily_entry (item : json) : result json :=
  dt <~ getitem item "dt" ;;
  main <~ getitem item "main" ;;
  temp <~ getitem main "temp" ;;
  main1 <~ getitem item "main" ;;
  temp_min <~ getitem main1 "temp_min" ;;
  main2 <~ getitem item "main" ;;
  temp_max <~ getitem main2 "temp_max" ;;
  main3 <~ getitem item "main" ;;
  humidity <~ getitem main3 "humidity" ;;
  weather <~ getitem item "weather" ;;
  wind <~ getitem item "wind" ;;
  speed <~ getitem wind "speed" ;;
  rain <~ get_method item "rain" (JObject []) ;;
  rain3h <~ get_method rain "3h" (JInt 0) ;;
  Ok (JObject [("dt", dt);
               ("temp", JObject [("day", temp); ("min", temp_min); ("max", temp_max)]);
               ("humidity", humidity);
               ("weather", weather);
               ("speed", speed);
               ("rain", rain3h)]).

(** The [for item in data['list']] loop over the samples still to visit,
    threading [daily_data]. *)
Fixpoint aggregate (items : list json) (daily_data : dict json) : result (dict json) :=
  match items with
  | [] => Ok daily_data
  | item :: rest =>
      date <~ date_of item ;;
      if negb (dict_contains date daily_data) then
        entry <~ daily_entry item ;;
        aggregate rest (dict_set date entry daily_data)
      else aggregate rest daily_data
  end.

(** The body of the [try] after [data = response.json()]. *)
Definition build_report (data : json) : result json :=
  samples <~ getitem data "list" ;;
  items <~ iterate samples ;;
  daily_data <~ aggregate items [] ;;
  city <~ getitem data "city" ;;
  cod <~ getitem data "cod" ;;
  Ok (JObject [("city", city);
               ("cod", cod);
               ("message", JInt 0);
               ("cnt", JInt (Z.of_nat (List.length daily_data)));
               ("list", JList (dict_values daily_data))]).

(** The forecast call (40 three-hour samples, 30 s deadline). *)
Definition forecast_request (lat lon : json) : request :=
  {| url := base_url ++ "/forecast";
     params := [("lat", lat); ("lon", lon); ("appid", api_key);
                ("units", JString "standard"); ("cnt", JInt 40)];
     headers := [];
     timeout := Some 30%float |}.

(** [async def get_monthly_forecast(self, lat, lon)]. *)
Definition get_monthly_forecast (lat lon : json) : IO (option json) :=
  try_except
    (response <- client_get (forecast_request lat lon) ;;
     lift (raise_for_status response) ;;;
     data <- lift (json_of response) ;;
     result <- lift (build_report data) ;;
     ret (Some result))
    (fun _ => ret None).

Context {F : FloatArithmetic}.

(** The call of [get_weather_by_location]: [requests.get] with no
    deadline. *)
Definition onecall_request (lat lon : json) : request :=
  {| url := base_url ++ "/onecall";
     params := [("lat", lat); ("lon", lon); ("appid", api_key);
                ("units", JString "metric"); ("lang", JString "en")];
     headers := [];
     timeout := None |}.

(** The ["current"] dict of the report; the lookups are evaluated in source
    order. *)
Definition current_conditions (data : json) : result json :=
  c1 <~ getitem data "current" ;;
  t <~ getitem c1 "temp" ;;
  temp <~ py_round t ;;
  c2 <~ getitem data "current" ;;
  f <~ getitem c2 "feels_like" ;;
  feels_like <~ py_round f ;;
  c3 <~ getitem data "current" ;;
  humidity <~ getitem c3 "humidity" ;;
  c4 <~ getitem data "current" ;;
  pressure <~ getitem c4 "pressure" ;;
  c5 <~ getitem data "current" ;;
  ws <~ getitem c5 "wind_speed" ;;
  wind_speed <~ kmh ws ;;
  c6 <~ getitem data "current" ;;
  wind_deg <~ getitem c6 "wind_deg" ;;
  c7 <~ getitem data "current" ;;
  ws7 <~ getitem c7 "weather" ;;
  weather <~ getitem0 ws7 ;;
  Ok (JObject [("temp", temp);
               ("feels_like", feels_like);
               ("humidity", humidity);
               ("pressure", pressure);
               ("wind_speed", wind_speed);
               ("wind_deg", wind_deg);
               ("weather", weather)]).

(** The dict [get_weather_by_location] returns for the provider's [data]. *)
Definition onecall_report (data : json) : result json :=
  current <~ current_conditions data ;;
  h <~ getitem data "hourly" ;;
  hourly <~ slice_to 24 h ;;
  d <~ getitem data "daily" ;;
  daily <~ slice_to 7 d ;;
  alerts <~ get_method data "alerts" (JList []) ;;
  Ok (JObject [("current", current);
               ("hourly", hourly);
               ("daily", daily);
               ("alerts", alerts)]).

(** [def get_weather_by_location(self, lat, lon)]. *)
Definition get_weather_by_location (lat lon : json) : IO (option json) :=
  try_except
    (response <- client_get (onecall_request lat lon) ;;
     lift (requests_raise_for_status response) ;;;
     data <- lift (json_of response) ;;
     report <- lift (onecall_report data) ;;
     ret (Some report))
    (fun _ => ret None).

(** The geocoding call of [get_weather_by_city]. *)
Definition city_request (city : string) : request :=
  {| url := "http://api.openweathermap.org/geo/1.0/direct";
     params := [("q", JString city); ("limit", JInt 1); ("appid", api_key)];
     headers := [];
     timeout := None |}.

(** [def get_weather_by_city(self, city)]. *)
Definition get_weather_by_city (city : string) : IO (option json) :=
  try_except
    (response <- client_get (city_request city) ;;
     lift (requests_raise_for_status response) ;;;
     locations <- lift (json_of response) ;;
     if negb (truthy locations) then ret None
     else
       location <- lift (getitem0 locations) ;;
       lat <- lift (getitem location "lat") ;;
       lon <- lift (getitem location "lon") ;;
       get_weather_by_location lat lon)
    (fun _ => ret None).
End Service.
End WeatherService.

(* ===================================================================== *)
(** ** app/main.py *)
(* ===================================================================== *)

Module Main.
Section MainModule.
Context {P : Platform}.

Definition API_KEY : json := JString OPENWEATHER_API_KEY.
Definition WEATHER_API_URL : string := "https://api.openweathermap.org/data/2.5/weather".

(** Keyword unpacking of a mapping with string keys. *)
Definition kwargs (j : json) : result (dict json) :=
  match j with
  | JObject kvs => Ok kvs
  | _ => Raise TypeError
  end.

(** [async def get_location(city)]: the validated location model, given
    by its dict, or [None]. *)
Definition get_location (city : string) : IO (option (dict json)) :=
  try_except
    (location_data <- WeatherService.get_location city ;;
     match location_data with
     | Some d =>
         if truthy d then
           kw <- lift (kwargs d) ;;
           model <- lift (LocationData kw) ;;
           ret (Some model)
         else ret None
     | None => ret None
     end)
    (fun _ => ret None).

(** The current-weather call of [get_weather]: the client is built with
    [timeout=10.0]. *)
Definition weather_request (lat lon : json) : request :=
  {| url := WEATHER_API_URL;
     params := [("lat", lat); ("lon", lon); ("appid", API_KEY);
                ("lang", JString "zh_cn")];
     headers := [];
     timeout := Some 10%float |}.

(** [async def get_weather(lat, lon)]. *)
Definition get_weather (lat lon : json) : IO json :=
  try_except
    (response <- client_get (weather_request lat lon) ;;
     lift (raise_for_status response) ;;;
     data <- lift (json_of response) ;;
     ret data)
    (fun e =>
       match e with
       | TimeoutException =>
           raise (HTTPException 504 "Request timeout")
       | HTTPStatusError _ =>
           raise (HTTPException 500 (exn_str e))
       | _ =>
           raise (HTTPException 500 ("Internal server error: " ++ exn_str e))
       end).

(** [@app.get("/api/weather/{city}")  async def get_city_weather(city)]. *)
Definition get_city_weather (city : string) : IO json :=
  try_except
    ((if String.eqb city EmptyString then
        raise (HTTPException 422 "City name cannot be empty")
      else ret tt) ;;;
     location_data <- get_location city ;;
     match location_data with
     | None => raise (HTTPException 404 "City not found")
     | Some location_dict =>
         lat <- lift (getitem (JObject location_dict) "lat") ;;
         lon <- lift (getitem (JObject location_dict) "lon") ;;
         weather_data <- get_weather lat lon ;;
         weather_dict <- lift (py_dict weather_data) ;;
         lift (WeatherData (dict_set "location" (JObject location_dict) weather_dict))
     end)
    (fun e =>
       match e with
       | HTTPException _ _ => raise e
       | _ => raise (HTTPException 500 ("Internal server error: " ++ exn_str e))
       end).
End MainModule.
End Main.

(* ===================================================================== *)
(** ** app/api/weather.py: the router under /api/weather *)
(* ===================================================================== *)

Module Api.
Section Router.
Context {P : Platform}.

(** [@router.get("/{city}")  async def get_weather(city)]. *)
Definition get_weather (city : string) : IO json :=
  if String.eqb city EmptyString then raise (HTTPException 404 "Not Found")
  else
    try_except
      (data <- WeatherService.get_weather city ;;
       if negb (truthy_opt data) then
         raise (HTTPException 500 "Internal server error: City not found")
       else
         match data with
         | Some d => ret d
         | None => ret JNull
         end)
      (fun e => raise (HTTPException 500 ("Internal server error: " ++ exn_str e))).

(** [@router.get("/monthly/{city}")  async def get_monthly_weather(city)]. *)
Definition get_monthly_weather (city : string) : IO json :=
  if String.eqb city EmptyString then raise (HTTPException 404 "City not found")
  else
    try_except
      (location <- WeatherService.get_location city ;;
       (if negb (truthy_opt location) then
          raise (HTTPException 404 ("City '" ++ city ++ "' not found"))
        else ret tt) ;;;
       let location := match location with Some l => l | None => JNull end in
       lat <- lift (getitem location "lat") ;;
       lon <- lift (getitem location "lon") ;;
       forecast <- WeatherService.get_monthly_forecast lat lon ;;
       (if negb (truthy_opt forecast) then
          raise (HTTPException 500 "Failed to fetch forecast data")
        else ret tt) ;;;
       ret (match forecast with Some f => f | None => JNull end))
      (fun _ => raise (HTTPException 500 "Internal server error")).
End Router.
End Api.

(* ===================================================================== *)
(** ** The application: routes in registration order, and responses *)
(* ===================================================================== *)

Module App.
Section Application.
Context {P : Platform}.

(** A response: its status and its body.  A body that is not JSON (the
    plain text of a bare 500, the empty body of a redirect) is given as the
    string of its text. *)
Record http_response : Type := mkHttp {
  status : Z;
  body : json
}.

(** What the framework answers for the outcome of an endpoint declared
    with a [response_model], whose value is the model as serialised for
    the response: the value with 200, an [HTTPException] as its status
    with the detail, anything else as a bare 500. *)
Definition respond (r : result json) : http_response :=
  match r with
  | Ok v => mkHttp 200 v
  | Raise (HTTPException code detail) => mkHttp code (JObject [("detail", JString detail)])
  | Raise _ => mkHttp 500 (JString "Internal Server Error")
  end.

Definition serve (endpoint : IO json) (st : state) : http_response * state :=
  let (r, st') := endpoint st in (respond r, st').

(** Whether [json.dumps(content, allow_nan=False)], the rendering of a
    [JSONResponse], accepts a value: it refuses an infinity or a NaN
    anywhere inside.  Strings always render: they are held as UTF-8
    text. *)
Fixpoint renders (j : json) : bool :=
  match j with
  | JFloat f => negb (is_infinity f || is_nan f)
  | JList xs => forallb renders xs
  | JObject kvs => forallb (fun kv => renders (snd kv)) kvs
  | _ => true
  end.

(** What the framework answers when the endpoint has no [response_model]
    and returns a dict of its own: the dict is rendered after the endpoint
    has returned, outside any [try] of it, and a value that does not
    render leaves as a bare 500. *)
Definition respond_raw (r : result json) : http_response :=
  match r with
  | Ok v => if renders v then mkHttp 200 v
            else mkHttp 500 (JString "Internal Server Error")
  | Raise _ => respond r
  end.

Definition serve_raw (endpoint : IO json) (st : state) : http_response * state :=
  let (r, st') := endpoint st in (respond_raw r, st').

(** A path pattern: literal segments and [{city}]. *)
Inductive segment : Type :=
| Lit (s : string)
| Param.

(** A request path, split at its slashes, against a pattern; a parameter
    takes one non-empty segment. *)
Fixpoint match_path (pattern : list segment) (segs : list string) : option (list string) :=
  match pattern, segs with
  | [], [] => Some []
  | Lit s :: pattern', x :: segs' =>
      if String.eqb s x then match_path pattern' segs' else None
  | Param :: pattern', x :: segs' =>
      if String.eqb x EmptyString then None
      else option_map (cons x) (match_path pattern' segs')
  | _, _ => None
  end.

Record route : Type := mkRoute {
  pattern : list segment;
  endpoint : string -> IO json
}.

(** The GET routes under /api, in the order the application registers
    them: the one declared on [app], then those of the included router. *)
Definition routes : list route :=
  [ mkRoute [Lit "api"; Lit "weather"; Param] Main.get_city_weather;
    mkRoute [Lit "api"; Lit "weather"; Param] Api.get_weather;
    mkRoute [Lit "api"; Lit "weather"; Lit "monthly"; Param] Api.get_monthly_weather ].

(** The first route whose pattern matches handles the request. *)
Fixpoint find_route (rs : list route) (segs : list string) : option (IO json) :=
  match rs with
  | [] => None
  | r :: rest =>
      match match_path (pattern r) segs with
      | Some [city] => Some (endpoint r city)
      | _ => find_route rest segs
      end
  end.

(** Whether each route of [routes], in order, is declared with a
    [response_model]: [get_city_weather] is, the router's endpoints are
    not. *)
Definition response_models : list bool := [true; false; false].

(** The endpoint of the first route that matches, with whether that route
    has a [response_model]. *)
Fixpoint find_handler (rs : list route) (models : list bool) (segs : list string)
  : option (IO json * bool) :=
  match rs with
  | [] => None
  | r :: rest =>
      match match_path (pattern r) segs with
      | Some [city] => Some (endpoint r city, hd false models)
      | _ => find_handler rest (tl models) segs
      end
  end.

(** [path.rstrip("/")] on the segments of a path. *)
Fixpoint rstrip (segs : list string) : list string :=
  match segs with
  | [] => []
  | s :: rest =>
      match rstrip rest with
      | [] => if String.eqb s EmptyString then [] else [s]
      | rest' => s :: rest'
      end
  end.

(** The path the router tries when no route matches ([redirect_slashes]):
    without its trailing slashes when it ends with one (its last segment
    is empty), with one more slash otherwise. *)
Definition redirect_path (segs : list string) : list string :=
  if String.eqb (last segs "-") EmptyString then rstrip segs
  else (segs ++ [EmptyString])%list.

(** GET on a path under /api. The matching route's endpoint answers; when
    no route matches but one matches [redirect_path], the router answers a
    307 whose Location is that path, with an empty body; otherwise
    404. *)
Definition handle_get (segs : list string) (st : state) : http_response * state :=
  match find_handler routes response_models segs with
  | Some (e, true) => serve e st
  | Some (e, false) => serve_raw e st
  | None =>
      match find_route routes (redirect_path segs) with
      | Some _ => (mkHttp 307 (JString EmptyString), st)
      | None => (mkHttp 404 (JObject [("detail", JString "Not Found")]), st)
      end
  end.
End Application.
End App.

(* ===================================================================== *)
(** ** A concrete platform: scripted providers in the UTC time zone *)
(* ===================================================================== *)

Module Scripted.

(** Gregorian date of a day number (days since 1970-01-01). *)
Definition civil_from_days (days : Z) : Z * Z * Z :=
  let z := days + 719468 in
  let era := z / 146097 in
  let doe := z - era * 146097 in
  let yoe := (doe - doe / 1460 + doe / 36524 - doe / 146096) / 365 in
  let doy := doe - (365 * yoe + yoe / 4 - yoe / 100) in
  let mp := (5 * doy + 2) / 153 in
  let d := doy - (153 * mp + 2) / 5 + 1 in
  let m := if mp <? 10 then mp + 3 else mp - 9 in
  let y := yoe + era * 400 + (if m <=? 2 then 1 else 0) in
  (y, m, d).

Definition digit (n : Z) : string :=
  String (ascii_of_nat (48 + Z.to_nat (n mod 10))) EmptyString.

Definition pad2 (n : Z) : string := digit (n / 10) ++ digit n.
Definition pad4 (n : Z) : string := pad2 (n / 100) ++ pad2 n.

(** ['%Y-%m-%d'] for a year of four digits. *)
Definition strftime_ymd (ymd : Z * Z * Z) : string :=
  let '(y, m, d) := ymd in pad4 y ++ "-" ++ pad2 m ++ "-" ++ pad2 d.

(** Whole seconds of a float timestamp: the value is rounded to
    microseconds, ties to even, as [fromtimestamp] does; [None] for
    infinities and NaN. *)
Definition float_seconds (f : float) : option Z :=
  match Prim2SF f with
  | S754_zero _ => Some 0
  | S754_finite neg m e =>
      let num := Z.pos m * 1000000 in
      let us :=
        if 0 <=? e then num * 2 ^ e
        else
          let den := 2 ^ (- e) in
          let q := num / den in
          let r := num mod den in
          if 2 * r <? den then q
          else if den <? 2 * r then q + 1
          else if Z.even q then q else q + 1 in
      Some ((if neg then - us else us) / 1000000)
  | _ => None
  end.

(** The local date in a process whose zone is UTC, for timestamps from the
    epoch to the end of year 9999; this platform refuses the others. *)
Definition utc_date (t : timestamp) : result string :=
  let seconds :=
    match t with
    | TsInt n => Some n
    | TsFloat f => float_seconds f
    end in
  match seconds with
  | Some s =>
      if (0 <=? s) && (s <=? 253402300799)
      then Ok (strftime_ymd (civil_from_days (s / 86400)))
      else Raise OverflowError
  | None => Raise ValueError
  end.

(** The binary64 value nearest to an integer. *)
Definition float_of_Z (n : Z) : float := SF2Prim (binary_normalize prec emax n 0 false).

(** *** The pydantic models of main.py

    A model validates the keywords it is built from, coercing them as
    pydantic 2 does by default: a [float] field takes a float, an integer
    that binary64 can hold, a bool, or a string that reads as a number; an
    [int] field takes an integer, a bool, a float without a fraction, or a
    string of digits; a [str] field takes a string only.  Fields left out
    are an error unless they have a default, and keys that are not fields
    are kept when the model says [extra = "allow"] and dropped
    otherwise. *)

Definition is_digit (c : ascii) : bool :=
  (48 <=? nat_of_ascii c)%nat && (nat_of_ascii c <=? 57)%nat.

Definition is_space (c : ascii) : bool :=
  let n := nat_of_ascii c in
  ((9 <=? n)%nat && (n <=? 13)%nat) || (n =? 32)%nat.

Fixpoint lstrip (cs : list ascii) : list ascii :=
  match cs with
  | c :: rest => if is_space c then lstrip rest else cs
  | [] => []
  end.

Definition strip (cs : list ascii) : list ascii := rev (lstrip (rev (lstrip cs))).

Fixpoint take_digits (cs : list ascii) : list ascii * list ascii :=
  match cs with
  | c :: rest =>
      if is_digit c then let (ds, tail) := take_digits rest in (c :: ds, tail)
      else ([], cs)
  | [] => ([], [])
  end.

Definition digits_value (ds : list ascii) : Z :=
  fold_left (fun acc c => acc * 10 + (Z.of_nat (nat_of_ascii c) - 48)) ds 0.

Definition take_sign (cs : list ascii) : bool * list ascii :=
  match cs with
  | "-"%char :: rest => (true, rest)
  | "+"%char :: rest => (false, rest)
  | _ => (false, cs)
  end.

Definition lower (c : ascii) : ascii :=
  let n := nat_of_ascii c in
  if (65 <=? n)%nat && (n <=? 90)%nat then ascii_of_nat (n + 32) else c.

(** The binary64 value nearest to [digits * 10 ^ exponent], ties to even.
    A negative power of ten is divided out with 64 bits to spare and a
    sticky bit for the remainder, so that the one rounding is that of the
    exact quotient. *)
Definition decimal_float (neg : bool) (digits : list ascii) (exponent : Z) : float :=
  let m := digits_value digits in
  let magnitude := Z.of_nat (List.length digits) + exponent in
  let signed (n : Z) := if neg then - n else n in
  if m =? 0 then SF2Prim (S754_zero neg)
  else if 400 <? magnitude then SF2Prim (S754_infinity neg)
  else if magnitude <? -400 then SF2Prim (S754_zero neg)
  else if 0 <=? exponent then
    SF2Prim (binary_normalize prec emax (signed (m * 10 ^ exponent)) 0 neg)
  else
    let den := 10 ^ (- exponent) in
    let s := Z.max 0 (64 + Z.log2 den - Z.log2 m) in
    let q := (m * 2 ^ s) / den in
    let r := (m * 2 ^ s) mod den in
    let mant := 2 * q + (if r =? 0 then 0 else 1) in
    SF2Prim (binary_normalize prec emax (signed mant) (- s - 1) neg).

Definition parse_exponent (cs : list ascii) : option Z :=
  match cs with
  | [] => Some 0
  | c :: rest =>
      if Ascii.eqb (lower c) "e" then
        let (neg, rest1) := take_sign rest in
        match take_digits rest1 with
        | (d :: ds, []) =>
            Some (if neg then - digits_value (d :: ds) else digits_value (d :: ds))
        | _ => None
        end
      else None
  end.

(** The float a string reads as: a decimal with an optional sign, fraction
    and exponent, or an infinity or NaN by name, between optional blanks.
    Digit separators are not read. *)
Definition float_of_string (s : string) : option float :=
  let (neg, cs) := take_sign (strip (list_ascii_of_string s)) in
  let word := string_of_list_ascii (map lower cs) in
  if String.eqb word "inf" || String.eqb word "infinity"
  then Some (SF2Prim (S754_infinity neg))
  else if String.eqb word "nan" then Some nan
  else
    let (whole, cs1) := take_digits cs in
    let (fraction, cs2) :=
      match cs1 with
      | "."%char :: rest => take_digits rest
      | _ => ([], cs1)
      end in
    match (whole ++ fraction)%list, parse_exponent cs2 with
    | _ :: _, Some e =>
        Some (decimal_float neg (whole ++ fraction) (e - Z.of_nat (List.length fraction)))
    | _, _ => None
    end.

(** The integer a string reads as: digits with an optional sign, and
    possibly a fraction of zeros only. *)
Definition int_of_string (s : string) : option Z :=
  let (neg, cs) := take_sign (strip (list_ascii_of_string s)) in
  match take_digits cs with
  | (d :: ds, tail) =>
      let n := if neg then - digits_value (d :: ds) else digits_value (d :: ds) in
      match tail with
      | [] => Some n
      | "."%char :: zeros =>
          if forallb (Ascii.eqb "0") zeros then Some n else None
      | _ => None
      end
  | _ => None
  end.

(** The integer a float is, when it is one. *)
Definition int_of_float (f : float) : option Z :=
  match Prim2SF f with
  | S754_zero _ => Some 0
  | S754_finite neg m e =>
      let n :=
        if 0 <=? e then Some (Z.pos m * 2 ^ e)
        else if Z.pos m mod 2 ^ (- e) =? 0 then Some (Z.pos m / 2 ^ (- e))
        else None in
      option_map (fun n => if neg then - n else n) n
  | _ => None
  end.

Definition to_float (j : json) : option float :=
  match j with
  | JFloat f => Some f
  | JInt n => let f := float_of_Z n in if is_infinity f then None else Some f
  | JBool b => Some (if b then 1 else 0)%float
  | JString s => float_of_string s
  | _ => None
  end.

Definition to_int (j : json) : option Z :=
  match j with
  | JInt n => Some n
  | JBool b => Some (if b then 1 else 0)
  | JFloat f => int_of_float f
  | JString s => int_of_string s
  | _ => None
  end.

(** The type a field is declared with. *)
#[warnings="-register-all"]
Inductive schema : Type :=
| SFloat
| SInt
| SStr
| SAny
| SOptional (s : schema)
| SDict (values : schema)
| SList (items : schema)
| SModel (fields : list (string * schema)) (extra_allow : bool).

(** A value as the JSON mode of serialisation gives it: an infinity or a
    NaN becomes [null]. *)
Fixpoint json_mode (j : json) : json :=
  match j with
  | JFloat f => if is_infinity f || is_nan f then JNull else j
  | JList xs => JList (map json_mode xs)
  | JObject kvs => JObject (map (fun kv => (fst kv, json_mode (snd kv))) kvs)
  | _ => j
  end.

Definition dump (as_json : bool) (j : json) : json :=
  if as_json then json_mode j else j.

Fixpoint traverse {A B : Type} (f : A -> option B) (xs : list A) : option (list B) :=
  match xs with
  | [] => Some []
  | x :: rest =>
      match f x, traverse f rest with
      | Some y, Some ys => Some (y :: ys)
      | _, _ => None
      end
  end.

(** Validation of a value against a declared type, and the validated value
    as [.dict()] gives it ([as_json] false) or as the response carries it
    ([as_json] true); [None] for a validation error.  A model gives its
    fields in the order of their declaration, an absent optional field as
    [null], then the extra keys it keeps. *)
Fixpoint validate (as_json : bool) (s : schema) (j : json) {struct s} : option json :=
  match s with
  | SFloat => option_map (fun f => dump as_json (JFloat f)) (to_float j)
  | SInt => option_map JInt (to_int j)
  | SStr => match j with JString _ => Some j | _ => None end
  | SAny => Some (dump as_json j)
  | SOptional s' =>
      match j with
      | JNull => Some JNull
      | _ => validate as_json s' j
      end
  | SDict s' =>
      match j with
      | JObject kvs =>
          option_map JObject
            (traverse (fun kv => option_map (pair (fst kv)) (validate as_json s' (snd kv)))
                      kvs)
      | _ => None
      end
  | SList s' =>
      match j with
      | JList xs => option_map JList (traverse (validate as_json s') xs)
      | _ => None
      end
  | SModel fields extra_allow =>
      match j with
      | JObject kvs =>
          let declared :=
            (fix each (fs : list (string * schema)) : option (dict json) :=
               match fs with
               | [] => Some []
               | (k, s') :: rest =>
                   let value :=
                     match dict_get k kvs, s' with
                     | Some v, _ => validate as_json s' v
                     | None, SOptional _ => Some JNull
                     | None, _ => None
                     end in
                   match value, each rest with
                   | Some v, Some out => Some ((k, v) :: out)
                   | _, _ => None
                   end
               end) fields in
          let extras :=
            if extra_allow then
              map (fun kv => (fst kv, dump as_json (snd kv)))
                  (filter (fun kv => negb (existsb (String.eqb (fst kv)) (map fst fields)))
                          kvs)
            else [] in
          option_map (fun out => JObject (out ++ extras)%list) declared
      | _ => None
      end
  end.

Definition WeatherDescription : schema :=
  SModel [("id", SInt); ("main", SStr); ("description", SStr); ("icon", SStr)] false.

Definition MainWeatherData : schema :=
  SModel [("temp", SFloat); ("feels_like", SFloat); ("temp_min", SFloat);
          ("temp_max", SFloat); ("pressure", SInt); ("humidity", SInt);
          ("sea_level", SOptional SInt); ("grnd_level", SOptional SInt)] false.

Definition WindData : schema :=
  SModel [("speed", SFloat); ("deg", SInt); ("gust", SOptional SFloat)] false.

Definition LocationData_fields : schema :=
  SModel [("lat", SFloat); ("lon", SFloat); ("name", SStr); ("country", SStr)] true.

Definition WeatherData_fields : schema :=
  SModel [("coord", SDict SFloat);
          ("weather", SList WeatherDescription);
          ("base", SStr);
          ("main", MainWeatherData);
          ("visibility", SInt);
          ("wind", WindData);
          ("clouds", SDict SInt);
          ("rain", SOptional (SDict SFloat));
          ("dt", SInt);
          ("sys", SDict SAny);
          ("timezone", SInt);
          ("id", SInt);
          ("name", SStr);
          ("cod", SInt);
          ("location", SOptional (SDict SAny))] true.

(** [LocationData] built from the keywords [d], as its [.dict()]. *)
Definition validate_location (d : dict json) : result (dict json) :=
  match validate false LocationData_fields (JObject d) with
  | Some (JObject out) => Ok out
  | _ => Raise ValidationError
  end.

(** [WeatherData] built from the keywords [d], as the response carries
    it. *)
Definition validate_weather (d : dict json) : result json :=
  match validate true WeatherData_fields (JObject d) with
  | Some out => Ok out
  | None => Raise ValidationError
  end.

(** [str(e)] on this platform: the text that the exception's arguments fix
    (the key of a [KeyError], the status and detail of an [HTTPException]),
    and a short text of the platform's own for the others. *)
Definition class_name (e : exn) : string :=
  match e with
  | KeyError k => "'" ++ k ++ "'"
  | IndexError => "list index out of range"
  | TypeError => "TypeError"
  | AttributeError => "AttributeError"
  | ValueError => "ValueError"
  | OverflowError => "timestamp out of range for platform time_t"
  | JSONDecodeError => "Expecting value"
  | ValidationError => "validation error"
  | TimeoutException => "timed out"
  | TransportError => "connection failed"
  | HTTPStatusError _ => "error response"
  | HTTPException code detail =>
      NilZero.string_of_int (Z.to_int code) ++ ": " ++ detail
  end.

(** Providers that answer the calls they receive from a script, in order,
    and are unreachable once the script is used up. *)
Definition scripted_send (w : list reply) (_ : request) : reply * list reply :=
  match w with
  | r :: rest => (r, rest)
  | [] => (Failed Unreachable, [])
  end.

#[local] Instance platform : Platform := {|
  World := list reply;
  send := scripted_send;
  local_date := utc_date;
  OPENWEATHER_API_KEY := "0123456789abcdef";
  LocationData := validate_location;
  WeatherData := validate_weather;
  exn_str := class_name
|}.

Definition start (script : list reply) : state := mkState script [].

(** A three-hour sample as the forecast provider sends it. *)
Definition sample (dt : Z) (temp lo hi : float) (rain : option float) : json :=
  JObject
    ([("dt", JInt dt);
      ("main", JObject [("temp", JFloat temp); ("temp_min", JFloat lo);
                        ("temp_max", JFloat hi); ("pressure", JInt 1012);
                        ("humidity", JInt 70)]);
      ("weather", JList [JObject [("id", JInt 500); ("main", JString "Rain")]]);
      ("wind", JObject [("speed", JFloat 4.5%float); ("deg", JInt 200)])]
     ++ match rain with
        | Some r => [("rain", JObject [("3h", JFloat r)])]
        | None => []
        end).

Definition london : json :=
  JObject [("name", JString "London"); ("lat", JFloat 51.5%float);
           ("lon", JFloat (-0.125)%float); ("country", JString "GB");
           ("state", JString "England")].

Definition london_ontario : json :=
  JObject [("name", JString "London"); ("lat", JFloat 43.0%float);
           ("lon", JFloat (-81.25)%float); ("country", JString "CA")].

(** Four samples over two UTC dates: 2023-11-14 at 21:00:00 and 22:13:20,
    then 2023-11-15 at 00:00:00 and 03:00:00. *)
Definition forecast_samples : list json :=
  [sample 1699995600 280.5%float 279.0%float 281.0%float None;
   sample 1700000000 283.5%float 282.0%float 284.0%float (Some 0.5%float);
   sample 1700006400 278.5%float 277.0%float 279.5%float (Some 1.25%float);
   sample 1700017200 276.0%float 275.0%float 277.0%float None].

Definition london_city : json :=
  JObject [("id", JInt 2643743); ("name", JString "London")].

(** A forecast payload with a [cnt] and a [message] of the provider's own. *)
Definition forecast_fields : dict json :=
  [("cod", JString "200");
   ("message", JInt 7);
   ("cnt", JInt 40);
   ("list", JList forecast_samples);
   ("city", london_city)].

Definition forecast_payload : json := JObject forecast_fields.

Definition day (dt : Z) (temp lo hi : float) (rain : json) : json :=
  JObject [("dt", JInt dt);
           ("temp", JObject [("day", JFloat temp); ("min", JFloat lo); ("max", JFloat hi)]);
           ("humidity", JInt 70);
           ("weather", JList [JObject [("id", JInt 500); ("main", JString "Rain")]]);
           ("speed", JFloat 4.5%float);
           ("rain", rain)].

(** The report expected for [forecast_payload]. *)
Definition forecast_report : json :=
  JObject [("city", london_city);
           ("cod", JString "200");
           ("message", JInt 0);
           ("cnt", JInt 2);
           ("list", JList [day 1699995600 280.5%float 279.0%float 281.0%float (JInt 0);
                           day 1700006400 278.5%float 277.0%float 279.5%float
                               (JFloat 1.25%float)])].

(** The same payload with a broken second sample on a date already open. *)
Definition forecast_with_broken_repeat : json :=
  JObject [("cod", JString "200");
           ("list", JList [sample 1699995600 280.5%float 279.0%float 281.0%float None;
                           JObject [("dt", JInt 1700000000)]]);
           ("city", london_city)].

(** A current-weather payload as the provider sends it, with a key of its
    own ([uvi]) that the model does not declare. *)
Definition weather_fields : dict json :=
  [("coord", JObject [("lon", JFloat (-0.125)%float); ("lat", JFloat 51.5%float)]);
   ("weather", JList [JObject [("id", JInt 804); ("main", JString "Clouds");
                               ("description", JString "overcast clouds");
                               ("icon", JString "04d")]]);
   ("base", JString "stations");
   ("main", JObject [("temp", JFloat 283.25%float); ("feels_like", JFloat 282.5%float);
                     ("temp_min", JFloat 282.0%float); ("temp_max", JFloat 284.5%float);
                     ("pressure", JInt 1012); ("humidity", JInt 81)]);
   ("visibility", JInt 10000);
   ("wind", JObject [("speed", JFloat 4.5%float); ("deg", JInt 240)]);
   ("clouds", JObject [("all", JInt 90)]);
   ("dt", JInt 1700000000);
   ("sys", JObject [("type", JInt 2); ("id", JInt 2075535); ("country", JString "GB");
                    ("sunrise", JInt 1699946000); ("sunset", JInt 1699978000)]);
   ("timezone", JInt 0);
   ("id", JInt 2643743);
   ("name", JString "London");
   ("cod", JInt 200);
   ("uvi", JFloat 0.25%float)].

Definition weather_payload : json := JObject weather_fields.

(** The location resolved from [london]. *)
Definition london_location : dict json :=
  [("lat", JFloat 51.5%float); ("lon", JFloat (-0.125)%float);
   ("name", JString "London"); ("country", JString "GB")].

(** The response expected for [weather_payload] at [london_location]: the
    fields of the model in the order of their declaration, the optional
    ones that the provider left out as [null], then the provider's own
    key. *)
Definition weather_response : json :=
  JObject
    [("coord", JObject [("lon", JFloat (-0.125)%float); ("lat", JFloat 51.5%float)]);
     ("weather", JList [JObject [("id", JInt 804); ("main", JString "Clouds");
                                 ("description", JString "overcast clouds");
                                 ("icon", JString "04d")]]);
     ("base", JString "stations");
     ("main", JObject [("temp", JFloat 283.25%float); ("feels_like", JFloat 282.5%float);
                       ("temp_min", JFloat 282.0%float); ("temp_max", JFloat 284.5%float);
                       ("pressure", JInt 1012); ("humidity", JInt 81);
                       ("sea_level", JNull); ("grnd_level", JNull)]);
     ("visibility", JInt 10000);
     ("wind", JObject [("speed", JFloat 4.5%float); ("deg", JInt 240); ("gust", JNull)]);
     ("clouds", JObject [("all", JInt 90)]);
     ("rain", JNull);
     ("dt", JInt 1700000000);
     ("sys", JObject [("type", JInt 2); ("id", JInt 2075535); ("country", JString "GB");
                      ("sunrise", JInt 1699946000); ("sunset", JInt 1699978000)]);
     ("timezone", JInt 0);
     ("id", JInt 2643743);
     ("name", JString "London");
     ("cod", JInt 200);
     ("location", JObject london_location);
     ("uvi", JFloat 0.25%float)].

(** A payload that lacks most of what the model declares. *)
Definition weather_sketch : json :=
  JObject [("weather", JList [JObject [("id", JInt 804); ("main", JString "Clouds")]]);
           ("main", JObject [("temp", JFloat 283.25%float); ("humidity", JInt 81)]);
           ("name", JString "London")].

Definition geocoded (matches : list json) : reply := Response 200 (Some (JList matches)).

(** A forecast payload for London with the given samples. *)
Definition forecast_with (samples : list json) : dict json :=
  [("cod", JString "200"); ("list", JList samples); ("city", london_city)].


(** [x * 3.6] for a JSON number. *)
#[warnings="-inexact-float"]
Definition times_3_6 (x : json) : result float :=
  match x with
  | JFloat f => Ok (f * 3.6)%float
  | JInt n =>
      let f := float_of_Z n in
      if is_infinity f then Raise OverflowError else Ok (f * 3.6)%float
  | JBool b => Ok ((if b then 1 else 0) * 3.6)%float
  | _ => Raise TypeError
  end.

(** [round(f, 2)]: the binary64 value nearest to [f] rounded to hundredths,
    ties to even. Below 2^53 hundredths the quotient of two exact values is
    that nearest value; from there on [f] has no digit past the hundredths
    to lose and is returned. *)
Definition round_2 (f : float) : float :=
  match Prim2SF f with
  | S754_finite neg m e =>
      let hundredths :=
        if 0 <=? e then Z.pos m * 100 * 2 ^ e
        else round_half_even (Z.pos m * 100) (2 ^ (- e)) in
      if hundredths <? 2 ^ 53 then
        let q := (float_of_Z hundredths / 100)%float in
        if neg then (- q)%float else q
      else f
  | _ => f
  end.

Definition wind_kmh (x : json) : result json :=
  match times_3_6 x with
  | Ok f => Ok (JFloat (round_2 f))
  | Raise e => Raise e
  end.

#[local] Instance arithmetic : FloatArithmetic := {| kmh := wind_kmh |}.

(** A One Call payload with 30 hours, 8 days and no alerts. *)
Definition hour (n : Z) : json := JObject [("dt", JInt (1700000000 + 3600 * n))].

Definition hours : list json := map hour
  [0; 1; 2; 3; 4; 5; 6; 7; 8; 9; 10; 11; 12; 13; 14; 15; 16; 17; 18; 19;
   20; 21; 22; 23; 24; 25; 26; 27; 28; 29].

Definition days : list json := map (fun n => JObject [("dt", JInt (1700000000 + 86400 * n))])
  [0; 1; 2; 3; 4; 5; 6; 7].

Definition onecall_fields : dict json :=
  [("lat", JFloat 51.5%float);
   ("current", JObject [("temp", JFloat 9.5%float); ("feels_like", JFloat 6.5%float);
                        ("humidity", JInt 81); ("pressure", JInt 1012);
                        ("wind_speed", JFloat 5.0%float); ("wind_deg", JInt 240);
                        ("weather", JList [JObject [("id", JInt 804)];
                                           JObject [("id", JInt 500)]])]);
   ("hourly", JList hours);
   ("daily", JList days)].

Definition onecall_payload : json := JObject onecall_fields.

(** The report expected for [onecall_payload]. *)
Definition onecall_expected : json :=
  JObject [("current", JObject [("temp", JInt 10); ("feels_like", JInt 6);
                                ("humidity", JInt 81); ("pressure", JInt 1012);
                                ("wind_speed", JFloat 18.0%float); ("wind_deg", JInt 240);
                                ("weather", JObject [("id", JInt 804)])]);
           ("hourly", JList (firstn 24 hours));
           ("daily", JList (firstn 7 days));
           ("alerts", JList [])].

(** A geocoding match whose latitude is a string, and whose longitude is
    an integer. *)
Definition london_text_lat : json :=
  JObject [("name", JString "London"); ("lat", JString "51.5");
           ("lon", JInt 0); ("country", JString "GB")].

(** A geocoding match whose latitude is [null]. *)
Definition london_null_lat : json :=
  JObject [("name", JString "London"); ("lat", JNull);
           ("lon", JFloat (-0.125)%float); ("country", JString "GB")].

End Scripted.

(* ===================================================================== *)
(** ** Vocabulary of the specification *)
(* ===================================================================== *)

(** [xs] is [ys] with some elements left out, the order kept. *)
Inductive Subsequence {A : Type} : list A -> list A -> Prop :=
| Subsequence_nil : Subsequence [] []
| Subsequence_keep x xs ys : Subsequence xs ys -> Subsequence (x :: xs) (x :: ys)
| Subsequence_drop y xs ys : Subsequence xs ys -> Subsequence xs (y :: ys).

Section FirstOfEach.
Context {A : Type} (key : A -> string).

(** Walk the list in order; an element whose key has not been seen is
    kept and its key becomes seen, an element whose key has been seen is
    dropped. *)
Fixpoint first_of_each_from (seen : list string) (xs : list A) : list A :=
  match xs with
  | [] => []
  | x :: rest =>
      if in_dec string_dec (key x) seen then first_of_each_from seen rest
      else x :: first_of_each_from (key x :: seen) rest
  end.

Definition first_of_each (xs : list A) : list A := first_of_each_from [] xs.

(** The number of distinct keys in the list. *)
Definition distinct_keys (xs : list A) : nat :=
  List.length (nodup string_dec (map key xs)).
End FirstOfEach.

Section SampleVocabulary.
Context {P : Platform}.

(** The local calendar date of a sample (the empty string when it has
    none). *)
Definition sample_date (item : json) : string :=
  match WeatherService.date_of item with
  | Ok d => d
  | Raise _ => EmptyString
  end.

(** The sample has a [dt] that the platform turns into a date. *)
Definition has_date (item : json) : bool := is_ok (WeatherService.date_of item).

Definition object_with (keys : list string) (j : option json) : bool :=
  match j with
  | Some (JObject kvs) => forallb (fun k => dict_contains k kvs) keys
  | _ => false
  end.

(** The sample carries what an entry is built from: [dt], [main] with its
    four readings, [weather], [wind] with [speed], and [rain], when
    present, an object. *)
Definition has_fields (item : json) : bool :=
  match item with
  | JObject kvs =>
      dict_contains "dt" kvs
      && object_with ["temp"; "temp_min"; "temp_max"; "humidity"] (dict_get "main" kvs)
      && dict_contains "weather" kvs
      && object_with ["speed"] (dict_get "wind" kvs)
      && match dict_get "rain" kvs with
         | None | Some (JObject _) => true
         | Some _ => false
         end
  | _ => false
  end.

(** A three-hour sample of the provider's forecast contract. *)
Definition wf_sample (item : json) : bool := has_date item && has_fields item.

(** The local calendar date of a sample, as the specification speaks of
    it: the date, in the process's time zone, of the instant that the
    number under [dt] gives in seconds since the epoch.  It is read off the
    sample with the platform's calendar alone. *)
Definition calendar_date (item : json) : option string :=
  match path item ["dt"] with
  | Some (JInt n) =>
      match local_date (TsInt n) with Ok d => Some d | Raise _ => None end
  | Some (JFloat f) =>
      match local_date (TsFloat f) with Ok d => Some d | Raise _ => None end
  | _ => None
  end.

Definition calendar_day (item : json) : string :=
  match calendar_date item with
  | Some d => d
  | None => EmptyString
  end.

(** A three-hour sample of the provider's forecast contract: its [dt] is a
    number with a calendar date, and it carries the fields of an entry. *)
Definition is_sample (item : json) : bool :=
  match calendar_date item with
  | Some _ => has_fields item
  | None => false
  end.

(** The samples that open a day: the first of each local date. *)
Definition first_samples (items : list json) : list json :=
  first_of_each sample_date items.

(** The entry a sample opens its day with ([null] when the sample lacks
    a field). *)
Definition entry_of (item : json) : json :=
  match WeatherService.daily_entry item with
  | Ok e => e
  | Raise _ => JNull
  end.

(** The key and the entry a day-opening sample stores in [daily_data]. *)
Definition day_slot (s : json) : string * json := (sample_date s, entry_of s).

(** What [get_monthly_forecast] makes of the provider's reply. *)
Definition report_of_reply (r : reply) : option json :=
  match r with
  | Response code (Some data) =>
      if is_success code then
        match WeatherService.build_report data with
        | Ok report => Some report
        | Raise _ => None
        end
      else None
  | _ => None
  end.

(** [e] and [s] hold the same value, [e] at [pe] and [s] at [ps]. *)
Definition same_at (e : json) (pe : list string) (s : json) (ps : list string) : Prop :=
  exists v, path e pe = Some v /\ path s ps = Some v.

(** The daily entry [e] is taken from the sample [s] alone. *)
Definition seeded_from (e s : json) : Prop :=
  same_at e ["dt"] s ["dt"]
  /\ same_at e ["temp"; "day"] s ["main"; "temp"]
  /\ same_at e ["temp"; "min"] s ["main"; "temp_min"]
  /\ same_at e ["temp"; "max"] s ["main"; "temp_max"]
  /\ same_at e ["humidity"] s ["main"; "humidity"]
  /\ same_at e ["weather"] s ["weather"]
  /\ same_at e ["speed"] s ["wind"; "speed"]
  /\ path e ["rain"] = Some (match path s ["rain"; "3h"] with
                             | Some r => r
                             | None => JInt 0
                             end).

(** A payload on which the aggregation runs to its end: an object with
    [city], [cod] and an iterable [list] whose samples all have a date and
    whose day-opening samples have the fields of an entry. *)
Definition wellformed_payload (data : json) : bool :=
  match data with
  | JObject kvs =>
      match dict_get "list" kvs with
      | Some samples =>
          match iterate samples with
          | Ok items =>
              forallb has_date items
              && forallb has_fields (first_samples items)
              && dict_contains "city" kvs
              && dict_contains "cod" kvs
          | Raise _ => false
          end
      | None => false
      end
  | _ => false
  end.

(** A complete daily entry: exactly the six keys of the dict literal. *)
Definition complete_entry (e : json) : Prop :=
  exists dt day lo hi humidity weather speed rain,
    e = JObject [("dt", dt);
                 ("temp", JObject [("day", day); ("min", lo); ("max", hi)]);
                 ("humidity", humidity);
                 ("weather", weather);
                 ("speed", speed);
                 ("rain", rain)].

(** A complete report: the five keys, the count of its entries, and
    complete entries. *)
Definition complete_report (r : json) : Prop :=
  exists city cod days,
    r = JObject [("city", city);
                 ("cod", cod);
                 ("message", JInt 0);
                 ("cnt", JInt (Z.of_nat (List.length days)));
                 ("list", JList days)]
    /\ Forall complete_entry days.

(** The forecast fetch has failed: the call raised, the status is not a
    success, the body is not JSON, or the payload is not well formed. *)
Definition fetch_failed (r : reply) : bool :=
  match r with
  | Failed _ => true
  | Response code None => true
  | Response code (Some data) => negb (is_success code) || negb (wellformed_payload data)
  end.

(** An outbound call has failed: it raised (timeout, no connection), the
    status is not a success, or the body is not JSON. *)
Definition call_failed (r : reply) : bool :=
  match r with
  | Failed _ => true
  | Response code None => true
  | Response code (Some _) => negb (is_success code)
  end.

(** What [WeatherService.get_location] makes of the geocoder's reply. *)
Definition location_of_reply (r : reply) : option json :=
  match r with
  | Response code (Some locations) =>
      if is_success code && truthy locations then
        match rbind (getitem0 locations) WeatherService.location_dict with
        | Ok loc => Some loc
        | Raise _ => None
        end
      else None
  | _ => None
  end.

(** What [Main.get_location] makes of it: the validated model. *)
Definition model_of_reply (r : reply) : option (dict json) :=
  match location_of_reply r with
  | Some d =>
      if truthy d then
        match rbind (Main.kwargs d) LocationData with
        | Ok model => Some model
        | Raise _ => None
        end
      else None
  | None => None
  end.

(** The JSON body of a reply, if it has one. *)
Definition content_of (r : reply) : option json :=
  match r with
  | Response _ body => body
  | Failed _ => None
  end.

(** The match and the coordinates [WeatherService.get_weather] goes on
    with after its geocoding call, if it goes on. *)
Definition target_of_reply (r : reply) : option (json * json * json) :=
  match r with
  | Response code (Some locations) =>
      if is_success code && truthy locations then
        match getitem0 locations with
        | Ok location =>
            match getitem location "lat", getitem location "lon" with
            | Ok lat, Ok lon => Some (location, lat, lon)
            | _, _ => None
            end
        | Raise _ => None
        end
      else None
  | _ => None
  end.

(** What it makes of the weather provider's reply for that match. *)
Definition weather_of_reply (location : json) (r : reply) : option json :=
  match r with
  | Response code (Some weather_data) =>
      if is_success code then
        match rbind (WeatherService.location_dict location)
                    (setitem weather_data "location") with
        | Ok report => Some report
        | Raise _ => None
        end
      else None
  | _ => None
  end.

(** The state after the geocoding call of [get_location] for [city]. *)
Definition after_geocode (city : string) (st : state) : state :=
  mkState (snd (send (world st) (WeatherService.geo_request city)))
          (trace st ++ [WeatherService.geo_request city]).

(** One geocoding match with the four fields of a location. *)
Definition wf_location (j : json) : bool :=
  object_with ["lat"; "lon"; "name"; "country"] (Some j).

(** The calls to the geocoding endpoint and to the data endpoints in a
    trace. *)
Definition is_geocode (r : request) : bool :=
  String.eqb (url r) "http://api.openweathermap.org/geo/1.0/direct".

Definition geocode_calls (t : list request) : list request := filter is_geocode t.
Definition data_calls (t : list request) : list request :=
  filter (fun r => negb (is_geocode r)) t.

(** The coordinates a request carries. *)
Definition coordinates (r : request) : option json * option json :=
  (dict_get "lat" (params r), dict_get "lon" (params r)).

(** The call discipline of one request: among the calls it issued there
    is at most one geocoding call and at most one data call, and a data
    call comes second, after the geocoding call [geo], and is one that
    [target] allows. *)
Definition disciplined (geo : request) (calls : list request)
           (target : request -> Prop) : Prop :=
  (List.length (geocode_calls calls) <= 1)%nat
  /\ (List.length (data_calls calls) <= 1)%nat
  /\ (forall req, In req (data_calls calls) -> calls = [geo; req] /\ target req).

(** The paths of the two API endpoints, as lists of segments:
    /api/weather/{city} and /api/weather/monthly/{city}, the city being
    one segment of at least one character. *)
Definition endpoint_path (segs : list string) : Prop :=
  exists city,
    city <> EmptyString
    /\ (segs = ["api"; "weather"; city] \/ segs = ["api"; "weather"; "monthly"; city]).

(** A path followed by [n] more slashes. *)
Definition with_slashes (segs : list string) (n : nat) : list string :=
  (segs ++ repeat EmptyString n)%list.

Context {F : FloatArithmetic}.

(** A call made with the requests library has failed: it raised, the status
    is a 4xx or a 5xx, or the body is not JSON. *)
Definition requests_failed (r : reply) : bool :=
  match r with
  | Failed _ => true
  | Response code None => true
  | Response code (Some _) => is_http_error code
  end.

(** What [get_weather_by_location] makes of the provider's reply. *)
Definition onecall_of_reply (r : reply) : option json :=
  match r with
  | Response code (Some data) =>
      if is_http_error code then None
      else
        match WeatherService.onecall_report data with
        | Ok report => Some report
        | Raise _ => None
        end
  | _ => None
  end.

(** The coordinates [get_weather_by_city] goes on with after its geocoding
    call, if it goes on. *)
Definition city_target_of_reply (r : reply) : option (json * json) :=
  match r with
  | Response code (Some locations) =>
      if negb (is_http_error code) && truthy locations then
        match getitem0 locations with
        | Ok location =>
            match getitem location "lat", getitem location "lon" with
            | Ok lat, Ok lon => Some (lat, lon)
            | _, _ => None
            end
        | Raise _ => None
        end
      else None
  | _ => None
  end.
End SampleVocabulary.

(* ===================================================================== *)
(** ** Dictionaries *)
(* ===================================================================== *)

Section DictFacts.
Context {V : Type}.
Implicit Types (d : dict V) (k : string) (v : V).

Lemma dict_get_set_same k v d : dict_get k (dict_set k v d) = Some v.
Proof.
  induction d as [|[k' v'] d IH]; simpl.
  - now rewrite String.eqb_refl.
  - destruct (String.eqb k k') eqn:E; simpl; rewrite E; auto.
Qed.

Lemma dict_get_set_other k k' v d :
  k' <> k -> dict_get k' (dict_set k v d) = dict_get k' d.
Proof.
  intros Hne. induction d as [|[k0 v0] d IH]; simpl.
  - apply String.eqb_neq in Hne. now rewrite Hne.
  - destruct (String.eqb k k0) eqn:E; simpl.
    + apply String.eqb_eq in E. subst k0.
      apply String.eqb_neq in Hne. now rewrite Hne.
    + now rewrite IH.
Qed.

Lemma dict_set_absent k v d :
  dict_contains k d = false -> dict_set k v d = (d ++ [(k, v)])%list.
Proof.
  unfold dict_contains. induction d as [|[k' v'] d IH]; simpl; auto.
  destruct (String.eqb k k'); [discriminate|].
  intros H. now rewrite IH.
Qed.

Lemma dict_contains_In k d : dict_contains k d = true <-> In k (dict_keys d).
Proof.
  unfold dict_contains, dict_keys. induction d as [|[k' v'] d IH]; simpl.
  - split; [discriminate | tauto].
  - destruct (String.eqb k k') eqn:E.
    + apply String.eqb_eq in E. subst. tauto.
    + apply String.eqb_neq in E. rewrite IH. split; [tauto|].
      intros [H|H]; [congruence | exact H].
Qed.

Lemma dict_keys_set_absent k v d :
  dict_contains k d = false -> dict_keys (dict_set k v d) = (dict_keys d ++ [k])%list.
Proof.
  intros H. rewrite (dict_set_absent _ _ _ H). unfold dict_keys.
  now rewrite map_app.
Qed.

Lemma dict_keys_set k v d :
  forall k', In k' (dict_keys (dict_set k v d)) <-> k' = k \/ In k' (dict_keys d).
Proof.
  intros k'. unfold dict_keys. induction d as [|[k0 v0] d IH]; simpl.
  - intuition congruence.
  - destruct (String.eqb k k0) eqn:E; simpl.
    + apply String.eqb_eq in E. subst. intuition congruence.
    + rewrite IH. intuition congruence.
Qed.
End DictFacts.

(* ===================================================================== *)
(** ** The first element of each key *)
(* ===================================================================== *)

Section FirstOfEachFacts.
Context {A : Type} (key : A -> string).

Lemma first_of_each_from_In seen xs x :
  In x (first_of_each_from key seen xs) -> In x xs /\ ~ In (key x) seen.
Proof.
  revert seen. induction xs as [|y xs IH]; simpl; intros seen H; [tauto|].
  destruct (in_dec string_dec (key y) seen) as [Hin|Hout].
  - apply IH in H. tauto.
  - destruct H as [->|H]; [tauto|].
    apply IH in H. simpl in H. tauto.
Qed.

Lemma first_of_each_from_keys seen xs k :
  In k (map key (first_of_each_from key seen xs))
  <-> In k (map key xs) /\ ~ In k seen.
Proof.
  revert seen. induction xs as [|y xs IH]; simpl; intros seen; [tauto|].
  destruct (in_dec string_dec (key y) seen) as [Hin|Hout].
  - rewrite IH. split; [tauto|]. intros [[E|H] Hk]; [subst k|]; tauto.
  - simpl. rewrite IH. simpl.
    destruct (string_dec (key y) k) as [E|Hne]; [subst k|]; tauto.
Qed.

Lemma first_of_each_from_NoDup seen xs :
  NoDup (map key (first_of_each_from key seen xs)).
Proof.
  revert seen. induction xs as [|y xs IH]; simpl; intros seen; [constructor|].
  destruct (in_dec string_dec (key y) seen); [apply IH|].
  simpl. constructor; [|apply IH].
  rewrite first_of_each_from_keys. simpl. tauto.
Qed.

Lemma first_of_each_from_Subsequence seen xs :
  Subsequence (first_of_each_from key seen xs) xs.
Proof.
  revert seen. induction xs as [|y xs IH]; simpl; intros seen; [constructor|].
  destruct (in_dec string_dec (key y) seen); constructor; apply IH.
Qed.

Lemma first_of_each_from_find seen xs x :
  In x (first_of_each_from key seen xs) ->
  find (fun y => String.eqb (key y) (key x)) xs = Some x.
Proof.
  revert seen. induction xs as [|y xs IH]; simpl; intros seen H; [tauto|].
  destruct (in_dec string_dec (key y) seen) as [Hin|Hout].
  - pose proof (first_of_each_from_In _ _ _ H) as [_ Hx].
    destruct (String.eqb (key y) (key x)) eqn:E.
    + apply String.eqb_eq in E. congruence.
    + eapply IH; eauto.
  - destruct H as [->|H]; [now rewrite String.eqb_refl|].
    pose proof (first_of_each_from_In _ _ _ H) as [_ Hx]. simpl in Hx.
    destruct (String.eqb (key y) (key x)) eqn:E.
    + apply String.eqb_eq in E. tauto.
    + eapply IH; eauto.
Qed.

Lemma first_of_each_from_ext seen seen' xs :
  (forall k, In k seen <-> In k seen') ->
  first_of_each_from key seen xs = first_of_each_from key seen' xs.
Proof.
  revert seen seen'. induction xs as [|y xs IH]; simpl; intros seen seen' H; auto.
  destruct (in_dec string_dec (key y) seen) as [Hin|Hout];
    destruct (in_dec string_dec (key y) seen') as [Hin'|Hout'].
  - now apply IH.
  - apply H in Hin. tauto.
  - apply H in Hin'. tauto.
  - f_equal. apply IH. intros k. simpl. rewrite H. tauto.
Qed.

Lemma first_of_each_length xs :
  List.length (first_of_each key xs) = distinct_keys key xs.
Proof.
  unfold distinct_keys, first_of_each.
  rewrite <- (length_map key (first_of_each_from key [] xs)).
  apply Permutation_length, NoDup_Permutation.
  - apply first_of_each_from_NoDup.
  - apply NoDup_nodup.
  - intros k. rewrite first_of_each_from_keys, nodup_In. simpl. tauto.
Qed.
End FirstOfEachFacts.

(* ===================================================================== *)
(** ** Aggregation of the forecast samples *)
(* ===================================================================== *)

Section AggregationFacts.
Context {P : Platform}.

Lemma dict_contains_get {V : Type} (k : string) (d : dict V) :
  dict_contains k d = true -> exists v, dict_get k d = Some v.
Proof.
  unfold dict_contains. destruct (dict_get k d); [eauto | discriminate].
Qed.

Lemma dict_contains_false {V : Type} (k : string) (d : dict V) :
  dict_contains k d = false -> dict_get k d = None.
Proof.
  unfold dict_contains. destruct (dict_get k d); [discriminate | auto].
Qed.

(** A sample with the fields of an entry yields a complete entry, taken
    from that sample alone. *)
Lemma daily_entry_ok (item : json) :
  has_fields item = true ->
  exists e, WeatherService.daily_entry item = Ok e
            /\ complete_entry e /\ seeded_from e item.
Proof.
  destruct item as [| | | | | |kvs]; try discriminate.
  unfold has_fields, object_with. simpl forallb.
  intros H.
  repeat (apply andb_prop in H; destruct H as [H ?]).
  destruct (dict_get "main" kvs) as [[| | | | | |m]|] eqn:Emain; try discriminate.
  destruct (dict_get "wind" kvs) as [[| | | | | |w]|] eqn:Ewind; try discriminate.
  repeat match goal with
         | Hc : (_ && _)%bool = true |- _ =>
             apply andb_prop in Hc; destruct Hc
         end.
  repeat match goal with
         | Hc : dict_contains ?k ?d = true |- _ =>
             apply dict_contains_get in Hc; destruct Hc as [? Hc]
         end.
  unfold WeatherService.daily_entry, seeded_from, same_at, complete_entry.
  simpl.
  repeat match goal with
         | Hg : dict_get ?k ?d = Some _ |- _ => rewrite Hg; simpl
         end.
  destruct (dict_get "rain" kvs) as [[| | | | | |r]|] eqn:Erain; try discriminate;
    simpl.
  - destruct (dict_get "3h" r) eqn:E3h; simpl;
      (eexists; split; [reflexivity|]; split;
       [repeat eexists | repeat (first [split | eexists]); reflexivity]).
  - eexists; split; [reflexivity|]; split;
      [repeat eexists | repeat (first [split | eexists]); reflexivity].
Qed.

(** A sample that lacks a field of an entry makes the dict literal raise. *)
Lemma daily_entry_raise (item : json) :
  has_fields item = false -> exists x, WeatherService.daily_entry item = Raise x.
Proof.
  unfold WeatherService.daily_entry, has_fields, object_with, dict_contains.
  destruct item as [| | | | | |kvs]; simpl; eauto.
  destruct (dict_get "dt" kvs); simpl; eauto.
  destruct (dict_get "main" kvs) as [[| | | | | |m]|]; simpl; eauto.
  destruct (dict_get "temp" m); simpl; eauto.
  destruct (dict_get "temp_min" m); simpl; eauto.
  destruct (dict_get "temp_max" m); simpl; eauto.
  destruct (dict_get "humidity" m); simpl; eauto.
  destruct (dict_get "weather" kvs); simpl; eauto.
  destruct (dict_get "wind" kvs) as [[| | | | | |w]|]; simpl; eauto.
  destruct (dict_get "speed" w); simpl; eauto.
  destruct (dict_get "rain" kvs) as [[| | | | | |r]|]; simpl; eauto;
    discriminate.
Qed.

Lemma has_date_sample_date (item : json) :
  has_date item = true -> WeatherService.date_of item = Ok (sample_date item).
Proof.
  unfold has_date, sample_date.
  destruct (WeatherService.date_of item); [reflexivity | discriminate].
Qed.

Lemma has_date_false (item : json) :
  has_date item = false -> exists x, WeatherService.date_of item = Raise x.
Proof.
  unfold has_date. destruct (WeatherService.date_of item); [discriminate | eauto].
Qed.

Lemma entry_of_ok (item e : json) :
  WeatherService.daily_entry item = Ok e -> entry_of item = e.
Proof. unfold entry_of. now intros ->. Qed.

(** The loop, when every sample has a date and every day-opening sample has
    its fields: it appends one entry per new date, in order. *)
Lemma aggregate_ok (items : list json) :
  forall (seen : list string) (d : dict json),
    (forall k, In k seen <-> In k (dict_keys d)) ->
    forallb has_date items = true ->
    forallb has_fields (first_of_each_from sample_date seen items) = true ->
    WeatherService.aggregate items d
    = Ok (d ++ map day_slot (first_of_each_from sample_date seen items))%list.
Proof.
  induction items as [|item rest IH]; intros seen d Hkeys Hdates Hfields.
  - simpl. now rewrite app_nil_r.
  - simpl in Hdates. apply andb_prop in Hdates. destruct Hdates as [Hd Hrest].
    simpl. rewrite (has_date_sample_date _ Hd). simpl.
    simpl in Hfields.
    destruct (in_dec string_dec (sample_date item) seen) as [Hin|Hout].
    + assert (Hc : dict_contains (sample_date item) d = true)
        by (apply dict_contains_In, Hkeys, Hin).
      rewrite Hc. simpl. now apply IH.
    + assert (Hc : dict_contains (sample_date item) d = false).
      { destruct (dict_contains (sample_date item) d) eqn:E; auto.
        apply dict_contains_In, Hkeys in E. tauto. }
      rewrite Hc. simpl.
      simpl in Hfields. apply andb_prop in Hfields. destruct Hfields as [Hf Hfs].
      destruct (daily_entry_ok _ Hf) as (e & He & _).
      rewrite He. simpl.
      rewrite (dict_set_absent _ _ _ Hc).
      rewrite (IH (sample_date item :: seen)); auto.
      * simpl. rewrite <- app_assoc. simpl. unfold day_slot at 2.
        now rewrite (entry_of_ok _ _ He).
      * intros k. unfold dict_keys. rewrite map_app, in_app_iff. simpl.
        rewrite Hkeys. unfold dict_keys. tauto.
Qed.

(** The loop raises as soon as a sample has no date or a day-opening sample
    lacks a field. *)
Lemma aggregate_raise (items : list json) :
  forall (seen : list string) (d : dict json),
    (forall k, In k seen <-> In k (dict_keys d)) ->
    forallb has_date items
    && forallb has_fields (first_of_each_from sample_date seen items) = false ->
    exists x, WeatherService.aggregate items d = Raise x.
Proof.
  induction items as [|item rest IH]; intros seen d Hkeys Hbad.
  - discriminate.
  - simpl in Hbad. simpl.
    destruct (has_date item) eqn:Hd.
    2:{ destruct (has_date_false _ Hd) as [x ->]. simpl. eauto. }
    rewrite (has_date_sample_date _ Hd). simpl.
    destruct (in_dec string_dec (sample_date item) seen) as [Hin|Hout].
    + assert (Hc : dict_contains (sample_date item) d = true)
        by (apply dict_contains_In, Hkeys, Hin).
      rewrite Hc. simpl. apply (IH seen); auto.
    + assert (Hc : dict_contains (sample_date item) d = false).
      { destruct (dict_contains (sample_date item) d) eqn:E; auto.
        apply dict_contains_In, Hkeys in E. tauto. }
      rewrite Hc. simpl. simpl in Hbad.
      destruct (has_fields item) eqn:Hf.
      2:{ destruct (daily_entry_raise _ Hf) as [x ->]. simpl. eauto. }
      destruct (daily_entry_ok _ Hf) as (e & He & _).
      rewrite He. simpl.
      apply (IH (sample_date item :: seen)).
      * intros k. rewrite dict_keys_set. simpl. rewrite Hkeys.
        intuition congruence.
      * simpl in Hbad. exact Hbad.
Qed.
End AggregationFacts.

(* ===================================================================== *)
(** ** The forecast report *)
(* ===================================================================== *)

Section ReportFacts.
Context {P : Platform}.

(** The report built from a well-formed payload. *)
Lemma build_report_ok (data : json) :
  wellformed_payload data = true ->
  exists kvs samples items city cod,
    data = JObject kvs
    /\ dict_get "list" kvs = Some samples
    /\ iterate samples = Ok items
    /\ dict_get "city" kvs = Some city
    /\ dict_get "cod" kvs = Some cod
    /\ WeatherService.build_report data
       = Ok (JObject [("city", city);
                      ("cod", cod);
                      ("message", JInt 0);
                      ("cnt", JInt (Z.of_nat (List.length (map entry_of (first_samples items)))));
                      ("list", JList (map entry_of (first_samples items)))]).
Proof.
  destruct data as [| | | | | |kvs]; try discriminate.
  unfold wellformed_payload.
  destruct (dict_get "list" kvs) as [samples|] eqn:Elist; try discriminate.
  destruct (iterate samples) as [items|] eqn:Eiter; try discriminate.
  intros H.
  repeat (apply andb_prop in H; destruct H as [H ?]).
  repeat match goal with
         | Hc : dict_contains ?k ?d = true |- _ =>
             apply dict_contains_get in Hc; destruct Hc as [? Hc]
         end.
  do 5 eexists. repeat (split; [eassumption || reflexivity|]).
  unfold WeatherService.build_report. simpl. rewrite Elist. simpl.
  rewrite Eiter. simpl.
  rewrite (aggregate_ok items [] []); auto; [|simpl; tauto].
  simpl.
  repeat match goal with
         | Hg : dict_get ?k ?d = Some _ |- _ => rewrite Hg; simpl
         end.
  unfold dict_values, first_samples, first_of_each.
  rewrite !map_map, !length_map. reflexivity.
Qed.

(** On any other payload the body of the [try] raises. *)
Lemma build_report_raise (data : json) :
  wellformed_payload data = false ->
  exists x, WeatherService.build_report data = Raise x.
Proof.
  unfold WeatherService.build_report, wellformed_payload.
  destruct data as [| | | | | |kvs]; simpl; eauto.
  destruct (dict_get "list" kvs) as [samples|]; simpl; eauto.
  destruct (iterate samples) as [items|]; simpl; eauto.
  intros H.
  destruct (forallb has_date items && forallb has_fields (first_samples items)) eqn:E.
  - apply andb_prop in E. destruct E as [E1 E2].
    rewrite (aggregate_ok items [] []); auto; [|simpl; tauto].
    simpl. simpl in H.
    unfold dict_contains in H.
    destruct (dict_get "city" kvs); simpl; eauto.
    destruct (dict_get "cod" kvs); simpl; eauto. discriminate.
  - destruct (aggregate_raise items [] []) as [x ->]; simpl; eauto; tauto.
Qed.

Lemma build_report_wellformed (data report : json) :
  WeatherService.build_report data = Ok report -> wellformed_payload data = true.
Proof.
  intros H. destruct (wellformed_payload data) eqn:E; auto.
  destruct (build_report_raise _ E) as [x Hx]. congruence.
Qed.

(** [get_monthly_forecast] never raises, issues exactly the forecast call,
    and returns what [report_of_reply] reads off the reply. *)
Lemma get_monthly_forecast_run (lat lon : json) (st : state) :
  WeatherService.get_monthly_forecast lat lon st
  = (Ok (report_of_reply (fst (send (world st) (WeatherService.forecast_request lat lon)))),
     mkState (snd (send (world st) (WeatherService.forecast_request lat lon)))
             (trace st ++ [WeatherService.forecast_request lat lon])).
Proof.
  unfold WeatherService.get_monthly_forecast, try_except, bind, client_get, lift, ret.
  destruct (send (world st) (WeatherService.forecast_request lat lon)) as [r w'].
  destruct r as [f|code [data|]]; simpl; auto.
  - unfold raise_for_status. simpl.
    destruct (is_success code); simpl; auto.
    destruct (WeatherService.build_report data); simpl; auto.
  - unfold raise_for_status. simpl.
    destruct (is_success code); simpl; auto.
Qed.

(** The entries of a report are complete. *)
Lemma entries_complete (items : list json) :
  forallb has_fields items = true -> Forall complete_entry (map entry_of items).
Proof.
  induction items as [|s items IH]; simpl; intros H; constructor.
  - apply andb_prop in H. destruct H as [H _].
    destruct (daily_entry_ok _ H) as (e & He & Hc & _).
    now rewrite (entry_of_ok _ _ He).
  - apply IH. apply andb_prop in H. tauto.
Qed.

(** Each entry of a report is taken from the sample that opens its day. *)
Lemma entries_seeded (items : list json) :
  forallb has_fields items = true -> Forall2 seeded_from (map entry_of items) items.
Proof.
  induction items as [|s items IH]; simpl; intros H; constructor.
  - apply andb_prop in H. destruct H as [H _].
    destruct (daily_entry_ok _ H) as (e & He & _ & Hs).
    now rewrite (entry_of_ok _ _ He).
  - apply IH. apply andb_prop in H. tauto.
Qed.

Lemma report_complete (data report : json) :
  WeatherService.build_report data = Ok report -> complete_report report.
Proof.
  intros H. pose proof (build_report_wellformed _ _ H) as Hwf.
  destruct (build_report_ok _ Hwf) as (kvs & samples & items & city & cod & Hd & Hl & Hi & _ & _ & Hr).
  rewrite Hr in H. injection H as <-.
  exists city, cod, (map entry_of (first_samples items)). split; [reflexivity|].
  apply entries_complete.
  subst data. unfold wellformed_payload in Hwf. rewrite Hl, Hi in Hwf.
  repeat (apply andb_prop in Hwf; destruct Hwf as [Hwf ?]). assumption.
Qed.
End ReportFacts.

(* ===================================================================== *)
(** ** Location resolution *)
(* ===================================================================== *)

Section LocationFacts.
Context {P : Platform}.

(** [WeatherService.get_location] never raises and issues exactly the
    geocoding call. *)
Lemma get_location_run (city : string) (st : state) :
  WeatherService.get_location city st
  = (Ok (location_of_reply (fst (send (world st) (WeatherService.geo_request city)))),
     mkState (snd (send (world st) (WeatherService.geo_request city)))
             (trace st ++ [WeatherService.geo_request city])).
Proof.
  unfold WeatherService.get_location, try_except, bind, client_get, lift, ret.
  destruct (send (world st) (WeatherService.geo_request city)) as [r w'].
  destruct r as [f|code [locations|]]; simpl; auto;
    unfold raise_for_status; simpl; destruct (is_success code); simpl; auto.
  destruct (truthy locations); simpl; auto.
  destruct (getitem0 locations) as [location|]; simpl; auto.
  destruct (WeatherService.location_dict location); simpl; auto.
Qed.

(** [Main.get_location] never raises either and adds no call of its own. *)
Lemma main_get_location_run (city : string) (st : state) :
  Main.get_location city st
  = (Ok (model_of_reply (fst (send (world st) (WeatherService.geo_request city)))),
     mkState (snd (send (world st) (WeatherService.geo_request city)))
             (trace st ++ [WeatherService.geo_request city])).
Proof.
  unfold Main.get_location, try_except, bind. rewrite get_location_run.
  unfold model_of_reply.
  destruct (location_of_reply _) as [d|]; simpl; auto.
  destruct (truthy d); simpl; auto.
  unfold lift, ret. destruct (Main.kwargs d) as [kw|]; simpl; auto.
  destruct (LocationData kw); simpl; auto.
Qed.

(** A location dict is read off a well-formed match. *)
Lemma location_dict_ok (first : json) :
  wf_location first = true ->
  exists lat lon name country,
    getitem first "lat" = Ok lat /\ getitem first "lon" = Ok lon
    /\ getitem first "name" = Ok name /\ getitem first "country" = Ok country
    /\ WeatherService.location_dict first
       = Ok (JObject [("lat", lat); ("lon", lon); ("name", name); ("country", country)]).
Proof.
  unfold wf_location, object_with.
  destruct first as [| | | | | |kvs]; try discriminate.
  simpl forallb. intros H.
  repeat (apply andb_prop in H; destruct H as [? H]).
  repeat match goal with
         | Hc : dict_contains ?k ?d = true |- _ =>
             apply dict_contains_get in Hc; destruct Hc as [? Hc]
         end.
  unfold WeatherService.location_dict, getitem.
  repeat match goal with
         | Hg : dict_get ?k ?d = Some _ |- _ => rewrite Hg
         end.
  simpl. do 4 eexists. repeat split; reflexivity.
Qed.

(** [Main.get_weather] issues exactly its one call, whatever comes back. *)
Lemma main_get_weather_state (lat lon : json) (st : state) :
  snd (Main.get_weather lat lon st)
  = mkState (snd (send (world st) (Main.weather_request lat lon)))
            (trace st ++ [Main.weather_request lat lon]).
Proof.
  unfold Main.get_weather, try_except, bind, client_get, lift, ret, raise.
  destruct (send (world st) (Main.weather_request lat lon)) as [r w'].
  destruct r as [[|]|code [data|]]; simpl; auto;
    unfold raise_for_status; simpl; destruct (is_success code); simpl; auto.
Qed.

(** The outcome of [Main.get_weather] for each kind of reply. *)
Lemma main_get_weather_timeout (lat lon : json) (st : state) (w' : World) :
  send (world st) (Main.weather_request lat lon) = (Failed TimedOut, w') ->
  fst (Main.get_weather lat lon st) = Raise (HTTPException 504 "Request timeout").
Proof.
  intros H. unfold Main.get_weather, try_except, bind, client_get.
  rewrite H. reflexivity.
Qed.

Lemma main_get_weather_failed (lat lon : json) (st : state) (r : reply) (w' : World) :
  send (world st) (Main.weather_request lat lon) = (r, w') ->
  r <> Failed TimedOut ->
  call_failed r = true ->
  exists detail,
    fst (Main.get_weather lat lon st) = Raise (HTTPException 500 detail).
Proof.
  intros H Hr Hf. unfold Main.get_weather, try_except, bind, client_get, lift, raise.
  rewrite H.
  destruct r as [[|]|code [data|]]; simpl in *; try congruence; eauto;
    unfold raise_for_status; simpl; destruct (is_success code); simpl;
    try discriminate; eauto.
Qed.


(** Whatever [Main.get_weather] raises is an [HTTPException]. *)
Lemma main_get_weather_raises (lat lon : json) (st : state) (e : exn) :
  fst (Main.get_weather lat lon st) = Raise e ->
  exists code detail, e = HTTPException code detail.
Proof.
  unfold Main.get_weather, try_except, bind, client_get, lift, ret, raise.
  destruct (send (world st) (Main.weather_request lat lon)) as [r w'].
  destruct r as [[|]|code [data|]]; simpl;
    unfold raise_for_status; simpl; try destruct (is_success code); simpl;
    intros H; inversion H; eauto.
Qed.
End LocationFacts.

(* ===================================================================== *)
(** ** Properties of the forecast aggregation *)
(* ===================================================================== *)

Section ForecastProperties.
Context {P : Platform}.

Lemma wf_samples_have_dates (items : list json) :
  forallb wf_sample items = true -> forallb has_date items = true.
Proof.
  rewrite !forallb_forall. intros H s Hs.
  apply H in Hs. unfold wf_sample in Hs. apply andb_prop in Hs. tauto.
Qed.

Lemma wf_samples_first_have_fields (items : list json) :
  forallb wf_sample items = true -> forallb has_fields (first_samples items) = true.
Proof.
  rewrite !forallb_forall. intros H s Hs.
  apply first_of_each_from_In in Hs. destruct Hs as [Hs _].
  apply H in Hs. unfold wf_sample in Hs. apply andb_prop in Hs. tauto.
Qed.

(** The successful run on a payload whose parts are named. *)
Lemma get_monthly_forecast_report
  (lat lon : json) (st : state) (code : Z) (payload : dict json) (w' : World)
  (city cod samples : json) (items : list json) :
  send (world st) (WeatherService.forecast_request lat lon)
  = (Response code (Some (JObject payload)), w') ->
  is_success code = true ->
  dict_get "city" payload = Some city ->
  dict_get "cod" payload = Some cod ->
  dict_get "list" payload = Some samples ->
  iterate samples = Ok items ->
  forallb has_date items = true ->
  forallb has_fields (first_samples items) = true ->
  WeatherService.get_monthly_forecast lat lon st
  = (Ok (Some (JObject [("city", city);
                        ("cod", cod);
                        ("message", JInt 0);
                        ("cnt", JInt (Z.of_nat (List.length (map entry_of (first_samples items)))));
                        ("list", JList (map entry_of (first_samples items)))])),
     mkState w' (trace st ++ [WeatherService.forecast_request lat lon])).
Proof.
  intros Hsend Hcode Hcity Hcod Hlist Hiter Hdates Hfields.
  rewrite get_monthly_forecast_run, Hsend. simpl. rewrite Hcode.
  assert (Hwf : wellformed_payload (JObject payload) = true).
  { unfold wellformed_payload, dict_contains.
    now rewrite Hlist, Hiter, Hdates, Hfields, Hcity, Hcod. }
  destruct (build_report_ok _ Hwf)
    as (kvs & samples' & items' & city' & cod' & Hd & Hl & Hi & Hc1 & Hc2 & Hr).
  injection Hd as <-.
  rewrite Hr.
  assert (samples' = samples) by congruence. subst samples'.
  assert (items' = items) by congruence. subst items'.
  assert (city' = city) by congruence.
  assert (cod' = cod) by congruence.
  now subst.
Qed.

(** The report in terms of the key under which the aggregation files a
    sample: one entry for each key, seeded by the first sample filed under
    it. *)
Lemma forecast_days_by_key
  (lat lon : json) (st : state) (code : Z) (payload : dict json) (w' : World)
  (city cod : json) (items : list json) :
  send (world st) (WeatherService.forecast_request lat lon)
  = (Response code (Some (JObject payload)), w') ->
  is_success code = true ->
  dict_get "city" payload = Some city ->
  dict_get "cod" payload = Some cod ->
  dict_get "list" payload = Some (JList items) ->
  forallb wf_sample items = true ->
  exists report days,
    fst (WeatherService.get_monthly_forecast lat lon st) = Ok (Some report)
    /\ path report ["list"] = Some (JList days)
    /\ List.length days = distinct_keys sample_date items
    /\ Forall2 seeded_from days (first_samples items)
    /\ Subsequence (first_samples items) items
    /\ NoDup (map sample_date (first_samples items))
    /\ (forall s, In s items ->
                  In (sample_date s) (map sample_date (first_samples items)))
    /\ (forall s, In s (first_samples items) ->
                  find (fun x => String.eqb (sample_date x) (sample_date s)) items
                  = Some s).
Proof.
  intros Hsend Hcode Hcity Hcod Hlist Hwf.
  pose proof (wf_samples_have_dates _ Hwf) as Hdates.
  pose proof (wf_samples_first_have_fields _ Hwf) as Hfields.
  eexists. exists (map entry_of (first_samples items)).
  split.
  { rewrite (get_monthly_forecast_report lat lon st code payload w'
               city cod (JList items) items); auto. reflexivity. }
  split; [reflexivity|].
  split.
  { rewrite length_map. apply first_of_each_length. }
  split; [now apply entries_seeded|].
  split; [apply first_of_each_from_Subsequence|].
  split; [apply first_of_each_from_NoDup|].
  split.
  - intros s Hs. unfold first_samples, first_of_each.
    rewrite first_of_each_from_keys. split; [now apply in_map | simpl; tauto].
  - intros s Hs. eapply first_of_each_from_find. exact Hs.
Qed.

(** The key under which the aggregation files a sample is the sample's
    calendar date. *)
Lemma sample_date_is_calendar_day (item : json) :
  is_sample item = true ->
  WeatherService.date_of item = Ok (calendar_day item) /\ has_fields item = true.
Proof.
  unfold is_sample, calendar_day, calendar_date, WeatherService.date_of.
  destruct item as [|b|n|x|s|xs|kvs]; simpl; try discriminate.
  destruct (dict_get "dt" kvs) as [[|b|n|x|s|xs|kvs']|]; simpl; try discriminate.
  - destruct (local_date (TsInt n)); [auto | discriminate].
  - destruct (local_date (TsFloat x)); [auto | discriminate].
Qed.

Lemma samples_are_wf (items : list json) :
  forallb is_sample items = true ->
  forallb wf_sample items = true
  /\ (forall s, In s items -> sample_date s = calendar_day s).
Proof.
  rewrite !forallb_forall. intros H. split; intros s Hs;
    destruct (sample_date_is_calendar_day s (H s Hs)) as [Hd Hf].
  - unfold wf_sample, has_date. now rewrite Hd, Hf.
  - unfold sample_date. now rewrite Hd.
Qed.

(** Keys that agree on a list select the same firsts from it. *)
Lemma first_of_each_from_same_keys
  {A : Type} (key key' : A -> string) (seen : list string) (xs : list A) :
  (forall x, In x xs -> key x = key' x) ->
  first_of_each_from key seen xs = first_of_each_from key' seen xs.
Proof.
  revert seen. induction xs as [|x xs IH]; intros seen Hk; simpl; [reflexivity|].
  rewrite <- (Hk x (or_introl eq_refl)).
  destruct (in_dec string_dec (key x) seen);
    [|f_equal]; apply IH; intros y Hy; apply Hk; now right.
Qed.

Lemma find_same_keys
  {A : Type} (key key' : A -> string) (k : string) (xs : list A) :
  (forall x, In x xs -> key x = key' x) ->
  find (fun x => String.eqb (key x) k) xs = find (fun x => String.eqb (key' x) k) xs.
Proof.
  induction xs as [|x xs IH]; intros Hk; simpl; [reflexivity|].
  rewrite <- (Hk x (or_introl eq_refl)).
  destruct (String.eqb (key x) k); [reflexivity|].
  apply IH. intros y Hy. apply Hk. now right.
Qed.

(** C1.  For a forecast payload whose [list] holds three-hour samples over
    D distinct local calendar dates, [get_monthly_forecast] returns a
    report whose [list] has exactly D entries, one per date in order of
    first appearance.  The dates are the calendar dates of the samples'
    [dt], not a key of the code's own.  The entries are taken, field by
    field (rain 0 when absent), from the samples that open each date;
    these form a subsequence of the samples, have pairwise distinct dates
    covering every date of the payload, and are each the first sample of
    their date; the other samples leave no trace. *)
Theorem monthly_forecast_one_entry_per_date
  (lat lon : json) (st : state) (code : Z) (payload : dict json) (w' : World)
  (city cod : json) (items : list json) :
  send (world st) (WeatherService.forecast_request lat lon)
  = (Response code (Some (JObject payload)), w') ->
  is_success code = true ->
  dict_get "city" payload = Some city ->
  dict_get "cod" payload = Some cod ->
  dict_get "list" payload = Some (JList items) ->
  forallb is_sample items = true ->
  exists report days,
    fst (WeatherService.get_monthly_forecast lat lon st) = Ok (Some report)
    /\ path report ["list"] = Some (JList days)
    /\ path report ["cnt"] = Some (JInt (Z.of_nat (distinct_keys calendar_day items)))
    /\ List.length days = distinct_keys calendar_day items
    /\ Forall2 seeded_from days (first_of_each calendar_day items)
    /\ Subsequence (first_of_each calendar_day items) items
    /\ NoDup (map calendar_day (first_of_each calendar_day items))
    /\ (forall s, In s items ->
                  In (calendar_day s)
                     (map calendar_day (first_of_each calendar_day items)))
    /\ (forall s, In s (first_of_each calendar_day items) ->
                  find (fun x => String.eqb (calendar_day x) (calendar_day s)) items
                  = Some s).
Proof.
  intros Hsend Hcode Hcity Hcod Hlist Hsamples.
  destruct (samples_are_wf _ Hsamples) as [Hwf Hkey].
  assert (Hfirst : first_samples items = first_of_each calendar_day items).
  { apply first_of_each_from_same_keys. exact Hkey. }
  assert (Hin : forall s, In s (first_of_each calendar_day items) -> In s items).
  { intros s Hs. rewrite <- Hfirst in Hs.
    now apply first_of_each_from_In in Hs. }
  assert (Hdates : map sample_date (first_of_each calendar_day items)
                   = map calendar_day (first_of_each calendar_day items)).
  { apply map_ext_in. intros s Hs. apply Hkey, Hin, Hs. }
  assert (Hcount : distinct_keys sample_date items = distinct_keys calendar_day items).
  { unfold distinct_keys. f_equal. f_equal. now apply map_ext_in. }
  destruct (forecast_days_by_key lat lon st code payload w' city cod items
              Hsend Hcode Hcity Hcod Hlist Hwf)
    as (report & days & Hrun & Hdays & Hlen & Hseed & Hsub & Hnd & Hcov & Hfind).
  rewrite Hfirst in Hseed, Hsub, Hnd, Hcov, Hfind.
  rewrite Hdates in Hnd, Hcov. rewrite Hcount in Hlen.
  exists report, days.
  split; [exact Hrun|]. split; [exact Hdays|].
  split.
  { rewrite <- Hlen.
    rewrite (get_monthly_forecast_report lat lon st code payload w'
               city cod (JList items) items) in Hrun;
      auto using wf_samples_have_dates, wf_samples_first_have_fields.
    simpl in Hrun. injection Hrun as <-.
    simpl in Hdays. injection Hdays as <-. reflexivity. }
  split; [exact Hlen|]. split; [exact Hseed|]. split; [exact Hsub|].
  split; [exact Hnd|]. split.
  - intros s Hs. rewrite <- (Hkey s Hs). now apply Hcov.
  - intros s Hs. rewrite <- (Hkey s (Hin s Hs)).
    rewrite <- (find_same_keys sample_date calendar_day _ items Hkey).
    now apply Hfind.
Qed.

(** C7.  When the forecast fetch fails (the call raises on a timeout or a
    connection error, the status is not a success, the body is not JSON or
    the payload is not well formed) [get_monthly_forecast] returns [None];
    and whatever the reply, the result is [None] or a complete report,
    never a part of one. *)
Theorem monthly_forecast_failure_returns_None
  (lat lon : json) (st : state) (r : reply) (w' : World) :
  send (world st) (WeatherService.forecast_request lat lon) = (r, w') ->
  (fetch_failed r = true ->
   WeatherService.get_monthly_forecast lat lon st
   = (Ok None, mkState w' (trace st ++ [WeatherService.forecast_request lat lon])))
  /\ (fetch_failed r = false ->
      exists report,
        fst (WeatherService.get_monthly_forecast lat lon st) = Ok (Some report)
        /\ complete_report report).
Proof.
  intros Hsend. rewrite get_monthly_forecast_run, Hsend. simpl.
  split; intros Hf.
  - f_equal. f_equal.
    destruct r as [f|code [data|]]; simpl in *; auto.
    destruct (is_success code); simpl in *; auto.
    destruct (wellformed_payload data) eqn:E; [discriminate|].
    destruct (build_report_raise _ E) as [x ->]. reflexivity.
  - destruct r as [f|code [data|]]; simpl in *; try discriminate.
    destruct (is_success code); simpl in *; try discriminate.
    destruct (wellformed_payload data) eqn:E; [|discriminate].
    destruct (build_report_ok _ E) as (? & ? & ? & ? & ? & _ & _ & _ & _ & _ & Hr).
    rewrite Hr. eexists. split; [reflexivity|].
    eapply report_complete. exact Hr.
Qed.

(** C10.  In every report that [get_monthly_forecast] returns, [cnt] is the
    length of [list], which is the number of distinct local dates among the
    samples, and [message] is 0, whatever [cnt] and [message] the provider's
    payload carries. *)
Theorem monthly_report_cnt_and_message
  (lat lon : json) (st : state) (report : json) :
  fst (WeatherService.get_monthly_forecast lat lon st) = Ok (Some report) ->
  exists (days : list json) (data samples : json) (items : list json),
    path report ["list"] = Some (JList days)
    /\ path report ["cnt"] = Some (JInt (Z.of_nat (List.length days)))
    /\ path report ["message"] = Some (JInt 0)
    /\ content_of (fst (send (world st) (WeatherService.forecast_request lat lon)))
       = Some data
    /\ path data ["list"] = Some samples
    /\ iterate samples = Ok items
    /\ List.length days = distinct_keys sample_date items.
Proof.
  rewrite get_monthly_forecast_run. simpl.
  destruct (send (world st) (WeatherService.forecast_request lat lon)) as [r w'].
  simpl. destruct r as [f|code [data|]]; simpl; try discriminate.
  destruct (is_success code); try discriminate.
  destruct (WeatherService.build_report data) as [rep|x] eqn:Hb; try discriminate.
  intros H. injection H as <-.
  pose proof (build_report_wellformed _ _ Hb) as Hwf.
  destruct (build_report_ok _ Hwf)
    as (kvs & samples & items & city & cod & Hd & Hl & Hi & _ & _ & Hr).
  rewrite Hr in Hb. injection Hb as <-.
  exists (map entry_of (first_samples items)), data, samples, items.
  repeat split; auto.
  - subst data. simpl. now rewrite Hl.
  - rewrite length_map. apply first_of_each_length.
Qed.
End ForecastProperties.

(* ===================================================================== *)
(** ** Properties of [WeatherService]: resolution and current weather *)
(* ===================================================================== *)

Section ServiceProperties.
Context {P : Platform}.

(** [WeatherService.get_weather] never raises; it stops after the geocoding
    call when that gives no target, and otherwise issues the weather call
    for the target's coordinates. *)
Lemma get_weather_run (city : string) (st : state) :
  WeatherService.get_weather city st
  = let (r1, w1) := send (world st) (WeatherService.weather_geo_request city) in
    match target_of_reply r1 with
    | None =>
        (Ok None, mkState w1 (trace st ++ [WeatherService.weather_geo_request city]))
    | Some (location, lat, lon) =>
        let (r2, w2) := send w1 (WeatherService.weather_request lat lon) in
        (Ok (weather_of_reply location r2),
         mkState w2 (trace st ++ [WeatherService.weather_geo_request city;
                                  WeatherService.weather_request lat lon]))
    end.
Proof.
  unfold WeatherService.get_weather, try_except, bind, client_get, lift, ret.
  destruct (send (world st) (WeatherService.weather_geo_request city)) as [r1 w1].
  destruct r1 as [f|code [locations|]]; simpl; auto;
    unfold raise_for_status; simpl; destruct (is_success code); simpl; auto.
  destruct (truthy locations); simpl; auto.
  destruct (getitem0 locations) as [location|]; simpl; auto.
  destruct (getitem location "lat") as [lat|]; simpl; auto.
  destruct (getitem location "lon") as [lon|]; simpl; auto.
  destruct (send w1 (WeatherService.weather_request lat lon)) as [r2 w2].
  rewrite <- app_assoc. simpl.
  destruct r2 as [f|code2 [weather_data|]]; simpl; auto;
    destruct (is_success code2); simpl; auto.
  destruct (WeatherService.location_dict location) as [loc|]; simpl; auto.
  destruct (setitem weather_data "location" loc); simpl; auto.
Qed.

(** C4.  For a geocoding reply that is a list, whose first element (if any)
    is a location, [get_location] returns [None] (a value, nothing is
    raised) exactly when the list is empty, and otherwise the [lat], [lon],
    [name] and [country] of the first element, whatever follows it;
    [get_weather] selects the same way: no weather call for an empty list,
    and otherwise one for the coordinates of the first element. *)
Theorem location_is_first_match
  (city : string) (st : state) (code : Z) (locations : list json) (w' : World) :
  send (world st) (WeatherService.geo_request city)
  = (Response code (Some (JList locations)), w') ->
  is_success code = true ->
  (forall first rest, locations = first :: rest -> wf_location first = true) ->
  (fst (WeatherService.get_location city st) = Ok None <-> locations = [])
  /\ (forall first rest, locations = first :: rest ->
        exists lat lon name country,
          getitem first "lat" = Ok lat /\ getitem first "lon" = Ok lon
          /\ getitem first "name" = Ok name /\ getitem first "country" = Ok country
          /\ fst (WeatherService.get_location city st)
             = Ok (Some (JObject [("lat", lat); ("lon", lon);
                                  ("name", name); ("country", country)])))
  /\ (forall w1,
        send (world st) (WeatherService.weather_geo_request city)
        = (Response code (Some (JList locations)), w1) ->
        match locations with
        | [] =>
            WeatherService.get_weather city st
            = (Ok None, mkState w1 (trace st ++ [WeatherService.weather_geo_request city]))
        | first :: _ =>
            exists lat lon,
              getitem first "lat" = Ok lat /\ getitem first "lon" = Ok lon
              /\ trace (snd (WeatherService.get_weather city st))
                 = (trace st ++ [WeatherService.weather_geo_request city;
                                 WeatherService.weather_request lat lon])%list
        end).
Proof.
  intros Hsend Hcode Hwf.
  rewrite get_location_run, Hsend. simpl. rewrite Hcode. simpl.
  destruct locations as [|first rest].
  - simpl. split; [tauto|]. split; [discriminate|].
    intros w1 H1. rewrite get_weather_run, H1. simpl. now rewrite Hcode.
  - simpl.
    destruct (location_dict_ok first (Hwf _ _ eq_refl))
      as (lat & lon & name & country & Hlat & Hlon & Hname & Hcountry & Hloc).
    rewrite Hloc. split; [split; discriminate|]. split.
    + intros first' rest' E. injection E as <- <-.
      exists lat, lon, name, country. auto.
    + intros w1 H1. exists lat, lon. split; [auto|]. split; [auto|].
      rewrite get_weather_run, H1. simpl. rewrite Hcode. simpl.
      rewrite Hlat, Hlon.
      now destruct (send w1 (WeatherService.weather_request lat lon)).
Qed.

(** C5.  When the geocoding call and the weather call both succeed,
    [get_weather] returns the weather payload with [location] set to the
    resolved [lat], [lon], [name] and [country]: every other key keeps its
    value, the keys keep their order, and a payload without a [location] is
    returned with that one key added at its end. *)
Theorem get_weather_adds_only_location
  (city : string) (st : state) (code1 code2 : Z) (first : json) (rest : list json)
  (lat lon name country : json) (payload : dict json) (w1 w2 : World) :
  send (world st) (WeatherService.weather_geo_request city)
  = (Response code1 (Some (JList (first :: rest))), w1) ->
  is_success code1 = true ->
  getitem first "lat" = Ok lat ->
  getitem first "lon" = Ok lon ->
  getitem first "name" = Ok name ->
  getitem first "country" = Ok country ->
  send w1 (WeatherService.weather_request lat lon)
  = (Response code2 (Some (JObject payload)), w2) ->
  is_success code2 = true ->
  let location := JObject [("lat", lat); ("lon", lon);
                           ("name", name); ("country", country)] in
  exists report,
    fst (WeatherService.get_weather city st) = Ok (Some (JObject report))
    /\ dict_get "location" report = Some location
    /\ (forall k, k <> "location" -> dict_get k report = dict_get k payload)
    /\ (forall k, In k (dict_keys payload) -> In k (dict_keys report))
    /\ (dict_contains "location" payload = false ->
        report = (payload ++ [("location", location)])%list).
Proof.
  intros H1 Hc1 Hlat Hlon Hname Hcountry H2 Hc2 location.
  exists (dict_set "location" location payload).
  split.
  { rewrite get_weather_run, H1. simpl. rewrite Hc1. simpl.
    rewrite Hlat, Hlon, H2. simpl. rewrite Hc2.
    unfold WeatherService.location_dict. rewrite Hlat, Hlon, Hname, Hcountry.
    reflexivity. }
  split; [apply dict_get_set_same|].
  split; [intros k Hk; now apply dict_get_set_other|].
  split; [intros k Hk; apply dict_keys_set; tauto|].
  apply dict_set_absent.
Qed.

(** C9.  [get_weather] returns [None] when the geocoder answers with zero
    matches, and also when either outbound call fails (it raises on a
    timeout or a lost connection, answers with a status that is not a
    success, or with a body that is not JSON, or that lacks what the code
    reads): the two situations give the same result. *)
Theorem get_weather_None_is_ambiguous
  (city : string) (st : state) (r1 : reply) (w1 : World) :
  send (world st) (WeatherService.weather_geo_request city) = (r1, w1) ->
  ((exists code, is_success code = true /\ r1 = Response code (Some (JList []))) ->
   fst (WeatherService.get_weather city st) = Ok None)
  /\ (call_failed r1 = true ->
      fst (WeatherService.get_weather city st) = Ok None)
  /\ (forall code first rest,
        r1 = Response code (Some (JList (first :: rest))) ->
        wf_location first = false ->
        fst (WeatherService.get_weather city st) = Ok None)
  /\ (forall code first rest lat lon r2 w2,
        r1 = Response code (Some (JList (first :: rest))) ->
        is_success code = true ->
        getitem first "lat" = Ok lat ->
        getitem first "lon" = Ok lon ->
        send w1 (WeatherService.weather_request lat lon) = (r2, w2) ->
        (call_failed r2 = true
         \/ (forall kvs, content_of r2 <> Some (JObject kvs))) ->
        fst (WeatherService.get_weather city st) = Ok None).
Proof.
  intros H1. rewrite get_weather_run, H1.
  split; [|split; [|split]].
  - intros (code & Hc & ->). simpl. now rewrite Hc.
  - intros Hf. destruct r1 as [f|code [locations|]]; simpl in *; auto.
    apply negb_true_iff in Hf. now rewrite Hf.
  - intros code first rest -> Hwf. simpl.
    destruct (is_success code); simpl; auto.
    destruct (getitem first "lat") as [lat|] eqn:Elat; auto.
    destruct (getitem first "lon") as [lon|] eqn:Elon; auto.
    destruct (send w1 (WeatherService.weather_request lat lon)) as [r2 w2].
    simpl. destruct r2 as [f|code2 [weather_data|]]; simpl; auto.
    destruct (is_success code2); auto.
    unfold WeatherService.location_dict. rewrite Elat, Elon. simpl.
    destruct (getitem first "name") as [name|] eqn:Ename; auto.
    destruct (getitem first "country") as [country|] eqn:Ecountry; auto.
    exfalso. revert Hwf Elat Elon Ename Ecountry.
    unfold wf_location, object_with, getitem, dict_contains.
    destruct first as [| | | | | |kvs]; try discriminate. simpl.
    destruct (dict_get "lat" kvs); try discriminate.
    destruct (dict_get "lon" kvs); try discriminate.
    destruct (dict_get "name" kvs); try discriminate.
    destruct (dict_get "country" kvs); discriminate.
  - intros code first rest lat lon r2 w2 -> Hc Hlat Hlon H2 Hbad. simpl.
    rewrite Hc. simpl. rewrite Hlat, Hlon, H2. simpl.
    destruct r2 as [f|code2 [weather_data|]]; simpl in *; auto.
    destruct (is_success code2) eqn:Hc2; auto.
    destruct Hbad as [Hbad|Hbad]; [discriminate|].
    destruct (WeatherService.location_dict first); simpl; auto.
    destruct weather_data; simpl; auto.
    exfalso. eapply Hbad. reflexivity.
Qed.
End ServiceProperties.

(* ===================================================================== *)
(** ** Properties of the endpoints *)
(* ===================================================================== *)

Section EndpointProperties.
Context {P : Platform}.

(** Routing: a non-empty city segment under /api/weather reaches
    [get_city_weather], the route registered first. *)
Lemma route_current_weather (city : string) :
  city <> EmptyString ->
  App.find_route App.routes ["api"; "weather"; city] = Some (Main.get_city_weather city).
Proof.
  intros Hne. apply String.eqb_neq in Hne.
  unfold App.find_route, App.routes, App.pattern, App.endpoint, App.match_path.
  simpl String.eqb. now rewrite Hne.
Qed.

(** Routing: a non-empty city segment under /api/weather/monthly reaches
    [get_monthly_weather]. *)
Lemma route_monthly (city : string) :
  city <> EmptyString ->
  App.find_route App.routes ["api"; "weather"; "monthly"; city]
  = Some (Api.get_monthly_weather city).
Proof.
  intros Hne. apply String.eqb_neq in Hne.
  unfold App.find_route, App.routes, App.pattern, App.endpoint, App.match_path.
  simpl String.eqb. now rewrite Hne.
Qed.

(** The same two facts with the way the answer is rendered: the
    current-weather route has a response model, the monthly route returns
    a dict of its own. *)
Lemma handler_current_weather (city : string) :
  city <> EmptyString ->
  App.find_handler App.routes App.response_models ["api"; "weather"; city]
  = Some (Main.get_city_weather city, true).
Proof.
  intros Hne. apply String.eqb_neq in Hne.
  unfold App.find_handler, App.routes, App.response_models, App.pattern,
    App.endpoint, App.match_path.
  simpl String.eqb. now rewrite Hne.
Qed.


(** A route is found exactly when a handler is. *)
Lemma find_handler_route (rs : list App.route) (models : list bool) (segs : list string) :
  App.find_route rs segs = option_map fst (App.find_handler rs models segs).
Proof.
  revert models. induction rs as [|r rs IH]; intros models; [reflexivity|].
  cbn [App.find_route App.find_handler].
  destruct (App.match_path (App.pattern r) segs) as [[|c [|c' cs]]|]; auto.
Qed.

(** [get_city_weather] on a city that resolves to no location. *)
Lemma get_city_weather_unresolved (city : string) (st : state) :
  city <> EmptyString ->
  model_of_reply (fst (send (world st) (WeatherService.geo_request city))) = None ->
  Main.get_city_weather city st
  = (Raise (HTTPException 404 "City not found"), after_geocode city st).
Proof.
  intros Hne Hnone. apply String.eqb_neq in Hne.
  unfold Main.get_city_weather, try_except, bind. rewrite Hne. simpl.
  rewrite main_get_location_run, Hnone. reflexivity.
Qed.

(** [get_city_weather] on a city that resolves: the outcome follows that of
    [Main.get_weather] at the location's coordinates, an [HTTPException]
    passing through unchanged. *)
Lemma get_city_weather_resolved
  (city : string) (st : state) (loc : dict json) (lat lon : json) :
  city <> EmptyString ->
  model_of_reply (fst (send (world st) (WeatherService.geo_request city))) = Some loc ->
  getitem (JObject loc) "lat" = Ok lat ->
  getitem (JObject loc) "lon" = Ok lon ->
  snd (Main.get_city_weather city st)
  = snd (Main.get_weather lat lon (after_geocode city st))
  /\ (forall code detail,
        fst (Main.get_weather lat lon (after_geocode city st))
        = Raise (HTTPException code detail) ->
        fst (Main.get_city_weather city st) = Raise (HTTPException code detail)).
Proof.
  intros Hne Hloc Hlat Hlon. apply String.eqb_neq in Hne.
  unfold Main.get_city_weather, try_except, bind. rewrite Hne. simpl.
  rewrite main_get_location_run, Hloc. fold (after_geocode city st).
  simpl in Hlat, Hlon. rewrite Hlat, Hlon.
  destruct (Main.get_weather lat lon (after_geocode city st)) as [[data|e] st2].
  - split; [|discriminate]. simpl. unfold lift.
    destruct (py_dict data) as [wd|e]; simpl.
    + destruct (WeatherData _) as [v|e]; simpl; auto. now destruct e.
    + now destruct e.
  - split; [now destruct e|]. simpl. intros code detail H.
    injection H as ->. reflexivity.
Qed.

(** C3.  For a non-empty city for which the geocoder returns zero matches,
    GET /api/weather/{city} answers 404 with the body
    [{"detail": "City not found"}], after the one geocoding call. *)
Theorem unknown_city_answers_404
  (city : string) (st : state) (code : Z) (w' : World) :
  city <> EmptyString ->
  send (world st) (WeatherService.geo_request city)
  = (Response code (Some (JList [])), w') ->
  App.handle_get ["api"; "weather"; city] st
  = (App.mkHttp 404 (JObject [("detail", JString "City not found")]),
     mkState w' (trace st ++ [WeatherService.geo_request city])).
Proof.
  intros Hne Hsend. unfold App.handle_get.
  rewrite (handler_current_weather _ Hne). unfold App.serve.
  rewrite get_city_weather_unresolved; auto.
  - unfold after_geocode. now rewrite Hsend.
  - rewrite Hsend. unfold model_of_reply. simpl.
    now destruct (is_success code).
Qed.

(** C6.  The current-weather call is sent with a deadline of 10 seconds.
    When the deadline expires, [get_weather] raises the 504 "Request
    timeout" and GET /api/weather/{city} answers 504; every other failure
    of the call (no connection, a status that is not a success, a body that
    is not JSON) gives a 500. *)
Theorem current_weather_timeout_answers_504
  (city : string) (st : state) (loc : dict json) (lat lon : json)
  (r : reply) (w2 : World) :
  city <> EmptyString ->
  fst (Main.get_location city st) = Ok (Some loc) ->
  getitem (JObject loc) "lat" = Ok lat ->
  getitem (JObject loc) "lon" = Ok lon ->
  send (world (after_geocode city st)) (Main.weather_request lat lon) = (r, w2) ->
  timeout (Main.weather_request lat lon) = Some 10%float
  /\ (r = Failed TimedOut ->
      fst (Main.get_weather lat lon (after_geocode city st))
      = Raise (HTTPException 504 "Request timeout")
      /\ fst (App.handle_get ["api"; "weather"; city] st)
         = App.mkHttp 504 (JObject [("detail", JString "Request timeout")]))
  /\ (r <> Failed TimedOut ->
      call_failed r = true ->
      exists detail,
        fst (Main.get_weather lat lon (after_geocode city st))
        = Raise (HTTPException 500 detail)
        /\ fst (App.handle_get ["api"; "weather"; city] st)
           = App.mkHttp 500 (JObject [("detail", JString detail)])).
Proof.
  intros Hne Hloc Hlat Hlon Hsend.
  rewrite main_get_location_run in Hloc. simpl in Hloc.
  injection Hloc as Hloc.
  destruct (get_city_weather_resolved city st loc lat lon Hne Hloc Hlat Hlon)
    as [_ Hpass].
  split; [reflexivity|]. split.
  - intros ->.
    pose proof (main_get_weather_timeout _ _ _ _ Hsend) as Hw.
    split; [exact Hw|].
    unfold App.handle_get. rewrite (handler_current_weather _ Hne).
    unfold App.serve.
    specialize (Hpass _ _ Hw).
    destruct (Main.get_city_weather city st) as [res st']. simpl in *.
    now rewrite Hpass.
  - intros Hr Hf.
    destruct (main_get_weather_failed _ _ _ _ _ Hsend Hr Hf) as [detail Hw].
    exists detail. split; [exact Hw|].
    unfold App.handle_get. rewrite (handler_current_weather _ Hne).
    unfold App.serve.
    specialize (Hpass _ _ Hw).
    destruct (Main.get_city_weather city st) as [res st']. simpl in *.
    now rewrite Hpass.
Qed.
End EndpointProperties.

(* ===================================================================== *)
(** ** Call discipline of the endpoints, and the monthly endpoint *)
(* ===================================================================== *)

Section CallDiscipline.
Context {P : Platform}.

(** The calls [get_city_weather] issues: none, the geocoding call, or the
    geocoding call and then the weather call at the coordinates of the
    resolved location. *)
Lemma get_city_weather_calls (city : string) (st : state) :
  exists calls,
    trace (snd (Main.get_city_weather city st)) = (trace st ++ calls)%list
    /\ (calls = []
        \/ calls = [WeatherService.geo_request city]
        \/ exists loc lat lon,
             fst (Main.get_location city st) = Ok (Some loc)
             /\ getitem (JObject loc) "lat" = Ok lat
             /\ getitem (JObject loc) "lon" = Ok lon
             /\ calls = [WeatherService.geo_request city; Main.weather_request lat lon]).
Proof.
  destruct (String.eqb city EmptyString) eqn:Hcity.
  { exists []. split; [|tauto].
    unfold Main.get_city_weather, try_except, bind. rewrite Hcity. simpl.
    now rewrite app_nil_r. }
  assert (Hne : city <> EmptyString) by now apply String.eqb_neq.
  destruct (model_of_reply (fst (send (world st) (WeatherService.geo_request city))))
    as [loc|] eqn:Hloc.
  2:{ exists [WeatherService.geo_request city]. split; [|tauto].
      now rewrite get_city_weather_unresolved. }
  destruct (getitem (JObject loc) "lat") as [lat|e] eqn:Hlat.
  2:{ exists [WeatherService.geo_request city]. split; [|tauto].
      unfold Main.get_city_weather, try_except, bind. rewrite Hcity. simpl.
      rewrite main_get_location_run, Hloc. simpl in Hlat. rewrite Hlat.
      now destruct e. }
  destruct (getitem (JObject loc) "lon") as [lon|e] eqn:Hlon.
  2:{ exists [WeatherService.geo_request city]. split; [|tauto].
      unfold Main.get_city_weather, try_except, bind. rewrite Hcity. simpl.
      rewrite main_get_location_run, Hloc. simpl in Hlat, Hlon.
      rewrite Hlat, Hlon. now destruct e. }
  exists [WeatherService.geo_request city; Main.weather_request lat lon].
  split.
  - destruct (get_city_weather_resolved city st loc lat lon Hne Hloc Hlat Hlon)
      as [-> _].
    rewrite main_get_weather_state. simpl. now rewrite <- app_assoc.
  - right. right. exists loc, lat, lon.
    rewrite main_get_location_run, Hloc. auto.
Qed.

(** A resolved location is truthy: it is a dict of four keys. *)
Lemma location_of_reply_truthy (r : reply) (loc : json) :
  location_of_reply r = Some loc -> truthy loc = true.
Proof.
  unfold location_of_reply.
  destruct r as [f|code [locations|]]; try discriminate.
  destruct (is_success code && truthy locations); try discriminate.
  destruct (getitem0 locations) as [location|]; try discriminate. simpl.
  unfold WeatherService.location_dict.
  destruct (getitem location "lat"); try discriminate. simpl.
  destruct (getitem location "lon"); try discriminate. simpl.
  destruct (getitem location "name"); try discriminate. simpl.
  destruct (getitem location "country"); try discriminate. simpl.
  intros H. injection H as <-. reflexivity.
Qed.

(** A returned report is truthy: it is a dict of five keys. *)
Lemma report_of_reply_truthy (r : reply) (report : json) :
  report_of_reply r = Some report -> truthy report = true.
Proof.
  unfold report_of_reply.
  destruct r as [f|code [data|]]; try discriminate.
  destruct (is_success code); try discriminate.
  destruct (WeatherService.build_report data) as [rep|] eqn:Hb; try discriminate.
  intros H. injection H as <-.
  destruct (report_complete _ _ Hb) as (city & cod & days & -> & _). reflexivity.
Qed.

(** [get_monthly_weather] on a city that resolves to no location: the 404
    raised inside the [try] is caught by its [except Exception] and leaves
    as a 500. *)
Lemma get_monthly_weather_unresolved (city : string) (st : state) :
  city <> EmptyString ->
  location_of_reply (fst (send (world st) (WeatherService.geo_request city))) = None ->
  Api.get_monthly_weather city st
  = (Raise (HTTPException 500 "Internal server error"), after_geocode city st).
Proof.
  intros Hne Hnone. apply String.eqb_neq in Hne.
  unfold Api.get_monthly_weather, try_except, bind. rewrite Hne.
  rewrite get_location_run, Hnone. reflexivity.
Qed.

(** [get_monthly_weather] on a city that resolves: one forecast call at the
    location's coordinates; the report with 200, or a 500. *)
Lemma get_monthly_weather_resolved
  (city : string) (st : state) (loc lat lon : json) :
  city <> EmptyString ->
  location_of_reply (fst (send (world st) (WeatherService.geo_request city))) = Some loc ->
  getitem loc "lat" = Ok lat ->
  getitem loc "lon" = Ok lon ->
  Api.get_monthly_weather city st
  = (match report_of_reply
             (fst (send (world (after_geocode city st))
                        (WeatherService.forecast_request lat lon))) with
     | Some report => Ok report
     | None => Raise (HTTPException 500 "Internal server error")
     end,
     mkState (snd (send (world (after_geocode city st))
                        (WeatherService.forecast_request lat lon)))
             (trace (after_geocode city st) ++ [WeatherService.forecast_request lat lon])).
Proof.
  intros Hne Hloc Hlat Hlon. apply String.eqb_neq in Hne.
  pose proof (location_of_reply_truthy _ _ Hloc) as Htrue.
  unfold Api.get_monthly_weather, try_except, bind. rewrite Hne.
  rewrite get_location_run, Hloc. fold (after_geocode city st).
  change (truthy_opt (Some loc)) with (truthy loc). rewrite Htrue. simpl.
  rewrite Hlat, Hlon, get_monthly_forecast_run.
  destruct (report_of_reply _) as [report|] eqn:Hrep; simpl; auto.
  now rewrite (report_of_reply_truthy _ _ Hrep).
Qed.

(** The calls [get_monthly_weather] issues. *)
Lemma get_monthly_weather_calls (city : string) (st : state) :
  exists calls,
    trace (snd (Api.get_monthly_weather city st)) = (trace st ++ calls)%list
    /\ (calls = []
        \/ calls = [WeatherService.geo_request city]
        \/ exists loc lat lon,
             fst (WeatherService.get_location city st) = Ok (Some loc)
             /\ getitem loc "lat" = Ok lat
             /\ getitem loc "lon" = Ok lon
             /\ calls = [WeatherService.geo_request city;
                         WeatherService.forecast_request lat lon]).
Proof.
  destruct (String.eqb city EmptyString) eqn:Hcity.
  { exists []. split; [|tauto].
    unfold Api.get_monthly_weather. rewrite Hcity. simpl. now rewrite app_nil_r. }
  assert (Hne : city <> EmptyString) by now apply String.eqb_neq.
  destruct (location_of_reply (fst (send (world st) (WeatherService.geo_request city))))
    as [loc|] eqn:Hloc.
  2:{ exists [WeatherService.geo_request city]. split; [|tauto].
      now rewrite get_monthly_weather_unresolved. }
  pose proof (location_of_reply_truthy _ _ Hloc) as Htrue.
  destruct (getitem loc "lat") as [lat|e] eqn:Hlat.
  2:{ exists [WeatherService.geo_request city]. split; [|tauto].
      unfold Api.get_monthly_weather, try_except, bind. rewrite Hcity.
      rewrite get_location_run, Hloc. change (truthy_opt (Some loc)) with (truthy loc). rewrite Htrue. simpl.
      now rewrite Hlat. }
  destruct (getitem loc "lon") as [lon|e] eqn:Hlon.
  2:{ exists [WeatherService.geo_request city]. split; [|tauto].
      unfold Api.get_monthly_weather, try_except, bind. rewrite Hcity.
      rewrite get_location_run, Hloc. change (truthy_opt (Some loc)) with (truthy loc). rewrite Htrue. simpl.
      now rewrite Hlat, Hlon. }
  exists [WeatherService.geo_request city; WeatherService.forecast_request lat lon].
  split.
  - rewrite (get_monthly_weather_resolved city st loc lat lon); auto.
    simpl. now rewrite <- app_assoc.
  - right. right. exists loc, lat, lon.
    rewrite get_location_run, Hloc. auto.
Qed.

(** The three shapes of a call list satisfy the discipline. *)
Lemma shapes_disciplined (geo data : request) (calls : list request)
      (target : request -> Prop) :
  is_geocode geo = true ->
  is_geocode data = false ->
  (calls = [] \/ calls = [geo] \/ (calls = [geo; data] /\ target data)) ->
  disciplined geo calls target.
Proof.
  intros Hg Hd [->|[->|[-> Ht]]]; unfold disciplined, geocode_calls, data_calls;
    simpl; rewrite ?Hg, ?Hd; simpl; repeat split; try lia; try tauto.
  all: match goal with H : _ = _ \/ False |- _ => destruct H as [<-|[]] end; auto.
Qed.

(** C8.  A request to the current-weather endpoint or to the monthly
    endpoint issues at most one geocoding call and at most one weather or
    forecast call; when the second is issued it follows the geocoding call
    and carries the coordinates of the location which that call resolved. *)
Theorem one_geocode_then_one_data_call (city : string) (st : state) :
  (exists calls,
     trace (snd (Main.get_city_weather city st)) = (trace st ++ calls)%list
     /\ disciplined (WeatherService.geo_request city) calls
          (fun req =>
             exists loc lat lon,
               fst (Main.get_location city st) = Ok (Some loc)
               /\ getitem (JObject loc) "lat" = Ok lat
               /\ getitem (JObject loc) "lon" = Ok lon
               /\ req = Main.weather_request lat lon
               /\ coordinates req = (Some lat, Some lon)))
  /\ (exists calls,
        trace (snd (Api.get_monthly_weather city st)) = (trace st ++ calls)%list
        /\ disciplined (WeatherService.geo_request city) calls
             (fun req =>
                exists loc lat lon,
                  fst (WeatherService.get_location city st) = Ok (Some loc)
                  /\ getitem loc "lat" = Ok lat
                  /\ getitem loc "lon" = Ok lon
                  /\ req = WeatherService.forecast_request lat lon
                  /\ coordinates req = (Some lat, Some lon))).
Proof.
  split.
  - destruct (get_city_weather_calls city st) as (calls & Htrace & Hshape).
    exists calls. split; [exact Htrace|].
    destruct Hshape as [->|[->|(loc & lat & lon & Hloc & Hlat & Hlon & ->)]].
    + apply (shapes_disciplined _ (Main.weather_request JNull JNull)); auto.
    + apply (shapes_disciplined _ (Main.weather_request JNull JNull)); auto.
    + apply (shapes_disciplined _ (Main.weather_request lat lon)); auto.
      right. right. split; [reflexivity|].
      exists loc, lat, lon. auto 10.
  - destruct (get_monthly_weather_calls city st) as (calls & Htrace & Hshape).
    exists calls. split; [exact Htrace|].
    destruct Hshape as [->|[->|(loc & lat & lon & Hloc & Hlat & Hlon & ->)]].
    + apply (shapes_disciplined _ (WeatherService.forecast_request JNull JNull)); auto.
    + apply (shapes_disciplined _ (WeatherService.forecast_request JNull JNull)); auto.
    + apply (shapes_disciplined _ (WeatherService.forecast_request lat lon)); auto.
      right. right. split; [reflexivity|].
      exists loc, lat, lon. auto 10.
Qed.
End CallDiscipline.

(* ===================================================================== *)
(** ** The properties on the scripted platform *)
(* ===================================================================== *)

Section Runs.
#[local] Existing Instance Scripted.platform.
Import Scripted.

Example forecast_run :
  fst (WeatherService.get_monthly_forecast (JFloat 51.5%float) (JFloat (-0.125)%float)
         (start [Response 200 (Some forecast_payload)]))
  = Ok (Some forecast_report).
Proof. vm_compute. reflexivity. Qed.

Example forecast_timeout_run :
  fst (WeatherService.get_monthly_forecast (JInt 51) (JInt 0) (start [Failed TimedOut]))
  = Ok None.
Proof. reflexivity. Qed.

Example forecast_bad_status_run :
  fst (WeatherService.get_monthly_forecast (JInt 51) (JInt 0)
         (start [Response 401 (Some forecast_payload)]))
  = Ok None.
Proof. reflexivity. Qed.

Example forecast_without_city_run :
  fst (WeatherService.get_monthly_forecast (JInt 51) (JInt 0)
         (start [Response 200 (Some (JObject [("list", JList forecast_samples)]))]))
  = Ok None.
Proof. vm_compute. reflexivity. Qed.

(** A sample that repeats an open date is only asked for its [dt]: its
    missing fields do not make the fetch fail. *)
Example forecast_broken_repeat_run :
  wellformed_payload forecast_with_broken_repeat = true
  /\ exists report,
       fst (WeatherService.get_monthly_forecast (JInt 51) (JInt 0)
              (start [Response 200 (Some forecast_with_broken_repeat)]))
       = Ok (Some report)
       /\ path report ["cnt"] = Some (JInt 1).
Proof. split; [vm_compute; reflexivity|]. eexists. split; vm_compute; reflexivity. Qed.

Example current_weather_run :
  fst (App.handle_get ["api"; "weather"; "London"]
         (start [geocoded [london; london_ontario]; Response 200 (Some weather_payload)]))
  = App.mkHttp 200 weather_response.
Proof. vm_compute. reflexivity. Qed.

(** A payload that the [WeatherData] model rejects leaves as a 500. *)
Example current_weather_rejected_run :
  App.status
    (fst (App.handle_get ["api"; "weather"; "London"]
            (start [geocoded [london]; Response 200 (Some weather_sketch)])))
  = 500.
Proof. vm_compute. reflexivity. Qed.

(** Coordinates that arrive as a string and as an integer are coerced by
    the [LocationData] model, and the weather call is made with the
    floats. *)
Example coerced_location_run :
  trace (snd (App.handle_get ["api"; "weather"; "London"]
                (start [geocoded [london_text_lat];
                        Response 200 (Some weather_payload)])))
  = [WeatherService.geo_request "London";
     Main.weather_request (JFloat 51.5%float) (JFloat 0%float)]
  /\ App.status
       (fst (App.handle_get ["api"; "weather"; "London"]
               (start [geocoded [london_text_lat];
                       Response 200 (Some weather_payload)])))
     = 200.
Proof. split; vm_compute; reflexivity. Qed.

Example monthly_run :
  fst (App.handle_get ["api"; "weather"; "monthly"; "London"]
         (start [geocoded [london]; Response 200 (Some forecast_payload)]))
  = App.mkHttp 200 forecast_report.
Proof. vm_compute. reflexivity. Qed.

Example monthly_forecast_failure_run :
  fst (App.handle_get ["api"; "weather"; "monthly"; "London"]
         (start [geocoded [london]; Response 503 None]))
  = App.mkHttp 500 (JObject [("detail", JString "Internal server error")]).
Proof. vm_compute. reflexivity. Qed.

(** The router's own endpoint for /api/weather/{city} is registered after
    [get_city_weather] and never reached; called directly on an unknown
    city it would answer 500. *)
Example shadowed_endpoint_run :
  App.status (fst (App.serve (Api.get_weather "Atlantis") (start [geocoded []]))) = 500.
Proof. vm_compute. reflexivity. Qed.

(** C2.  GET /api/weather/monthly/Atlantis, the geocoder answering with zero
    matches: the endpoint raises its 404 inside the [try], the
    [except Exception] below catches it, and the answer is a 500 with the
    detail "Internal server error", after the one geocoding call. *)
Theorem monthly_unresolved_city_answers_500 :
  fst (App.handle_get ["api"; "weather"; "monthly"; "Atlantis"] (start [geocoded []]))
  = App.mkHttp 500 (JObject [("detail", JString "Internal server error")])
  /\ trace (snd (App.handle_get ["api"; "weather"; "monthly"; "Atlantis"]
                   (start [geocoded []])))
     = [WeatherService.geo_request "Atlantis"].
Proof. split; vm_compute; reflexivity. Qed.

(** The aggregation on the four samples of [forecast_payload], which fall
    on two calendar dates: two days, seeded by the first and the third
    sample. *)
Lemma monthly_forecast_one_entry_per_date_witness :
  map calendar_date forecast_samples
  = [Some "2023-11-14"; Some "2023-11-14"; Some "2023-11-15"; Some "2023-11-15"]
  /\ exists first second third fourth,
      forecast_samples = [first; second; third; fourth]
      /\ fst (WeatherService.get_monthly_forecast
                (JFloat 51.5%float) (JFloat (-0.125)%float)
                (start [Response 200 (Some forecast_payload)]))
         = Ok (Some forecast_report)
      /\ exists days,
          path forecast_report ["list"] = Some (JList days)
          /\ path forecast_report ["cnt"] = Some (JInt 2)
          /\ List.length days = 2%nat
          /\ Forall2 seeded_from days [first; third]
          /\ Subsequence [first; third] forecast_samples
          /\ NoDup ["2023-11-14"; "2023-11-15"]
          /\ (forall s, In s forecast_samples ->
                        In (calendar_day s) ["2023-11-14"; "2023-11-15"])
          /\ (forall s, In s [first; third] ->
                        find (fun x => String.eqb (calendar_day x) (calendar_day s))
                             forecast_samples
                        = Some s).
Proof.
  split; [vm_compute; reflexivity|].
  do 4 eexists. split; [reflexivity|].
  destruct (monthly_forecast_one_entry_per_date
              (JFloat 51.5%float) (JFloat (-0.125)%float)
              (start [Response 200 (Some forecast_payload)])
              200 forecast_fields [] london_city (JString "200") forecast_samples)
    as (report & days & Hrun & Hdays & Hcnt & Hlen & Hseed & Hsub & Hnd & Hcov & Hfind);
    try reflexivity.
  assert (E : fst (WeatherService.get_monthly_forecast
                     (JFloat 51.5%float) (JFloat (-0.125)%float)
                     (start [Response 200 (Some forecast_payload)]))
              = Ok (Some forecast_report)) by (vm_compute; reflexivity).
  rewrite E in Hrun. injection Hrun as <-.
  split; [exact E|]. exists days.
  repeat (split; [assumption|]). exact Hfind.
Defined.

(** A forecast call that times out. *)
Lemma monthly_forecast_failure_returns_None_witness :
  (fetch_failed (Failed TimedOut) = true ->
   WeatherService.get_monthly_forecast (JInt 51) (JInt 0) (start [Failed TimedOut])
   = (Ok None,
      mkState [] (trace (start [Failed TimedOut])
                  ++ [WeatherService.forecast_request (JInt 51) (JInt 0)])))
  /\ (fetch_failed (Failed TimedOut) = false ->
      exists report,
        fst (WeatherService.get_monthly_forecast (JInt 51) (JInt 0) (start [Failed TimedOut]))
        = Ok (Some report)
        /\ complete_report report).
Proof.
  apply (monthly_forecast_failure_returns_None
           (JInt 51) (JInt 0) (start [Failed TimedOut]) (Failed TimedOut) []).
  reflexivity.
Defined.

(** The report for a payload that says [cnt] 40 and [message] 7. *)
Lemma monthly_report_cnt_and_message_witness :
  exists (days : list json) (data samples : json) (items : list json),
    path forecast_report ["list"] = Some (JList days)
    /\ path forecast_report ["cnt"] = Some (JInt (Z.of_nat (List.length days)))
    /\ path forecast_report ["message"] = Some (JInt 0)
    /\ content_of (fst (send (world (start [Response 200 (Some forecast_payload)]))
                             (WeatherService.forecast_request
                                (JFloat 51.5%float) (JFloat (-0.125)%float))))
       = Some data
    /\ path data ["list"] = Some samples
    /\ iterate samples = Ok items
    /\ List.length days = distinct_keys sample_date items.
Proof.
  apply (monthly_report_cnt_and_message
           (JFloat 51.5%float) (JFloat (-0.125)%float)
           (start [Response 200 (Some forecast_payload)]) forecast_report).
  vm_compute. reflexivity.
Defined.

(** A city the geocoder does not know. *)
Lemma unknown_city_answers_404_witness :
  "Atlantis" <> EmptyString
  /\ App.handle_get ["api"; "weather"; "Atlantis"] (start [geocoded []])
     = (App.mkHttp 404 (JObject [("detail", JString "City not found")]),
        mkState [] (trace (start [geocoded []]) ++ [WeatherService.geo_request "Atlantis"])).
Proof.
  split; [discriminate|].
  apply (unknown_city_answers_404 "Atlantis" (start [geocoded []]) 200 []);
    [discriminate | reflexivity].
Defined.

(** Two matches for London: the first one is the location. *)
Lemma location_is_first_match_witness :
  (fst (WeatherService.get_location "London" (start [geocoded [london; london_ontario]]))
   = Ok None <-> [london; london_ontario] = [])
  /\ (forall first rest, [london; london_ontario] = first :: rest ->
        exists lat lon name country,
          getitem first "lat" = Ok lat /\ getitem first "lon" = Ok lon
          /\ getitem first "name" = Ok name /\ getitem first "country" = Ok country
          /\ fst (WeatherService.get_location "London"
                    (start [geocoded [london; london_ontario]]))
             = Ok (Some (JObject [("lat", lat); ("lon", lon);
                                  ("name", name); ("country", country)])))
  /\ (forall w1,
        send (world (start [geocoded [london; london_ontario]]))
             (WeatherService.weather_geo_request "London")
        = (geocoded [london; london_ontario], w1) ->
        exists lat lon,
          getitem london "lat" = Ok lat /\ getitem london "lon" = Ok lon
          /\ trace (snd (WeatherService.get_weather "London"
                           (start [geocoded [london; london_ontario]])))
             = (trace (start [geocoded [london; london_ontario]])
                ++ [WeatherService.weather_geo_request "London";
                    WeatherService.weather_request lat lon])%list).
Proof.
  apply (location_is_first_match "London" (start [geocoded [london; london_ontario]])
           200 [london; london_ontario] []); [reflexivity | reflexivity |].
  intros first rest E. injection E as <- <-. reflexivity.
Defined.

(** A weather payload with an extra [uvi] field, for London. *)
Lemma get_weather_adds_only_location_witness :
  exists report,
    fst (WeatherService.get_weather "London"
           (start [geocoded [london; london_ontario]; Response 200 (Some weather_payload)]))
    = Ok (Some (JObject report))
    /\ dict_get "location" report = Some (JObject london_location)
    /\ (forall k, k <> "location" -> dict_get k report = dict_get k weather_fields)
    /\ (forall k, In k (dict_keys weather_fields) -> In k (dict_keys report))
    /\ (dict_contains "location" weather_fields = false ->
        report = (weather_fields ++ [("location", JObject london_location)])%list).
Proof.
  apply (get_weather_adds_only_location "London"
           (start [geocoded [london; london_ontario]; Response 200 (Some weather_payload)])
           200 200 london [london_ontario]
           (JFloat 51.5%float) (JFloat (-0.125)%float) (JString "London") (JString "GB")
           weather_fields [Response 200 (Some weather_payload)] []);
    reflexivity.
Defined.

(** London resolves and the weather call times out. *)
Lemma current_weather_timeout_answers_504_witness :
  timeout (Main.weather_request (JFloat 51.5%float) (JFloat (-0.125)%float)) = Some 10%float
  /\ (Failed TimedOut = Failed TimedOut ->
      fst (Main.get_weather (JFloat 51.5%float) (JFloat (-0.125)%float)
             (after_geocode "London" (start [geocoded [london]; Failed TimedOut])))
      = Raise (HTTPException 504 "Request timeout")
      /\ fst (App.handle_get ["api"; "weather"; "London"]
                (start [geocoded [london]; Failed TimedOut]))
         = App.mkHttp 504 (JObject [("detail", JString "Request timeout")]))
  /\ (Failed TimedOut <> Failed TimedOut ->
      call_failed (Failed TimedOut) = true ->
      exists detail,
        fst (Main.get_weather (JFloat 51.5%float) (JFloat (-0.125)%float)
               (after_geocode "London" (start [geocoded [london]; Failed TimedOut])))
        = Raise (HTTPException 500 detail)
        /\ fst (App.handle_get ["api"; "weather"; "London"]
                  (start [geocoded [london]; Failed TimedOut]))
           = App.mkHttp 500 (JObject [("detail", JString detail)])).
Proof.
  apply (current_weather_timeout_answers_504 "London"
           (start [geocoded [london]; Failed TimedOut]) london_location
           (JFloat 51.5%float) (JFloat (-0.125)%float) (Failed TimedOut) []);
    [discriminate | reflexivity ..].
Defined.

(** Zero matches for Atlantis. *)
Lemma get_weather_None_is_ambiguous_witness :
  ((exists code, is_success code = true /\ geocoded [] = Response code (Some (JList []))) ->
   fst (WeatherService.get_weather "Atlantis" (start [geocoded []])) = Ok None)
  /\ (call_failed (geocoded []) = true ->
      fst (WeatherService.get_weather "Atlantis" (start [geocoded []])) = Ok None)
  /\ (forall code first rest,
        geocoded [] = Response code (Some (JList (first :: rest))) ->
        wf_location first = false ->
        fst (WeatherService.get_weather "Atlantis" (start [geocoded []])) = Ok None)
  /\ (forall code first rest lat lon r2 w2,
        geocoded [] = Response code (Some (JList (first :: rest))) ->
        is_success code = true ->
        getitem first "lat" = Ok lat ->
        getitem first "lon" = Ok lon ->
        send [] (WeatherService.weather_request lat lon) = (r2, w2) ->
        (call_failed r2 = true
         \/ (forall kvs, content_of r2 <> Some (JObject kvs))) ->
        fst (WeatherService.get_weather "Atlantis" (start [geocoded []])) = Ok None).
Proof.
  apply (get_weather_None_is_ambiguous "Atlantis" (start [geocoded []]) (geocoded []) []).
  reflexivity.
Defined.

(** The two situations of C9 side by side: no match, and a provider that
    cannot be reached. *)
Example get_weather_None_twice :
  fst (WeatherService.get_weather "Atlantis" (start [geocoded []])) = Ok None
  /\ fst (WeatherService.get_weather "London" (start [Failed Unreachable])) = Ok None
  /\ fst (WeatherService.get_weather "London" (start [geocoded [london]; Failed TimedOut]))
     = Ok None.
Proof. repeat split; vm_compute; reflexivity. Qed.
End Runs.

(* ===================================================================== *)
(** ** Further properties of [WeatherService] *)
(* ===================================================================== *)

Section MoreFirstOfEachFacts.
Context {A : Type} (key : A -> string).

Lemma first_of_each_from_idempotent (seen : list string) (xs : list A) :
  first_of_each_from key seen (first_of_each_from key seen xs)
  = first_of_each_from key seen xs.
Proof.
  revert seen. induction xs as [|x xs IH]; simpl; intros seen; auto.
  destruct (in_dec string_dec (key x) seen) as [Hin|Hout]; auto.
  simpl. destruct (in_dec string_dec (key x) seen); [tauto|].
  now rewrite IH.
Qed.

Lemma first_of_each_from_app (seen : list string) (xs ys : list A) :
  first_of_each_from key seen (xs ++ ys)
  = (first_of_each_from key seen xs
     ++ first_of_each_from key (map key xs ++ seen) ys)%list.
Proof.
  revert seen. induction xs as [|x xs IH]; simpl; intros seen; auto.
  destruct (in_dec string_dec (key x) seen) as [Hin|Hout].
  - rewrite IH. f_equal. apply first_of_each_from_ext.
    intros k. simpl. rewrite !in_app_iff. split; [tauto|].
    intros [E|H]; [subst k|]; tauto.
  - simpl. rewrite IH. do 2 f_equal. apply first_of_each_from_ext.
    intros k. simpl. rewrite !in_app_iff. simpl. tauto.
Qed.

Lemma first_of_each_from_length_le (seen : list string) (xs : list A) :
  (List.length (first_of_each_from key seen xs) <= List.length xs)%nat.
Proof.
  revert seen. induction xs as [|x xs IH]; simpl; intros seen; auto.
  destruct (in_dec string_dec (key x) seen); simpl.
  - specialize (IH seen). lia.
  - specialize (IH (key x :: seen)). lia.
Qed.
End MoreFirstOfEachFacts.

Section MoreServiceProperties.
Context {P : Platform}.

Lemma has_date_first_samples (items : list json) :
  forallb has_date items = true -> forallb has_date (first_samples items) = true.
Proof.
  rewrite !forallb_forall. intros H s Hs.
  apply first_of_each_from_In in Hs. apply H. tauto.
Qed.

(** What a returned report says about the reply it was built from. *)
Lemma returned_report_inv (lat lon : json) (st : state) (report : json) :
  fst (WeatherService.get_monthly_forecast lat lon st) = Ok (Some report) ->
  exists code kvs samples items city cod,
    fst (send (world st) (WeatherService.forecast_request lat lon))
    = Response code (Some (JObject kvs))
    /\ is_success code = true
    /\ dict_get "list" kvs = Some samples
    /\ iterate samples = Ok items
    /\ dict_get "city" kvs = Some city
    /\ dict_get "cod" kvs = Some cod
    /\ forallb has_fields (first_samples items) = true
    /\ report = JObject [("city", city);
                         ("cod", cod);
                         ("message", JInt 0);
                         ("cnt", JInt (Z.of_nat (List.length (map entry_of (first_samples items)))));
                         ("list", JList (map entry_of (first_samples items)))].
Proof.
  rewrite get_monthly_forecast_run. simpl.
  destruct (send (world st) (WeatherService.forecast_request lat lon)) as [r w'].
  simpl. destruct r as [f|code [data|]]; simpl; try discriminate.
  destruct (is_success code) eqn:Hcode; try discriminate.
  destruct (WeatherService.build_report data) as [rep|x] eqn:Hb; try discriminate.
  intros H. injection H as <-.
  pose proof (build_report_wellformed _ _ Hb) as Hwf.
  destruct (build_report_ok _ Hwf)
    as (kvs & samples & items & city & cod & Hd & Hl & Hi & Hcity & Hcod & Hr).
  rewrite Hr in Hb. injection Hb as <-. subst data.
  exists code, kvs, samples, items, city, cod.
  repeat split; auto.
  unfold wellformed_payload in Hwf. rewrite Hl, Hi in Hwf.
  repeat (apply andb_prop in Hwf; destruct Hwf as [Hwf ?]). assumption.
Qed.

(** X1.  [get_location] never raises and issues exactly its one geocoding
    call.  It returns a location exactly when the reply has a success
    status and its body is a list whose first element has [lat], [lon],
    [name] and [country]; the location holds these four values and nothing
    else of the match.  Every other reply gives [None]. *)
Theorem get_location_exact (city : string) (st : state) :
  (exists o, WeatherService.get_location city st = (Ok o, after_geocode city st))
  /\ (forall loc,
        fst (WeatherService.get_location city st) = Ok (Some loc) <->
        exists code first rest lat lon name country,
          fst (send (world st) (WeatherService.geo_request city))
          = Response code (Some (JList (first :: rest)))
          /\ is_success code = true
          /\ getitem first "lat" = Ok lat /\ getitem first "lon" = Ok lon
          /\ getitem first "name" = Ok name /\ getitem first "country" = Ok country
          /\ loc = JObject [("lat", lat); ("lon", lon);
                            ("name", name); ("country", country)]).
Proof.
  rewrite get_location_run. split; [eexists; reflexivity|].
  intros loc. simpl.
  destruct (fst (send (world st) (WeatherService.geo_request city)))
    as [f|code [locations|]]; simpl.
  1,3: split; [discriminate | intros (? & ? & ? & ? & ? & ? & ? & H & _); discriminate].
  split.
  - destruct (is_success code) eqn:Hcode; simpl; try discriminate.
    destruct locations as [|b|n|x|s|[|first rest]|[|kv kvs]]; simpl;
      try discriminate; try (destruct s; discriminate);
      try (match goal with
           | |- context [if ?c then None else None] => destruct c
           end; discriminate).
    unfold WeatherService.location_dict.
    destruct (getitem first "lat") as [lat|] eqn:Hlat; try discriminate.
    destruct (getitem first "lon") as [lon|] eqn:Hlon; try discriminate.
    destruct (getitem first "name") as [name|] eqn:Hname; try discriminate.
    destruct (getitem first "country") as [country|] eqn:Hcountry; try discriminate.
    simpl. intros H. injection H as <-.
    exists code, first, rest, lat, lon, name, country. auto 10.
  - intros (code' & first & rest & lat & lon & name & country
            & Hr & Hcode & Hlat & Hlon & Hname & Hcountry & ->).
    injection Hr as -> ->. rewrite Hcode. simpl.
    unfold WeatherService.location_dict.
    now rewrite Hlat, Hlon, Hname, Hcountry.
Qed.

Lemma target_of_reply_some (r : reply) (location lat lon : json) :
  target_of_reply r = Some (location, lat, lon) ->
  exists code rest,
    r = Response code (Some (JList (location :: rest)))
    /\ is_success code = true
    /\ getitem location "lat" = Ok lat /\ getitem location "lon" = Ok lon.
Proof.
  unfold target_of_reply.
  destruct r as [f|code [locations|]]; try discriminate.
  destruct (is_success code) eqn:Hcode; simpl; try discriminate.
  destruct locations as [|b|n|x|s|[|first rest]|[|kv kvs]]; simpl;
    try discriminate; try (destruct s; discriminate);
    try (match goal with
         | |- context [if ?c then None else None] => destruct c
         end; discriminate).
  destruct (getitem first "lat") as [lat'|] eqn:Hlat; try discriminate.
  destruct (getitem first "lon") as [lon'|] eqn:Hlon; try discriminate.
  intros H. injection H as <- <- <-. eauto 10.
Qed.

(** X2.  [WeatherService.get_weather] never raises.  It issues its
    geocoding call and stops there with [None], or goes on to exactly one
    weather call, whose [lat] and [lon] parameters are the [lat] and [lon]
    of the first element of the geocoder's list. *)
Theorem service_get_weather_calls (city : string) (st : state) :
  exists o st',
    WeatherService.get_weather city st = (Ok o, st')
    /\ ((o = None
         /\ trace st' = (trace st ++ [WeatherService.weather_geo_request city])%list)
        \/ exists code first rest lat lon,
             fst (send (world st) (WeatherService.weather_geo_request city))
             = Response code (Some (JList (first :: rest)))
             /\ is_success code = true
             /\ getitem first "lat" = Ok lat /\ getitem first "lon" = Ok lon
             /\ trace st'
                = (trace st ++ [WeatherService.weather_geo_request city;
                                WeatherService.weather_request lat lon])%list
             /\ coordinates (WeatherService.weather_request lat lon)
                = (Some lat, Some lon)).
Proof.
  rewrite get_weather_run.
  destruct (send (world st) (WeatherService.weather_geo_request city)) as [r1 w1].
  destruct (target_of_reply r1) as [[[location lat] lon]|] eqn:Ht.
  - destruct (send w1 (WeatherService.weather_request lat lon)) as [r2 w2].
    do 2 eexists. split; [reflexivity|]. right.
    destruct (target_of_reply_some _ _ _ _ Ht) as (code & rest & -> & Hc & Hlat & Hlon).
    exists code, location, rest, lat, lon. auto 10.
  - do 2 eexists. split; [reflexivity|]. left. auto.
Qed.

(** X3.  A report returned by [get_monthly_forecast] has exactly the keys
    [city], [cod], [message], [cnt] and [list], in this order; [city] and
    [cod] are the provider's own, and no other key of the payload is
    carried over. *)
Theorem monthly_report_keeps_city_and_cod
  (lat lon : json) (st : state) (report : json) :
  fst (WeatherService.get_monthly_forecast lat lon st) = Ok (Some report) ->
  exists data fields city cod,
    content_of (fst (send (world st) (WeatherService.forecast_request lat lon)))
    = Some data
    /\ report = JObject fields
    /\ dict_keys fields = ["city"; "cod"; "message"; "cnt"; "list"]
    /\ path data ["city"] = Some city /\ path report ["city"] = Some city
    /\ path data ["cod"] = Some cod /\ path report ["cod"] = Some cod.
Proof.
  intros H.
  destruct (returned_report_inv _ _ _ _ H)
    as (code & kvs & samples & items & city & cod
        & Hr & _ & _ & _ & Hcity & Hcod & _ & ->).
  exists (JObject kvs). eexists. exists city, cod.
  rewrite Hr. simpl. rewrite Hcity, Hcod. repeat split; reflexivity.
Qed.

(** The samples that only repeat an open date can be left out of a payload
    without changing what is made of it. *)
Lemma report_of_opening_samples (code : Z) (payload : dict json) (items : list json) :
  dict_get "list" payload = Some (JList items) ->
  forallb has_date items = true ->
  report_of_reply
    (Response code (Some (JObject (dict_set "list" (JList (first_samples items)) payload))))
  = report_of_reply (Response code (Some (JObject payload))).
Proof.
  intros Hlist Hdates.
  set (payload' := dict_set "list" (JList (first_samples items)) payload).
  assert (Hlist' : dict_get "list" payload' = Some (JList (first_samples items)))
    by apply dict_get_set_same.
  assert (Hother : forall k, k <> "list" -> dict_get k payload' = dict_get k payload)
    by (intros k Hk; now apply dict_get_set_other).
  assert (Hidem : first_samples (first_samples items) = first_samples items)
    by apply first_of_each_from_idempotent.
  assert (Hwf : wellformed_payload (JObject payload')
                = wellformed_payload (JObject payload)).
  { unfold wellformed_payload, dict_contains.
    rewrite Hlist, Hlist'. simpl iterate. cbv iota.
    rewrite Hidem, Hdates, (has_date_first_samples _ Hdates).
    rewrite !Hother by discriminate. reflexivity. }
  unfold report_of_reply. destruct (is_success code); auto.
  destruct (wellformed_payload (JObject payload)) eqn:E.
  - destruct (build_report_ok _ E)
      as (kvs & samples & its & city & cod & Hd & Hl & Hi & Hc1 & Hc2 & Hr).
    destruct (build_report_ok _ Hwf)
      as (kvs' & samples' & its' & city' & cod' & Hd' & Hl' & Hi' & Hc1' & Hc2' & Hr').
    rewrite Hr, Hr'.
    injection Hd as <-. injection Hd' as <-.
    rewrite Hlist in Hl. injection Hl as <-. simpl in Hi. injection Hi as <-.
    rewrite Hlist' in Hl'. injection Hl' as <-. simpl in Hi'. injection Hi' as <-.
    rewrite Hother in Hc1', Hc2' by discriminate.
    rewrite Hidem. congruence.
  - destruct (build_report_raise _ E) as [x ->].
    destruct (build_report_raise _ Hwf) as [x' ->]. reflexivity.
Qed.

(** X4.  Only the first sample of each local date counts: when every sample
    has a date, a payload and the same payload cut down to the samples that
    open a date give the same result, be it a report or [None]. *)
Theorem forecast_ignores_repeated_dates
  (lat lon : json) (st st' : state) (code code' : Z) (payload : dict json)
  (items : list json) (w1 w2 : World) :
  send (world st) (WeatherService.forecast_request lat lon)
  = (Response code (Some (JObject payload)), w1) ->
  send (world st') (WeatherService.forecast_request lat lon)
  = (Response code' (Some (JObject (dict_set "list" (JList (first_samples items)) payload))),
     w2) ->
  is_success code = true ->
  is_success code' = true ->
  dict_get "list" payload = Some (JList items) ->
  forallb has_date items = true ->
  fst (WeatherService.get_monthly_forecast lat lon st')
  = fst (WeatherService.get_monthly_forecast lat lon st).
Proof.
  intros H1 H2 Hc Hc' Hlist Hdates.
  rewrite !get_monthly_forecast_run, H1, H2. simpl fst. f_equal.
  pose proof (report_of_opening_samples code payload items Hlist Hdates) as E.
  unfold report_of_reply in *. rewrite Hc in *. now rewrite Hc'.
Qed.

(** X5.  Samples added at the end of the provider's list leave the earlier
    days as they are: the days of the longer payload are the days of the
    shorter one, followed by one entry for each new date that the added
    samples open. *)
Theorem appended_samples_keep_earlier_days
  (lat lon : json) (st1 st2 : state) (code1 code2 : Z) (payload1 payload2 : dict json)
  (w1 w2 : World) (city1 cod1 city2 cod2 : json) (items more : list json) :
  send (world st1) (WeatherService.forecast_request lat lon)
  = (Response code1 (Some (JObject payload1)), w1) ->
  send (world st2) (WeatherService.forecast_request lat lon)
  = (Response code2 (Some (JObject payload2)), w2) ->
  is_success code1 = true ->
  is_success code2 = true ->
  dict_get "city" payload1 = Some city1 ->
  dict_get "cod" payload1 = Some cod1 ->
  dict_get "city" payload2 = Some city2 ->
  dict_get "cod" payload2 = Some cod2 ->
  dict_get "list" payload1 = Some (JList items) ->
  dict_get "list" payload2 = Some (JList (items ++ more)) ->
  forallb wf_sample (items ++ more) = true ->
  exists report1 report2 days later,
    fst (WeatherService.get_monthly_forecast lat lon st1) = Ok (Some report1)
    /\ fst (WeatherService.get_monthly_forecast lat lon st2) = Ok (Some report2)
    /\ path report1 ["list"] = Some (JList days)
    /\ path report2 ["list"] = Some (JList (days ++ later))
    /\ later = map entry_of
                 (first_of_each_from sample_date (map sample_date items) more).
Proof.
  intros H1 H2 Hc1 Hc2 Hcity1 Hcod1 Hcity2 Hcod2 Hl1 Hl2 Hwf.
  assert (Hwf1 : forallb wf_sample items = true).
  { rewrite forallb_app in Hwf. apply andb_prop in Hwf. tauto. }
  do 2 eexists.
  exists (map entry_of (first_samples items)).
  exists (map entry_of (first_of_each_from sample_date (map sample_date items) more)).
  split.
  { rewrite (get_monthly_forecast_report lat lon st1 code1 payload1 w1
               city1 cod1 (JList items) items); auto.
    - reflexivity.
    - now apply wf_samples_have_dates.
    - now apply wf_samples_first_have_fields. }
  split.
  { rewrite (get_monthly_forecast_report lat lon st2 code2 payload2 w2
               city2 cod2 (JList (items ++ more)) (items ++ more)); auto.
    - reflexivity.
    - now apply wf_samples_have_dates.
    - now apply wf_samples_first_have_fields. }
  split; [reflexivity|]. split; [|reflexivity].
  simpl. do 2 f_equal. rewrite <- map_app. f_equal.
  unfold first_samples, first_of_each.
  rewrite first_of_each_from_app. now rewrite app_nil_r.
Qed.

(** X6.  A returned report has at most as many days as the payload has
    samples; it has no day exactly when the payload has no sample, and its
    first day is always taken from the first sample. *)
Theorem monthly_report_count_bounds
  (lat lon : json) (st : state) (report : json) :
  fst (WeatherService.get_monthly_forecast lat lon st) = Ok (Some report) ->
  exists (days : list json) (data samples : json) (items : list json),
    path report ["list"] = Some (JList days)
    /\ content_of (fst (send (world st) (WeatherService.forecast_request lat lon)))
       = Some data
    /\ path data ["list"] = Some samples
    /\ iterate samples = Ok items
    /\ (List.length days <= List.length items)%nat
    /\ (items = [] <-> days = [])
    /\ (forall s rest, items = s :: rest ->
          exists e later, days = e :: later /\ seeded_from e s).
Proof.
  intros H.
  destruct (returned_report_inv _ _ _ _ H)
    as (code & kvs & samples & items & city & cod
        & Hr & _ & Hl & Hi & _ & _ & Hf & ->).
  exists (map entry_of (first_samples items)), (JObject kvs), samples, items.
  rewrite Hr. simpl. rewrite Hl.
  repeat split; auto.
  - rewrite length_map. apply first_of_each_from_length_le.
  - now intros ->.
  - destruct items as [|s rest]; [reflexivity | discriminate].
  - intros s rest ->. unfold first_samples, first_of_each in *. simpl in *.
    apply andb_prop in Hf. destruct Hf as [Hs _].
    destruct (daily_entry_ok _ Hs) as (e & He & _ & Hseed).
    exists e. eexists. split; [|exact Hseed].
    now rewrite (entry_of_ok _ _ He).
Qed.
End MoreServiceProperties.

(* ===================================================================== *)
(** ** Further properties of the endpoints and of the routing *)
(* ===================================================================== *)

Section MoreEndpointProperties.
Context {P : Platform}.

(** [Main.get_weather] raises its 504 or a 500, nothing else. *)
Lemma main_get_weather_raise_codes (lat lon : json) (st : state) (e : exn) :
  fst (Main.get_weather lat lon st) = Raise e ->
  e = HTTPException 504 "Request timeout" \/ exists detail, e = HTTPException 500 detail.
Proof.
  unfold Main.get_weather, try_except, bind, client_get, lift, ret, raise.
  destruct (send (world st) (Main.weather_request lat lon)) as [r w'].
  destruct r as [[|]|code [data|]]; simpl;
    unfold raise_for_status; simpl; try destruct (is_success code); simpl;
    intros H; inversion H; eauto.
Qed.

(** X7.  [Main.get_weather] returns the provider's payload as it came,
    whatever JSON it is, exactly when the reply has a success status and a
    JSON body; it raises the 504 "Request timeout" exactly when the call
    timed out; and whatever else it raises is a 500. *)
Theorem main_get_weather_exact (lat lon : json) (st : state) :
  (forall data,
     fst (Main.get_weather lat lon st) = Ok data <->
     exists code,
       fst (send (world st) (Main.weather_request lat lon)) = Response code (Some data)
       /\ is_success code = true)
  /\ (fst (Main.get_weather lat lon st) = Raise (HTTPException 504 "Request timeout") <->
      fst (send (world st) (Main.weather_request lat lon)) = Failed TimedOut)
  /\ (forall e,
        fst (Main.get_weather lat lon st) = Raise e ->
        e = HTTPException 504 "Request timeout"
        \/ exists detail, e = HTTPException 500 detail).
Proof.
  split; [|split; [|apply main_get_weather_raise_codes]].
  - intros data.
    unfold Main.get_weather, try_except, bind, client_get, lift, ret, raise.
    destruct (send (world st) (Main.weather_request lat lon)) as [r w'].
    destruct r as [[|]|code [body|]]; simpl;
      unfold raise_for_status; simpl; try destruct (is_success code) eqn:Hc; simpl;
      (split; [intros H; inversion H; subst; eauto
              | intros (code' & H & Hc'); inversion H; subst; congruence]).
  - unfold Main.get_weather, try_except, bind, client_get, lift, ret, raise.
    destruct (send (world st) (Main.weather_request lat lon)) as [r w'].
    destruct r as [[|]|code [body|]]; simpl;
      unfold raise_for_status; simpl; try destruct (is_success code) eqn:Hc; simpl;
      (split; [intros H; inversion H; auto | intros H; inversion H; auto]).
Qed.




(** An empty city is turned away before any outbound call:
    [get_city_weather] with the 422 "City name cannot be empty", the
    router's [get_weather] with the 404 "Not Found", and
    [get_monthly_weather] with the 404 "City not found". *)
Lemma empty_city_is_rejected_without_calls (st : state) :
  Main.get_city_weather EmptyString st
  = (Raise (HTTPException 422 "City name cannot be empty"), st)
  /\ Api.get_weather EmptyString st = (Raise (HTTPException 404 "Not Found"), st)
  /\ Api.get_monthly_weather EmptyString st
     = (Raise (HTTPException 404 "City not found"), st).
Proof. repeat split. Qed.

(** X9.  A geocoding match that the [LocationData] model rejects is
    treated as no match: [get_location] of main.py swallows the validation
    error and GET /api/weather/{city} answers 404 "City not found", with no
    weather call. *)
Theorem rejected_location_answers_404
  (city : string) (st : state) (kw : dict json) (e : exn) :
  city <> EmptyString ->
  fst (WeatherService.get_location city st) = Ok (Some (JObject kw)) ->
  LocationData kw = Raise e ->
  App.handle_get ["api"; "weather"; city] st
  = (App.mkHttp 404 (JObject [("detail", JString "City not found")]),
     after_geocode city st).
Proof.
  intros Hne Hloc Hval. unfold App.handle_get.
  rewrite (handler_current_weather _ Hne). unfold App.serve.
  rewrite get_city_weather_unresolved; auto.
  rewrite get_location_run in Hloc. simpl in Hloc. injection Hloc as Hloc.
  unfold model_of_reply. rewrite Hloc.
  destruct (truthy (JObject kw)); auto. simpl. now rewrite Hval.
Qed.





Lemma dict_set_truthy (k : string) (v : json) (d : dict json) :
  truthy (JObject (dict_set k v d)) = true.
Proof.
  destruct d as [|[k' v'] d]; simpl; auto. now destruct (String.eqb k k').
Qed.

(** What [WeatherService.get_weather] returns is a dict that holds at least
    its [location]. *)
Lemma service_get_weather_truthy (city : string) (st : state) (d : json) :
  fst (WeatherService.get_weather city st) = Ok (Some d) -> truthy d = true.
Proof.
  rewrite get_weather_run.
  destruct (send (world st) (WeatherService.weather_geo_request city)) as [r1 w1].
  destruct (target_of_reply r1) as [[[location lat] lon]|]; [|discriminate].
  destruct (send w1 (WeatherService.weather_request lat lon)) as [r2 w2].
  simpl. unfold weather_of_reply.
  destruct r2 as [f|code [data|]]; try discriminate.
  destruct (is_success code); try discriminate.
  destruct (WeatherService.location_dict location) as [loc|]; try discriminate.
  simpl. destruct data; try discriminate. simpl.
  intros H. injection H as <-. apply dict_set_truthy.
Qed.

(** X12.  The router's [get_weather], for a non-empty city, issues only the
    calls of [WeatherService.get_weather]; it returns the service's report
    when there is one, and otherwise raises a 500, for a city that is not
    found as for a provider that failed, never a 404. *)
Theorem router_get_weather_outcomes (city : string) (st : state) :
  city <> EmptyString ->
  snd (Api.get_weather city st) = snd (WeatherService.get_weather city st)
  /\ (forall d,
        fst (WeatherService.get_weather city st) = Ok (Some d) ->
        fst (Api.get_weather city st) = Ok d)
  /\ (fst (WeatherService.get_weather city st) = Ok None ->
      fst (Api.get_weather city st)
      = Raise (HTTPException 500
                 ("Internal server error: "
                  ++ exn_str (HTTPException 500 "Internal server error: City not found")))).
Proof.
  intros Hne. apply String.eqb_neq in Hne.
  unfold Api.get_weather. rewrite Hne. unfold try_except, bind.
  pose proof (service_get_weather_truthy city st) as Htrue.
  destruct (WeatherService.get_weather city st) as [[[d|]|e] st'] eqn:Hrun; simpl in *.
  - rewrite (Htrue d eq_refl). simpl. repeat split; congruence.
  - repeat split; congruence.
  - exfalso. rewrite get_weather_run in Hrun.
    destruct (send (world st) (WeatherService.weather_geo_request city)) as [r1 w1].
    destruct (target_of_reply r1) as [[[location lat] lon]|]; [|discriminate].
    destruct (send w1 (WeatherService.weather_request lat lon)); discriminate.
Qed.

(** A path that matches the pattern /a/b/{city} is /a/b/city with a
    non-empty city. *)
Lemma match_city_path (a b : string) (segs l : list string) :
  App.match_path [App.Lit a; App.Lit b; App.Param] segs = Some l ->
  exists city, city <> EmptyString /\ segs = [a; b; city] /\ l = [city].
Proof.
  destruct segs as [|s1 [|s2 [|s3 [|s4 rest]]]]; simpl; try discriminate;
    destruct (String.eqb a s1) eqn:E1; try discriminate;
    destruct (String.eqb b s2) eqn:E2; try discriminate;
    destruct (String.eqb s3 EmptyString) eqn:E3; try discriminate.
  - intros H. injection H as <-.
    apply String.eqb_eq in E1, E2. apply String.eqb_neq in E3. subst. eauto.
Qed.

Lemma match_nested_city_path (a b c : string) (segs l : list string) :
  App.match_path [App.Lit a; App.Lit b; App.Lit c; App.Param] segs = Some l ->
  exists city, city <> EmptyString /\ segs = [a; b; c; city] /\ l = [city].
Proof.
  destruct segs as [|s1 [|s2 [|s3 [|s4 [|s5 rest]]]]]; simpl; try discriminate;
    destruct (String.eqb a s1) eqn:E1; try discriminate;
    destruct (String.eqb b s2) eqn:E2; try discriminate;
    destruct (String.eqb c s3) eqn:E3; try discriminate;
    destruct (String.eqb s4 EmptyString) eqn:E4; try discriminate.
  - intros H. injection H as <-.
    apply String.eqb_eq in E1, E2, E3. apply String.eqb_neq in E4. subst. eauto.
Qed.

(** X13.  The router's own route for /api/weather/{city} is never taken:
    the application routes every path as it would without that route,
    because the route declared on the application, registered first, has
    the same pattern. *)
Theorem router_city_route_is_shadowed (segs : list string) :
  App.find_route App.routes segs
  = App.find_route
      [App.mkRoute [App.Lit "api"; App.Lit "weather"; App.Param] Main.get_city_weather;
       App.mkRoute [App.Lit "api"; App.Lit "weather"; App.Lit "monthly"; App.Param]
                   Api.get_monthly_weather]
      segs.
Proof.
  unfold App.routes.
  cbn [App.find_route App.pattern App.endpoint].
  destruct (App.match_path [App.Lit "api"; App.Lit "weather"; App.Param] segs)
    as [[|city [|c l]]|]; reflexivity.
Qed.

Lemma rstrip_slashes (n : nat) : App.rstrip (repeat EmptyString n) = [].
Proof. induction n as [|n IH]; simpl; [reflexivity | now rewrite IH]. Qed.

(** [rstrip] neither sees the slashes a path ends with ... *)
Lemma rstrip_with_slashes (segs : list string) (n : nat) :
  App.rstrip (with_slashes segs n) = App.rstrip segs.
Proof.
  unfold with_slashes. induction segs as [|s segs IH]; simpl.
  - apply rstrip_slashes.
  - now rewrite IH.
Qed.

(** ... nor removes anything else. *)
Lemma rstrip_decompose (segs : list string) :
  exists n, segs = with_slashes (App.rstrip segs) n.
Proof.
  unfold with_slashes. induction segs as [|s segs [n IH]]; simpl.
  - now exists 0%nat.
  - destruct (App.rstrip segs) as [|x xs] eqn:E.
    + destruct (String.eqb s EmptyString) eqn:Es.
      * apply String.eqb_eq in Es. subst s. exists (S n). simpl. now rewrite IH at 1.
      * exists n. simpl. now rewrite IH at 1.
    + exists n. simpl. now rewrite IH at 1.
Qed.

Lemma last_with_slashes (segs : list string) (n : nat) (d : string) :
  last (with_slashes segs (S n)) d = EmptyString.
Proof.
  unfold with_slashes.
  change (repeat EmptyString (S n)) with (EmptyString :: repeat EmptyString n).
  rewrite repeat_cons, app_assoc. apply last_last.
Qed.

(** An endpoint path ends with its city and has no slash to lose. *)
Lemma endpoint_path_last (segs : list string) (d : string) :
  endpoint_path segs -> last segs d <> EmptyString /\ App.rstrip segs = segs.
Proof.
  intros (city & Hne & [-> | ->]); simpl;
    apply String.eqb_neq in Hne; rewrite Hne;
    apply String.eqb_neq in Hne; auto.
Qed.

(** The routes match the endpoint paths, and nothing else. *)
Lemma find_route_endpoint_path (segs : list string) :
  endpoint_path segs <-> App.find_route App.routes segs <> None.
Proof.
  split.
  - intros (city & Hne & [-> | ->]).
    + now rewrite (route_current_weather _ Hne).
    + now rewrite (route_monthly _ Hne).
  - intros Hsome. unfold App.routes in Hsome.
    cbn [App.find_route App.pattern App.endpoint] in Hsome.
    destruct (App.match_path [App.Lit "api"; App.Lit "weather"; App.Param] segs)
      as [l|] eqn:E1.
    { destruct (match_city_path _ _ _ _ E1) as (city & Hne & Hs & _).
      exists city. auto. }
    destruct (App.match_path
                [App.Lit "api"; App.Lit "weather"; App.Lit "monthly"; App.Param] segs)
      as [l|] eqn:E2; [|contradiction].
    destruct (match_nested_city_path _ _ _ _ _ E2) as (city & Hne & Hs & _).
    exists city. auto.
Qed.

Lemma find_handler_unrouted (segs : list string) :
  ~ endpoint_path segs ->
  App.find_handler App.routes App.response_models segs = None.
Proof.
  intros Hno.
  destruct (App.find_handler App.routes App.response_models segs) as [h|] eqn:E; auto.
  exfalso. apply Hno. apply find_route_endpoint_path.
  rewrite (find_handler_route _ App.response_models), E. discriminate.
Qed.

(** X14.  A path under /api that is not the path of an endpoint reaches no
    endpoint and makes no outbound call.  When it is the path of an
    endpoint followed by one or more slashes (/api/weather/London/,
    /api/weather/monthly/ whose city is then "monthly"), the router
    answers 307, redirecting to that path without the slashes.  Every other
    path is answered 404 "Not Found"; this is the case of an empty city
    segment after /api/weather/. *)
Theorem unrouted_path_is_redirected_or_404 (segs : list string) (st : state) :
  hd_error segs = Some "api" ->
  (forall base n,
      endpoint_path base -> segs = with_slashes base (S n) ->
      App.redirect_path segs = base
      /\ App.handle_get segs st = (App.mkHttp 307 (JString EmptyString), st))
  /\ ((forall base n, endpoint_path base -> segs <> with_slashes base n) ->
      App.handle_get segs st
      = (App.mkHttp 404 (JObject [("detail", JString "Not Found")]), st)).
Proof.
  intros _. split.
  - intros base n Hbase ->.
    destruct (endpoint_path_last base "-" Hbase) as [Hlast Hstrip].
    assert (Hred : App.redirect_path (with_slashes base (S n)) = base).
    { unfold App.redirect_path. rewrite last_with_slashes. simpl String.eqb.
      now rewrite rstrip_with_slashes. }
    split; [exact Hred|].
    unfold App.handle_get. rewrite find_handler_unrouted.
    + rewrite Hred.
      destruct (App.find_route App.routes base) eqn:E; [reflexivity|].
      now apply find_route_endpoint_path in Hbase.
    + intros Hpath. apply (endpoint_path_last _ "-") in Hpath.
      rewrite last_with_slashes in Hpath. now destruct Hpath.
  - intros Hno. unfold App.handle_get. rewrite find_handler_unrouted.
    + destruct (App.find_route App.routes (App.redirect_path segs)) eqn:E; [|reflexivity].
      exfalso.
      assert (Hpath : endpoint_path (App.redirect_path segs)).
      { apply find_route_endpoint_path. now rewrite E. }
      unfold App.redirect_path in Hpath.
      destruct (String.eqb (last segs "-") EmptyString) eqn:El.
      * destruct (rstrip_decompose segs) as [n Hn]. exact (Hno _ n Hpath Hn).
      * apply (endpoint_path_last _ "-") in Hpath.
        rewrite last_last in Hpath. now destruct Hpath.
    + intros Hpath. apply (Hno segs 0%nat Hpath).
      unfold with_slashes. simpl. now rewrite app_nil_r.
Qed.
End MoreEndpointProperties.

(* ===================================================================== *)
(** ** Properties of the One Call functions of [WeatherService] *)
(* ===================================================================== *)

Section OneCallProperties.
Context {P : Platform} {F : FloatArithmetic}.

Lemma rbind_ok_inv {A B : Type} (m : result A) (k : A -> result B) (v : B) :
  rbind m k = Ok v -> exists a, m = Ok a /\ k a = Ok v.
Proof. destruct m as [a|e]; simpl; [eauto | discriminate]. Qed.

Lemma py_round_int (x v : json) : py_round x = Ok v -> exists n, v = JInt n.
Proof.
  destruct x as [|b|n|f|s|xs|kvs]; simpl; try discriminate.
  - intros H. injection H as <-. eauto.
  - intros H. injection H as <-. eauto.
  - destruct (Prim2SF f); intros H; inversion H; eauto.
Qed.

Lemma slice_to_of_list (n : nat) (xs : list json) (v : json) :
  slice_to n (JList xs) = Ok v -> v = JList (firstn n xs).
Proof. unfold slice_to. now intros H; injection H as <-. Qed.

Lemma slice_to_bound (n : nat) (x : json) (xs : list json) :
  slice_to n x = Ok (JList xs) -> (List.length xs <= n)%nat.
Proof.
  destruct x; unfold slice_to; intros H; try discriminate.
  injection H as <-. apply firstn_le_length.
Qed.

Lemma getitem_path (j : json) (k : string) (v : json) :
  getitem j k = Ok v <-> path j [k] = Some v.
Proof.
  destruct j; simpl; try (split; discriminate).
  destruct (dict_get k kvs); split; intros H; inversion H; auto.
Qed.

(** [get_weather_by_location] never raises, issues exactly its one call,
    and returns what [onecall_of_reply] reads off the reply. *)
Lemma get_weather_by_location_run (lat lon : json) (st : state) :
  WeatherService.get_weather_by_location lat lon st
  = (Ok (onecall_of_reply (fst (send (world st) (WeatherService.onecall_request lat lon)))),
     mkState (snd (send (world st) (WeatherService.onecall_request lat lon)))
             (trace st ++ [WeatherService.onecall_request lat lon])).
Proof.
  unfold WeatherService.get_weather_by_location, try_except, bind, client_get, lift, ret.
  destruct (send (world st) (WeatherService.onecall_request lat lon)) as [r w'].
  destruct r as [f|code [data|]]; simpl; auto;
    unfold requests_raise_for_status; simpl; destruct (is_http_error code); simpl; auto.
  destruct (WeatherService.onecall_report data); simpl; auto.
Qed.

(** [get_weather_by_city] stops after its geocoding call when that gives no
    coordinates, and otherwise continues as [get_weather_by_location]. *)
Lemma get_weather_by_city_run (city : string) (st : state) :
  WeatherService.get_weather_by_city city st
  = let (r1, w1) := send (world st) (WeatherService.city_request city) in
    let st1 := mkState w1 (trace st ++ [WeatherService.city_request city]) in
    match city_target_of_reply r1 with
    | None => (Ok None, st1)
    | Some (lat, lon) => WeatherService.get_weather_by_location lat lon st1
    end.
Proof.
  unfold WeatherService.get_weather_by_city, try_except, bind, client_get, lift, ret.
  destruct (send (world st) (WeatherService.city_request city)) as [r1 w1].
  destruct r1 as [f|code [locations|]]; simpl; auto;
    unfold requests_raise_for_status; simpl; destruct (is_http_error code); simpl; auto.
  destruct (truthy locations); simpl; auto.
  destruct (getitem0 locations) as [location|]; simpl; auto.
  destruct (getitem location "lat") as [lat|]; simpl; auto.
  destruct (getitem location "lon") as [lon|]; simpl; auto.
  rewrite get_weather_by_location_run. reflexivity.
Qed.

(** What a report says about the payload it was built from. *)
Lemma onecall_report_inv (data report : json) :
  WeatherService.onecall_report data = Ok report ->
  exists provided t f humidity pressure ws wind_deg conditions
         temp feels_like wind_speed weather h d hourly daily alerts,
    getitem data "current" = Ok provided
    /\ getitem provided "temp" = Ok t /\ py_round t = Ok temp
    /\ getitem provided "feels_like" = Ok f /\ py_round f = Ok feels_like
    /\ getitem provided "humidity" = Ok humidity
    /\ getitem provided "pressure" = Ok pressure
    /\ getitem provided "wind_speed" = Ok ws /\ kmh ws = Ok wind_speed
    /\ getitem provided "wind_deg" = Ok wind_deg
    /\ getitem provided "weather" = Ok conditions /\ getitem0 conditions = Ok weather
    /\ getitem data "hourly" = Ok h /\ slice_to 24 h = Ok hourly
    /\ getitem data "daily" = Ok d /\ slice_to 7 d = Ok daily
    /\ get_method data "alerts" (JList []) = Ok alerts
    /\ report = JObject [("current",
                          JObject [("temp", temp);
                                   ("feels_like", feels_like);
                                   ("humidity", humidity);
                                   ("pressure", pressure);
                                   ("wind_speed", wind_speed);
                                   ("wind_deg", wind_deg);
                                   ("weather", weather)]);
                         ("hourly", hourly);
                         ("daily", daily);
                         ("alerts", alerts)].
Proof.
  unfold WeatherService.onecall_report, WeatherService.current_conditions.
  intros H.
  destruct (getitem data "current") as [provided|] eqn:Hc; [|discriminate].
  simpl in H.
  unfold rbind in H.
  repeat match type of H with
         | context [match ?m with Ok _ => _ | Raise _ => _ end] =>
             lazymatch m with
             | context [match _ with Ok _ => _ | Raise _ => _ end] => fail
             | _ =>
                 let E := fresh "E" in
                 destruct m eqn:E; simpl in H; [|discriminate H]
             end
         end.
  injection H as <-.
  do 17 eexists. repeat (split; [eassumption || reflexivity|]). reflexivity.
Qed.

(** X15.  In a report of [get_weather_by_location], [temp] and
    [feels_like] are integers; [humidity], [pressure] and [wind_deg] are
    the provider's; [weather] is the first of the provider's conditions;
    [hourly] is the first 24 entries of the provider's list and [daily] the
    first 7; and [alerts] is the provider's, or the empty list when the
    payload has none. *)
Theorem onecall_report_shape (lat lon : json) (st : state) (report : json) :
  fst (WeatherService.get_weather_by_location lat lon st) = Ok (Some report) ->
  exists data provided current hourly daily alerts temp feels_like,
    content_of (fst (send (world st) (WeatherService.onecall_request lat lon)))
    = Some data
    /\ path data ["current"] = Some provided
    /\ report = JObject [("current", current); ("hourly", hourly);
                         ("daily", daily); ("alerts", alerts)]
    /\ path current ["temp"] = Some (JInt temp)
    /\ path current ["feels_like"] = Some (JInt feels_like)
    /\ path current ["humidity"] = path provided ["humidity"]
    /\ path current ["pressure"] = path provided ["pressure"]
    /\ path current ["wind_deg"] = path provided ["wind_deg"]
    /\ (exists conditions,
          path provided ["weather"] = Some conditions
          /\ getitem0 conditions = Ok match path current ["weather"] with
                                      | Some w => w
                                      | None => JNull
                                      end)
    /\ (forall hs, path data ["hourly"] = Some (JList hs) ->
                   hourly = JList (firstn 24 hs))
    /\ (forall ds, path data ["daily"] = Some (JList ds) ->
                   daily = JList (firstn 7 ds))
    /\ (forall xs, hourly = JList xs -> (List.length xs <= 24)%nat)
    /\ (forall xs, daily = JList xs -> (List.length xs <= 7)%nat)
    /\ alerts = match path data ["alerts"] with
                | Some a => a
                | None => JList []
                end.
Proof.
  rewrite get_weather_by_location_run. simpl.
  destruct (fst (send (world st) (WeatherService.onecall_request lat lon)))
    as [f|code [data|]]; simpl; try discriminate.
  destruct (is_http_error code); try discriminate.
  destruct (WeatherService.onecall_report data) as [rep|] eqn:Hrep; try discriminate.
  intros H. injection H as <-.
  destruct (onecall_report_inv _ _ Hrep)
    as (provided & t & f & humidity & pressure & ws & wind_deg & conditions
        & temp & feels_like & wind_speed & weather & h & d & hourly & daily & alerts
        & Hc & Ht & Hrt & Hf & Hrf & Hh & Hp & Hws & Hk & Hwd & Hcs & Hw
        & Hh24 & Hs24 & Hd7 & Hs7 & Ha & ->).
  destruct (py_round_int _ _ Hrt) as [nt ->].
  destruct (py_round_int _ _ Hrf) as [nf ->].
  apply getitem_path in Hc, Hh, Hp, Hwd, Hcs, Hh24, Hd7.
  exists data, provided. do 4 eexists. exists nt, nf.
  split; [reflexivity|]. split; [exact Hc|]. split; [reflexivity|].
  split; [reflexivity|]. split; [reflexivity|].
  split; [transitivity (Some humidity); [reflexivity | symmetry; exact Hh]|].
  split; [transitivity (Some pressure); [reflexivity | symmetry; exact Hp]|].
  split; [transitivity (Some wind_deg); [reflexivity | symmetry; exact Hwd]|].
  split; [exists conditions; split; [exact Hcs | exact Hw]|].
  split.
  { intros hs Hhs.
    assert (E : Some h = Some (JList hs))
      by (transitivity (path data ["hourly"]); [symmetry; exact Hh24 | exact Hhs]).
    injection E as ->. exact (slice_to_of_list _ _ _ Hs24). }
  split.
  { intros ds Hds.
    assert (E : Some d = Some (JList ds))
      by (transitivity (path data ["daily"]); [symmetry; exact Hd7 | exact Hds]).
    injection E as ->. exact (slice_to_of_list _ _ _ Hs7). }
  split.
  { intros xs ->. exact (slice_to_bound _ _ _ Hs24). }
  split.
  { intros xs ->. exact (slice_to_bound _ _ _ Hs7). }
  destruct data; simpl in Ha; try discriminate. simpl.
  destruct (dict_get "alerts" kvs); now injection Ha as <-.
Qed.

(** X16.  [get_weather_by_location] returns [None] when its call raises,
    when the status is a 4xx or a 5xx, when the body is not JSON, and when
    the payload lacks [current], [hourly] or [daily]; a reply with any
    other status is read like a 200. *)
Theorem onecall_failures
  (lat lon : json) (st : state) (r : reply) (w' : World) :
  send (world st) (WeatherService.onecall_request lat lon) = (r, w') ->
  (requests_failed r = true ->
   WeatherService.get_weather_by_location lat lon st
   = (Ok None, mkState w' (trace st ++ [WeatherService.onecall_request lat lon])))
  /\ (forall code data,
        r = Response code (Some data) ->
        path data ["current"] = None \/ path data ["hourly"] = None
        \/ path data ["daily"] = None ->
        fst (WeatherService.get_weather_by_location lat lon st) = Ok None)
  /\ (forall code data,
        r = Response code (Some data) ->
        is_http_error code = false ->
        fst (WeatherService.get_weather_by_location lat lon st)
        = Ok match WeatherService.onecall_report data with
             | Ok report => Some report
             | Raise _ => None
             end).
Proof.
  intros Hsend. rewrite get_weather_by_location_run, Hsend. simpl.
  split; [|split].
  - intros Hf. do 2 f_equal.
    destruct r as [f|code [data|]]; simpl in *; auto. now rewrite Hf.
  - intros code data -> Hmiss. simpl. f_equal.
    destruct (is_http_error code); auto.
    destruct (WeatherService.onecall_report data) as [rep|] eqn:Hrep; auto.
    exfalso.
    destruct (onecall_report_inv _ _ Hrep)
      as (provided & t & f & humidity & pressure & ws & wind_deg & conditions
          & temp & feels_like & wind_speed & weather & h & d & hourly & daily & alerts
          & Hc & _ & _ & _ & _ & _ & _ & _ & _ & _ & _ & _
          & Hh24 & _ & Hd7 & _).
    apply getitem_path in Hc, Hh24, Hd7. simpl in Hc, Hh24, Hd7.
    destruct Hmiss as [Hm|[Hm|Hm]]; congruence.
  - intros code data -> Hcode. simpl. now rewrite Hcode.
Qed.

Lemma city_target_of_reply_some (r : reply) (lat lon : json) :
  city_target_of_reply r = Some (lat, lon) ->
  exists code first rest,
    r = Response code (Some (JList (first :: rest)))
    /\ is_http_error code = false
    /\ getitem first "lat" = Ok lat /\ getitem first "lon" = Ok lon.
Proof.
  unfold city_target_of_reply.
  destruct r as [f|code [locations|]]; try discriminate.
  destruct (is_http_error code) eqn:Hcode; simpl; try discriminate.
  destruct locations as [|b|n|x|s|[|first rest]|[|kv kvs]]; simpl;
    try discriminate; try (destruct s; discriminate);
    try (match goal with
         | |- context [if ?c then None else None] => destruct c
         end; discriminate).
  destruct (getitem first "lat") as [lat'|] eqn:Hlat; try discriminate.
  destruct (getitem first "lon") as [lon'|] eqn:Hlon; try discriminate.
  intros H. injection H as <- <-. eauto 10.
Qed.

(** X17.  [get_weather_by_city] never raises.  It issues its geocoding
    call and stops there with [None], or goes on to exactly one One Call
    request, whose [lat] and [lon] parameters are the [lat] and [lon] of
    the first element of the geocoder's list, and returns what
    [get_weather_by_location] makes of the reply. *)
Theorem get_weather_by_city_calls (city : string) (st : state) :
  exists o st',
    WeatherService.get_weather_by_city city st = (Ok o, st')
    /\ ((o = None
         /\ trace st' = (trace st ++ [WeatherService.city_request city])%list)
        \/ exists code first rest lat lon,
             fst (send (world st) (WeatherService.city_request city))
             = Response code (Some (JList (first :: rest)))
             /\ is_http_error code = false
             /\ getitem first "lat" = Ok lat /\ getitem first "lon" = Ok lon
             /\ trace st'
                = (trace st ++ [WeatherService.city_request city;
                                WeatherService.onecall_request lat lon])%list
             /\ coordinates (WeatherService.onecall_request lat lon)
                = (Some lat, Some lon)
             /\ o = onecall_of_reply
                      (fst (send (snd (send (world st) (WeatherService.city_request city)))
                                 (WeatherService.onecall_request lat lon)))).
Proof.
  rewrite get_weather_by_city_run.
  destruct (send (world st) (WeatherService.city_request city)) as [r1 w1].
  destruct (city_target_of_reply r1) as [[lat lon]|] eqn:Ht.
  - rewrite get_weather_by_location_run. simpl.
    do 2 eexists. split; [reflexivity|]. right.
    destruct (city_target_of_reply_some _ _ _ Ht) as (code & first & rest & -> & Hc & Hlat & Hlon).
    exists code, first, rest, lat, lon. simpl. rewrite <- app_assoc. auto 10.
  - do 2 eexists. split; [reflexivity|]. left. auto.
Qed.
End OneCallProperties.

(* ===================================================================== *)
(** ** The further properties on the scripted platform *)
(* ===================================================================== *)

Section MoreRuns.
#[local] Existing Instance Scripted.platform.
#[local] Existing Instance Scripted.arithmetic.
Import Scripted.

Example onecall_run :
  fst (WeatherService.get_weather_by_city "London"
         (start [geocoded [london; london_ontario]; Response 200 (Some onecall_payload)]))
  = Ok (Some onecall_expected).
Proof. vm_compute. reflexivity. Qed.

(** /api/weather/monthly/ is /api/weather/monthly, the current weather of
    a city named monthly, with a slash too many: it is redirected there,
    and so is a path with several slashes. *)
Example trailing_slash_run :
  App.handle_get ["api"; "weather"; "monthly"; EmptyString] (start [])
  = (App.mkHttp 307 (JString EmptyString), start [])
  /\ App.redirect_path ["api"; "weather"; "monthly"; EmptyString]
     = ["api"; "weather"; "monthly"]
  /\ App.handle_get ["api"; "weather"; "monthly"; "London"; EmptyString; EmptyString]
                    (start [])
     = (App.mkHttp 307 (JString EmptyString), start [])
  /\ App.handle_get ["api"; "weather"] (start [])
     = (App.mkHttp 404 (JObject [("detail", JString "Not Found")]), start []).
Proof. repeat split. Qed.

(** The requests library lets a 304 through; httpx does not. *)
Example onecall_not_modified_run :
  fst (WeatherService.get_weather_by_location (JInt 51) (JInt 0)
         (start [Response 304 (Some onecall_payload)]))
  = Ok (Some onecall_expected)
  /\ fst (WeatherService.get_monthly_forecast (JInt 51) (JInt 0)
            (start [Response 304 (Some forecast_payload)]))
     = Ok None.
Proof. split; vm_compute; reflexivity. Qed.

(** The forecast report for London. *)
Lemma monthly_report_keeps_city_and_cod_witness :
  exists data fields city cod,
    content_of (fst (send (world (start [Response 200 (Some forecast_payload)]))
                          (WeatherService.forecast_request (JInt 51) (JInt 0))))
    = Some data
    /\ forecast_report = JObject fields
    /\ dict_keys fields = ["city"; "cod"; "message"; "cnt"; "list"]
    /\ path data ["city"] = Some city /\ path forecast_report ["city"] = Some city
    /\ path data ["cod"] = Some cod /\ path forecast_report ["cod"] = Some cod.
Proof.
  apply (monthly_report_keeps_city_and_cod (JInt 51) (JInt 0)
           (start [Response 200 (Some forecast_payload)]) forecast_report).
  vm_compute. reflexivity.
Defined.

(** The four samples against the two that open a date. *)
Lemma forecast_ignores_repeated_dates_witness :
  fst (WeatherService.get_monthly_forecast (JInt 51) (JInt 0)
         (start [Response 200
                   (Some (JObject (dict_set "list" (JList (first_samples forecast_samples))
                                            forecast_fields)))]))
  = fst (WeatherService.get_monthly_forecast (JInt 51) (JInt 0)
           (start [Response 200 (Some forecast_payload)])).
Proof.
  apply (forecast_ignores_repeated_dates (JInt 51) (JInt 0)
           (start [Response 200 (Some forecast_payload)])
           (start [Response 200
                     (Some (JObject (dict_set "list" (JList (first_samples forecast_samples))
                                              forecast_fields)))])
           200 200 forecast_fields forecast_samples [] []);
    reflexivity.
Defined.

(** The first two samples, on 2023-11-14, then all four: the two added
    samples, on 2023-11-15, add one day, seeded by the first of them. *)
Lemma appended_samples_keep_earlier_days_witness :
  map calendar_date forecast_samples
  = [Some "2023-11-14"; Some "2023-11-14"; Some "2023-11-15"; Some "2023-11-15"]
  /\ exists report1 report2 days later,
      fst (WeatherService.get_monthly_forecast (JInt 51) (JInt 0)
             (start [Response 200
                       (Some (JObject (forecast_with (firstn 2 forecast_samples))))]))
      = Ok (Some report1)
      /\ fst (WeatherService.get_monthly_forecast (JInt 51) (JInt 0)
                (start [Response 200 (Some (JObject (forecast_with forecast_samples)))]))
         = Ok (Some report2)
      /\ path report1 ["list"] = Some (JList days)
      /\ path report2 ["list"] = Some (JList (days ++ later))
      /\ days = [day 1699995600 280.5%float 279.0%float 281.0%float (JInt 0)]
      /\ later = [day 1700006400 278.5%float 277.0%float 279.5%float (JFloat 1.25%float)].
Proof.
  split; [vm_compute; reflexivity|].
  destruct (appended_samples_keep_earlier_days (JInt 51) (JInt 0)
           (start [Response 200 (Some (JObject (forecast_with (firstn 2 forecast_samples))))])
           (start [Response 200 (Some (JObject (forecast_with forecast_samples)))])
           200 200 (forecast_with (firstn 2 forecast_samples)) (forecast_with forecast_samples)
           [] [] london_city (JString "200") london_city (JString "200")
           (firstn 2 forecast_samples) (skipn 2 forecast_samples))
    as (report1 & report2 & days & later & H1 & H2 & Hdays & Hall & Hlater);
    try reflexivity.
  exists report1, report2, days, later.
  split; [exact H1|]. split; [exact H2|]. split; [exact Hdays|]. split; [exact Hall|].
  assert (E : fst (WeatherService.get_monthly_forecast (JInt 51) (JInt 0)
                     (start [Response 200
                               (Some (JObject (forecast_with (firstn 2 forecast_samples))))]))
              = Ok (Some (JObject
                            [("city", london_city); ("cod", JString "200");
                             ("message", JInt 0); ("cnt", JInt 1);
                             ("list", JList [day 1699995600 280.5%float 279.0%float
                                                 281.0%float (JInt 0)])])))
    by (vm_compute; reflexivity).
  rewrite E in H1. injection H1 as <-.
  simpl in Hdays. injection Hdays as <-.
  split; [reflexivity|].
  rewrite Hlater. vm_compute. reflexivity.
Defined.

(** Four samples, two days. *)
Lemma monthly_report_count_bounds_witness :
  exists (days : list json) (data samples : json) (items : list json),
    path forecast_report ["list"] = Some (JList days)
    /\ content_of (fst (send (world (start [Response 200 (Some forecast_payload)]))
                             (WeatherService.forecast_request (JInt 51) (JInt 0))))
       = Some data
    /\ path data ["list"] = Some samples
    /\ iterate samples = Ok items
    /\ (List.length days <= List.length items)%nat
    /\ (items = [] <-> days = [])
    /\ (forall s rest, items = s :: rest ->
          exists e later, days = e :: later /\ seeded_from e s).
Proof.
  apply (monthly_report_count_bounds (JInt 51) (JInt 0)
           (start [Response 200 (Some forecast_payload)]) forecast_report).
  vm_compute. reflexivity.
Defined.


(** A match whose latitude is [null], which the model rejects: no float
    can be made of it. *)
Lemma rejected_location_answers_404_witness :
  LocationData [("lat", JNull); ("lon", JFloat (-0.125)%float);
                ("name", JString "London"); ("country", JString "GB")]
  = Raise ValidationError
  /\ App.handle_get ["api"; "weather"; "London"] (start [geocoded [london_null_lat]])
     = (App.mkHttp 404 (JObject [("detail", JString "City not found")]),
        mkState [] [WeatherService.geo_request "London"]).
Proof.
  split; [reflexivity|].
  apply (rejected_location_answers_404 "London" (start [geocoded [london_null_lat]])
           [("lat", JNull); ("lon", JFloat (-0.125)%float);
            ("name", JString "London"); ("country", JString "GB")]
           ValidationError);
    [discriminate | reflexivity | reflexivity].
Defined.



(** An unknown city at the router's endpoint. *)
Lemma router_get_weather_outcomes_witness :
  snd (Api.get_weather "Atlantis" (start [geocoded []]))
  = snd (WeatherService.get_weather "Atlantis" (start [geocoded []]))
  /\ (forall d,
        fst (WeatherService.get_weather "Atlantis" (start [geocoded []])) = Ok (Some d) ->
        fst (Api.get_weather "Atlantis" (start [geocoded []])) = Ok d)
  /\ (fst (WeatherService.get_weather "Atlantis" (start [geocoded []])) = Ok None ->
      fst (Api.get_weather "Atlantis" (start [geocoded []]))
      = Raise (HTTPException 500
                 ("Internal server error: "
                  ++ exn_str (HTTPException 500 "Internal server error: City not found")))).
Proof.
  apply (router_get_weather_outcomes "Atlantis" (start [geocoded []])). discriminate.
Defined.

(** A city followed by a slash is redirected to the city's path; an empty
    city segment is not found. *)
Lemma unrouted_path_is_redirected_or_404_witness :
  (App.redirect_path ["api"; "weather"; "London"; EmptyString]
   = ["api"; "weather"; "London"]
   /\ App.handle_get ["api"; "weather"; "London"; EmptyString]
                     (start [geocoded [london]])
      = (App.mkHttp 307 (JString EmptyString), start [geocoded [london]]))
  /\ App.handle_get ["api"; "weather"; EmptyString] (start [geocoded [london]])
     = (App.mkHttp 404 (JObject [("detail", JString "Not Found")]),
        start [geocoded [london]]).
Proof.
  split.
  - apply (proj1 (unrouted_path_is_redirected_or_404
                    ["api"; "weather"; "London"; EmptyString]
                    (start [geocoded [london]]) eq_refl)
                 ["api"; "weather"; "London"] 0%nat).
    + exists "London". split; [discriminate | now left].
    + reflexivity.
  - apply (proj2 (unrouted_path_is_redirected_or_404
                    ["api"; "weather"; EmptyString]
                    (start [geocoded [london]]) eq_refl)).
    intros base n (city & Hne & [-> | ->]) E; unfold with_slashes in E; simpl in E.
    + injection E as E _. now apply Hne.
    + discriminate E.
Defined.

(** Thirty hours and eight days from the provider. *)
Lemma onecall_report_shape_witness :
  exists data provided current hourly daily alerts temp feels_like,
    content_of (fst (send (world (start [Response 200 (Some onecall_payload)]))
                          (WeatherService.onecall_request (JInt 51) (JInt 0))))
    = Some data
    /\ path data ["current"] = Some provided
    /\ onecall_expected = JObject [("current", current); ("hourly", hourly);
                                   ("daily", daily); ("alerts", alerts)]
    /\ path current ["temp"] = Some (JInt temp)
    /\ path current ["feels_like"] = Some (JInt feels_like)
    /\ path current ["humidity"] = path provided ["humidity"]
    /\ path current ["pressure"] = path provided ["pressure"]
    /\ path current ["wind_deg"] = path provided ["wind_deg"]
    /\ (exists conditions,
          path provided ["weather"] = Some conditions
          /\ getitem0 conditions = Ok match path current ["weather"] with
                                      | Some w => w
                                      | None => JNull
                                      end)
    /\ (forall hs, path data ["hourly"] = Some (JList hs) ->
                   hourly = JList (firstn 24 hs))
    /\ (forall ds, path data ["daily"] = Some (JList ds) ->
                   daily = JList (firstn 7 ds))
    /\ (forall xs, hourly = JList xs -> (List.length xs <= 24)%nat)
    /\ (forall xs, daily = JList xs -> (List.length xs <= 7)%nat)
    /\ alerts = match path data ["alerts"] with
                | Some a => a
                | None => JList []
                end.
Proof.
  apply (onecall_report_shape (JInt 51) (JInt 0)
           (start [Response 200 (Some onecall_payload)]) onecall_expected).
  vm_compute. reflexivity.
Defined.

(** A 404 from the One Call endpoint. *)
Lemma onecall_failures_witness :
  (requests_failed (Response 404 None) = true ->
   WeatherService.get_weather_by_location (JInt 51) (JInt 0) (start [Response 404 None])
   = (Ok None,
      mkState [] (trace (start [Response 404 None])
                  ++ [WeatherService.onecall_request (JInt 51) (JInt 0)])))
  /\ (forall code data,
        Response 404 None = Response code (Some data) ->
        path data ["current"] = None \/ path data ["hourly"] = None
        \/ path data ["daily"] = None ->
        fst (WeatherService.get_weather_by_location (JInt 51) (JInt 0)
               (start [Response 404 None])) = Ok None)
  /\ (forall code data,
        Response 404 None = Response code (Some data) ->
        is_http_error code = false ->
        fst (WeatherService.get_weather_by_location (JInt 51) (JInt 0)
               (start [Response 404 None]))
        = Ok match WeatherService.onecall_report data with
             | Ok report => Some report
             | Raise _ => None
             end).
Proof.
  apply (onecall_failures (JInt 51) (JInt 0) (start [Response 404 None])
           (Response 404 None) []).
  reflexivity.
Defined.
End MoreRuns.
